(** * LLGL: render-target binding (OpenGL) and command recording (Vulkan)

    A shallow embedding of
      - sources/Renderer/OpenGL/Texture/GLRenderTarget.cpp
      - sources/Renderer/Vulkan/VKCommandBuffer.cpp
    The C++ member functions become computations in a state-and-failure
    monad over the object's members and the native driver.  A failure keeps
    the state reached so far, so what happened before a [throw] stays
    visible. *)

From Stdlib Require Import ZArith Lia Bool String.
From stdpp Require Import base numbers list option gmap.

#[local] Open Scope Z_scope.

(** ** Execution monad *)

Module Exec.

Inductive Outcome (E A : Type) : Type :=
| Ok (a : A)
| Fail (e : E).
Arguments Ok {E A} a.
Arguments Fail {E A} e.

Section Monad.
Context {S E : Type}.

Definition M (A : Type) : Type := S -> Outcome E A * S.

Definition ret {A} (a : A) : M A := fun s => (Ok a, s).

Definition bind {A B} (m : M A) (k : A -> M B) : M B :=
  fun s => match m s with
           | (Ok a, s') => k a s'
           | (Fail e, s') => (Fail e, s')
           end.

Definition fail {A} (e : E) : M A := fun s => (Fail e, s).
Definition get : M S := fun s => (Ok s, s).
Definition gets {A} (f : S -> A) : M A := fun s => (Ok (f s), s).
Definition modify (f : S -> S) : M unit := fun s => (Ok tt, f s).

End Monad.

Arguments M : clear implicits.
Arguments Outcome : clear implicits.

(** The monad is used through stdpp's [x ← c; k] and [c ;; k]. *)
#[global] Instance M_ret {S E} : MRet (M S E) := @ret S E.
#[global] Instance M_bind {S E} : MBind (M S E) :=
  fun A B k m => @bind S E A B m k.

(** C++ [if (c) body;] with no else branch. *)
Definition when {S E} (c : bool) (body : M S E unit) : M S E unit :=
  if c then body else mret tt.

(** Range-based [for (x : xs) body(x);]. *)
Fixpoint for_each {S E A} (xs : list A) (body : A -> M S E unit) : M S E unit :=
  match xs with
  | [] => mret tt
  | x :: xs' => body x ;; for_each xs' body
  end.

(** Counting loop [for (i = first; i < first + count; ++i) acc = body(i, acc);]
    where the bounds cannot wrap. *)
Fixpoint for_range {S E B} (first count : nat) (body : nat -> B -> M S E B) (acc : B)
    : M S E B :=
  match count with
  | O => mret acc
  | Datatypes.S count' =>
      acc' ← body first acc;
      for_range (Datatypes.S first) count' body acc'
  end.

End Exec.

Import Exec.

(** Conversions between the fixed-width integer types the sources cast
    between. *)
Definition to_uint32 (z : Z) : Z := z mod 2 ^ 32.
Definition to_int32 (z : Z) : Z :=
  let u := z mod 2 ^ 32 in if u <? 2 ^ 31 then u else u - 2 ^ 32.


(** ** OpenGL back end: GLRenderTarget.cpp *)

Module GL.

(** *** Native enumerants (values of the OpenGL headers) *)

Definition GL_NONE : Z := 0.
Definition GL_BACK : Z := 0x0405.
Definition GL_DEPTH_BUFFER_BIT : Z := 0x0100.
Definition GL_STENCIL_BUFFER_BIT : Z := 0x0400.
Definition GL_COLOR_BUFFER_BIT : Z := 0x4000.
Definition GL_STENCIL_INDEX : Z := 0x1901.
Definition GL_DEPTH_COMPONENT : Z := 0x1902.
Definition GL_RED : Z := 0x1903.
Definition GL_RGBA : Z := 0x1908.
Definition GL_DEPTH_STENCIL : Z := 0x84F9.
Definition GL_DEPTH_STENCIL_ATTACHMENT : Z := 0x821A.
Definition GL_COLOR_ATTACHMENT0 : Z := 0x8CE0.
Definition GL_DEPTH_ATTACHMENT : Z := 0x8D00.
Definition GL_STENCIL_ATTACHMENT : Z := 0x8D20.
Definition GL_FRAMEBUFFER_COMPLETE : Z := 0x8CD5.

(** *** Descriptors (the fields GLRenderTarget.cpp reads) *)

Inductive AttachmentType := Color | Depth | DepthStencil | Stencil.

Inductive TextureType :=
| Texture1D | Texture2D | Texture3D | TextureCube
| Texture1DArray | Texture2DArray | TextureCubeArray
| Texture2DMS | Texture2DMSArray.

(** A texture object as the render target sees it: its GL name, its type
    and the value the driver answers to the GL_TEXTURE_INTERNAL_FORMAT
    query of [GetTexInternalFormat]. *)
Record Texture := {
  texID : Z;
  texType : TextureType;
  texInternalFormat : Z }.

Record AttachmentDescriptor := {
  type : AttachmentType;
  texture : option Texture;          (* nullptr is None *)
  mipLevel : Z;
  arrayLayer : Z }.

(** [sampleCount] is the value of [desc.multiSampling.SampleCount()]. *)
Record RenderTargetDescriptor := {
  resolution : Z * Z;                (* width, height *)
  sampleCount : Z;
  customMultiSampling : bool;
  attachments : list AttachmentDescriptor }.

(** *** Native calls *)

Inductive GLFramebufferTarget := FRAMEBUFFER | DRAW_FRAMEBUFFER | READ_FRAMEBUFFER.

Inductive TexTarget :=
| GL_TEXTURE_1D | GL_TEXTURE_2D | GL_TEXTURE_3D | GL_TEXTURE_2D_MULTISAMPLE
| CubeMapFace (arrayLayer : Z).     (* GLTypes::ToTextureCubeMap *)

(** One event per call that leaves GLRenderTarget.cpp, named after the
    callee and carrying its arguments. *)
Inductive GLCall :=
| GenFramebuffer (id : Z)
| GenRenderbuffer (id : Z)
| BindFramebuffer (target : GLFramebufferTarget) (id : Z)
| UnbindFramebuffer (target : GLFramebufferTarget) (id : Z)
| FramebufferParameters (id width height layers samples fixedSampleLocations : Z)
| RenderbufferStorage (id internalFormat width height samples : Z)
| AttachRenderbuffer (attachment id : Z)
| AttachTexture1D (attachment : Z) (target : TexTarget) (textureID level : Z)
| AttachTexture2D (attachment : Z) (target : TexTarget) (textureID level : Z)
| AttachTexture3D (attachment : Z) (target : TexTarget) (textureID level layer : Z)
| AttachTextureLayer (attachment textureID level layer : Z)
| BindTexture (textureID : Z)
| GetTexLevelParameteriv (textureType : TextureType) (textureID : Z)
| CheckFramebufferStatus
| ReadBuffer (mode : Z)
| DrawBuffer (mode : Z)
| DrawBuffers (bufs : list Z)
| Blit (width height mask : Z).

(** *** The object and the world it runs in *)

(** Members of GLRenderTarget.  A GLFramebuffer or GLRenderbuffer member
    is its GL name, 0 while it has not been generated. *)
Record GLRenderTarget := {
  resolution_ : Z * Z;               (* RenderTarget::GetResolution() *)
  multiSamples_ : Z;
  framebuffer_ : Z;
  framebufferMS_ : Z;
  renderbuffer_ : Z;
  renderbuffersMS_ : list Z;
  colorAttachments_ : list Z;
  blitMask_ : Z }.

Record State := {
  self : GLRenderTarget;
  calls : list GLCall;               (* native calls so far, oldest first *)
  nextName : Z }.                    (* next object name the driver hands out *)

Inductive Exception :=
| DepthAttachmentFailed                          (* ErrDepthAttachmentFailed *)
| TooManyColorAttachments (numColorAttchments : nat)
| ColorAttachmentWithoutTexture                  (* std::invalid_argument *)
| FramebufferStatus (status : Z) (info : string) (* GLThrowIfFailed *)
| MipResolution.                                 (* ValidateMipResolution *)

Inductive Failure :=
| Throw (e : Exception)
| OutOfBounds (index : nat)          (* access past the end of a C array *)
| Indeterminate (index : nat).       (* read of an array element never written *)

(** What the code takes from outside the file: the driver's answer to
    glCheckFramebufferStatus (a function of the calls made so far), the
    verdict of RenderTarget::ValidateMipResolution, and whether the
    GL_ARB_framebuffer_no_attachments path is compiled in and supported. *)
Record Platform := {
  glCheckFramebufferStatus : list GLCall -> Z;
  ValidateMipResolution_ok : Z * Z -> Texture -> Z -> bool;
  ARB_framebuffer_no_attachments : bool }.

Abbreviation Run := (M State Failure).

Definition emit (c : GLCall) : Run unit :=
  modify (fun s => {| self := self s; calls := calls s ++ [c]; nextName := nextName s |}).

Definition genName : Run Z :=
  n ← gets nextName;
  modify (fun s => {| self := self s; calls := calls s; nextName := nextName s + 1 |}) ;;
  mret n.

Definition update (f : GLRenderTarget -> GLRenderTarget) : Run unit :=
  modify (fun s => {| self := f (self s); calls := calls s; nextName := nextName s |}).

Definition member {A} (f : GLRenderTarget -> A) : Run A := gets (fun s => f (self s)).

Definition set_framebuffer_ (v : Z) (o : GLRenderTarget) : GLRenderTarget :=
  {| resolution_ := resolution_ o; multiSamples_ := multiSamples_ o;
     framebuffer_ := v; framebufferMS_ := framebufferMS_ o;
     renderbuffer_ := renderbuffer_ o; renderbuffersMS_ := renderbuffersMS_ o;
     colorAttachments_ := colorAttachments_ o; blitMask_ := blitMask_ o |}.

Definition set_framebufferMS_ (v : Z) (o : GLRenderTarget) : GLRenderTarget :=
  {| resolution_ := resolution_ o; multiSamples_ := multiSamples_ o;
     framebuffer_ := framebuffer_ o; framebufferMS_ := v;
     renderbuffer_ := renderbuffer_ o; renderbuffersMS_ := renderbuffersMS_ o;
     colorAttachments_ := colorAttachments_ o; blitMask_ := blitMask_ o |}.

Definition set_renderbuffer_ (v : Z) (o : GLRenderTarget) : GLRenderTarget :=
  {| resolution_ := resolution_ o; multiSamples_ := multiSamples_ o;
     framebuffer_ := framebuffer_ o; framebufferMS_ := framebufferMS_ o;
     renderbuffer_ := v; renderbuffersMS_ := renderbuffersMS_ o;
     colorAttachments_ := colorAttachments_ o; blitMask_ := blitMask_ o |}.

Definition set_renderbuffersMS_ (v : list Z) (o : GLRenderTarget) : GLRenderTarget :=
  {| resolution_ := resolution_ o; multiSamples_ := multiSamples_ o;
     framebuffer_ := framebuffer_ o; framebufferMS_ := framebufferMS_ o;
     renderbuffer_ := renderbuffer_ o; renderbuffersMS_ := v;
     colorAttachments_ := colorAttachments_ o; blitMask_ := blitMask_ o |}.

Definition set_colorAttachments_ (v : list Z) (o : GLRenderTarget) : GLRenderTarget :=
  {| resolution_ := resolution_ o; multiSamples_ := multiSamples_ o;
     framebuffer_ := framebuffer_ o; framebufferMS_ := framebufferMS_ o;
     renderbuffer_ := renderbuffer_ o; renderbuffersMS_ := renderbuffersMS_ o;
     colorAttachments_ := v; blitMask_ := blitMask_ o |}.

Definition set_blitMask_ (v : Z) (o : GLRenderTarget) : GLRenderTarget :=
  {| resolution_ := resolution_ o; multiSamples_ := multiSamples_ o;
     framebuffer_ := framebuffer_ o; framebufferMS_ := framebufferMS_ o;
     renderbuffer_ := renderbuffer_ o; renderbuffersMS_ := renderbuffersMS_ o;
     colorAttachments_ := colorAttachments_ o; blitMask_ := v |}.

(** [blitMask_ |= bits] *)
Definition or_blitMask_ (bits : Z) : Run unit :=
  update (fun o => set_blitMask_ (Z.lor (blitMask_ o) bits) o).

(** Element access into a fixed-size C array. *)
Definition array_store {A} (buf : list (option A)) (i : nat) (x : A) : Run (list (option A)) :=
  if decide (i < length buf)%nat then mret (<[i := Some x]> buf)
  else fail (OutOfBounds i).

Definition array_load {A} (buf : list (option A)) (i : nat) : Run A :=
  match buf !! i with
  | Some (Some x) => mret x
  | Some None => fail (Indeterminate i)
  | None => fail (OutOfBounds i)
  end.

(** *** Internals *)

Definition g_maxFramebufferAttachments : nat := 32.

Definition ErrDepthAttachmentFailed {A} : Run A := fail (Throw DepthAttachmentFailed).

Definition ErrTooManyColorAttachments {A} (numColorAttchments : nat) : Run A :=
  fail (Throw (TooManyColorAttachments numColorAttchments)).

Definition is_Color (t : AttachmentType) : bool :=
  match t with Color => true | _ => false end.

Definition CountColorAttachments (attachmentDescs : list AttachmentDescriptor) : Run nat :=
  let numColorAttachments :=
    fold_left (fun n attachmentDesc =>
                 if is_Color (type attachmentDesc) then S n else n)
              attachmentDescs 0%nat in
  if (g_maxFramebufferAttachments <? numColorAttachments)%nat
  then ErrTooManyColorAttachments g_maxFramebufferAttachments
  else mret numColorAttachments.

Section WithPlatform.
Context (platform : Platform).

(** Modelled from the spec: the helper GLThrowIfFailed(status, expected,
    info) is declared outside the sources at hand; a completeness check
    that fails is fatal and surfaced, so it throws unless the status is
    the expected one.  The status itself is the platform's answer. *)
Definition ValidateFramebufferStatus (info : string) : Run unit :=
  status ← gets (fun s => glCheckFramebufferStatus platform (calls s));
  emit CheckFramebufferStatus ;;
  if status =? GL_FRAMEBUFFER_COMPLETE then mret tt
  else fail (Throw (FramebufferStatus status info)).

(** RenderTarget::ValidateMipResolution belongs to the base class, outside
    the sources at hand: whether a texture's MIP level has the resolution
    of the render target is taken from the platform, and a mismatch
    throws. *)
Definition ValidateMipResolution (texture : Texture) (mipLevel : Z) : Run unit :=
  res ← member resolution_;
  if ValidateMipResolution_ok platform res texture mipLevel then mret tt
  else fail (Throw MipResolution).

(** **** Queries *)

Definition GetNumColorAttachments (o : GLRenderTarget) : Z :=
  to_uint32 (Z.of_nat (length (colorAttachments_ o))).

Definition HasDepthAttachment (o : GLRenderTarget) : bool :=
  negb (Z.land (blitMask_ o) GL_DEPTH_BUFFER_BIT =? 0).

Definition HasStencilAttachment (o : GLRenderTarget) : bool :=
  negb (Z.land (blitMask_ o) GL_STENCIL_BUFFER_BIT =? 0).

Definition HasMultiSampling (o : GLRenderTarget) : bool := 1 <? multiSamples_ o.

Definition HasDepthStencilAttachment (o : GLRenderTarget) : bool :=
  let mask := Z.lor GL_DEPTH_BUFFER_BIT GL_STENCIL_BUFFER_BIT in
  negb (Z.land (blitMask_ o) mask =? 0).

(** A GLFramebuffer converts to true once it has a name. *)
Definition Valid (id : Z) : bool := negb (id =? 0).

Definition GetFramebuffer (o : GLRenderTarget) : Z :=
  if Valid (framebufferMS_ o) then framebufferMS_ o else framebuffer_ o.

(** **** Blitting *)

Definition BlitFramebuffer : Run unit :=
  o ← member id;
  emit (Blit (to_int32 (fst (resolution_ o))) (to_int32 (snd (resolution_ o)))
             (blitMask_ o)).

Definition BlitOntoFramebuffer : Run unit :=
  o ← member id;
  when (Valid (framebufferMS_ o) && negb (bool_decide (colorAttachments_ o = [])))
    (emit (BindFramebuffer DRAW_FRAMEBUFFER (framebuffer_ o)) ;;
     emit (BindFramebuffer READ_FRAMEBUFFER (framebufferMS_ o)) ;;
     for_each (colorAttachments_ o) (fun attachment =>
       emit (ReadBuffer attachment) ;;
       emit (DrawBuffer attachment) ;;
       BlitFramebuffer) ;;
     emit (UnbindFramebuffer READ_FRAMEBUFFER (framebufferMS_ o)) ;;
     emit (UnbindFramebuffer DRAW_FRAMEBUFFER (framebuffer_ o))).

Definition BlitOntoScreen (colorAttachmentIndex : nat) : Run unit :=
  o ← member id;
  when (bool_decide (colorAttachmentIndex < length (colorAttachments_ o))%nat)
    (emit (BindFramebuffer DRAW_FRAMEBUFFER 0) ;;
     emit (BindFramebuffer READ_FRAMEBUFFER (GetFramebuffer o)) ;;
     match colorAttachments_ o !! colorAttachmentIndex with
     | Some attachment => emit (ReadBuffer attachment)
     | None => fail (OutOfBounds colorAttachmentIndex)
     end ;;
     emit (DrawBuffer GL_BACK) ;;
     BlitFramebuffer ;;
     emit (BindFramebuffer READ_FRAMEBUFFER 0)).

(** **** Attachments *)

Definition InitRenderbufferStorage (renderbuffer internalFormat : Z) : Run unit :=
  o ← member id;
  emit (RenderbufferStorage renderbuffer internalFormat
          (to_int32 (fst (resolution_ o))) (to_int32 (snd (resolution_ o)))
          (multiSamples_ o)).

Definition CreateAndAttachRenderbuffer (internalFormat attachment : Z) : Run unit :=
  rb ← member renderbuffer_;
  if negb (Valid rb) then
    name ← genName;
    emit (GenRenderbuffer name) ;;
    update (set_renderbuffer_ name) ;;
    InitRenderbufferStorage name internalFormat ;;
    emit (AttachRenderbuffer attachment name)
  else ErrDepthAttachmentFailed.

Definition AttachDepthBuffer : Run unit :=
  CreateAndAttachRenderbuffer GL_DEPTH_COMPONENT GL_DEPTH_ATTACHMENT ;;
  or_blitMask_ GL_DEPTH_BUFFER_BIT.

Definition AttachStencilBuffer : Run unit :=
  CreateAndAttachRenderbuffer GL_STENCIL_INDEX GL_STENCIL_ATTACHMENT ;;
  or_blitMask_ GL_STENCIL_BUFFER_BIT.

Definition AttachDepthStencilBuffer : Run unit :=
  CreateAndAttachRenderbuffer GL_DEPTH_STENCIL GL_DEPTH_STENCIL_ATTACHMENT ;;
  or_blitMask_ (Z.lor GL_DEPTH_BUFFER_BIT GL_STENCIL_BUFFER_BIT).

Definition AttachAllDepthStencilBuffers
    (attachmentDescs : list AttachmentDescriptor) : Run unit :=
  for_each attachmentDescs (fun attachmentDesc =>
    match texture attachmentDesc with
    | None =>
        match type attachmentDesc with
        | Color => fail (Throw ColorAttachmentWithoutTexture)
        | Depth => AttachDepthBuffer
        | DepthStencil => AttachDepthStencilBuffer
        | Stencil => AttachStencilBuffer
        end
    | Some _ => mret tt
    end).

Definition GetTexInternalFormat (textureGL : Texture) : Run Z :=
  emit (BindTexture (texID textureGL)) ;;
  emit (GetTexLevelParameteriv (texType textureGL) (texID textureGL)) ;;
  mret (texInternalFormat textureGL).

Definition MakeFramebufferAttachment (internalFormat : Z) : Run Z :=
  o ← member id;
  if internalFormat =? GL_DEPTH_COMPONENT then
    if negb (HasDepthStencilAttachment o) then
      or_blitMask_ GL_DEPTH_BUFFER_BIT ;;
      mret GL_DEPTH_ATTACHMENT
    else ErrDepthAttachmentFailed
  else if internalFormat =? GL_DEPTH_STENCIL then
    if negb (HasDepthStencilAttachment o) then
      or_blitMask_ (Z.lor GL_DEPTH_BUFFER_BIT GL_STENCIL_BUFFER_BIT) ;;
      mret GL_DEPTH_STENCIL_ATTACHMENT
    else ErrDepthAttachmentFailed
  else
    or_blitMask_ GL_COLOR_BUFFER_BIT ;;
    let attachment :=
      to_uint32 (GL_COLOR_ATTACHMENT0
                 + to_uint32 (Z.of_nat (length (colorAttachments_ o)))) in
    update (fun o' => set_colorAttachments_ (colorAttachments_ o' ++ [attachment]) o') ;;
    mret attachment.

(** [internalFormat] is the reference [internalFormats[slot]]: the
    assignment through it is the array store. *)
Definition AttachTexture (texture : Texture) (attachmentDesc : AttachmentDescriptor)
    (internalFormats : list (option Z)) (slot : nat) : Run (list (option Z)) :=
  let textureID := texID texture in
  let mipLevel := mipLevel attachmentDesc in
  ValidateMipResolution texture mipLevel ;;
  fmt ← GetTexInternalFormat texture;
  let internalFormat := to_uint32 fmt in
  internalFormats' ← array_store internalFormats slot internalFormat;
  attachment ← MakeFramebufferAttachment internalFormat;
  match texType texture with
  | Texture1D =>
      emit (AttachTexture1D attachment GL_TEXTURE_1D textureID (to_int32 mipLevel))
  | Texture2D =>
      emit (AttachTexture2D attachment GL_TEXTURE_2D textureID (to_int32 mipLevel))
  | Texture3D =>
      emit (AttachTexture3D attachment GL_TEXTURE_3D textureID (to_int32 mipLevel)
              (to_int32 (arrayLayer attachmentDesc)))
  | TextureCube =>
      emit (AttachTexture2D attachment (CubeMapFace (arrayLayer attachmentDesc))
              textureID (to_int32 mipLevel))
  | Texture1DArray | Texture2DArray | TextureCubeArray =>
      emit (AttachTextureLayer attachment textureID (to_int32 mipLevel)
              (to_int32 (arrayLayer attachmentDesc)))
  | Texture2DMS =>
      emit (AttachTexture2D attachment GL_TEXTURE_2D_MULTISAMPLE textureID 0)
  | Texture2DMSArray =>
      emit (AttachTextureLayer attachment textureID 0
              (to_int32 (arrayLayer attachmentDesc)))
  end ;;
  mret internalFormats'.

(** The loop of [AttachAllTextures], from [colorAttachmentIndex] on. *)
Fixpoint AttachAllTextures_from (attachmentDescs : list AttachmentDescriptor)
    (internalFormats : list (option Z)) (colorAttachmentIndex : nat)
    : Run (list (option Z)) :=
  match attachmentDescs with
  | [] => mret internalFormats
  | attachmentDesc :: rest =>
      match texture attachmentDesc with
      | Some texture =>
          internalFormats' ←
            AttachTexture texture attachmentDesc internalFormats colorAttachmentIndex;
          AttachAllTextures_from rest internalFormats' (S colorAttachmentIndex)
      | None => AttachAllTextures_from rest internalFormats colorAttachmentIndex
      end
  end.

Definition AttachAllTextures (attachmentDescs : list AttachmentDescriptor)
    (internalFormats : list (option Z)) : Run (list (option Z)) :=
  AttachAllTextures_from attachmentDescs internalFormats 0.

Definition SetDrawBuffers : Run unit :=
  ca ← member colorAttachments_;
  match ca with
  | [] => emit (DrawBuffer GL_NONE)
  | [front] => emit (DrawBuffer front)
  | _ => emit (DrawBuffers ca)
  end.

Definition CreateRenderbufferMS (attachment internalFormat : Z) : Run unit :=
  renderbuffer ← genName;
  emit (GenRenderbuffer renderbuffer) ;;
  InitRenderbufferStorage renderbuffer internalFormat ;;
  emit (AttachRenderbuffer attachment renderbuffer) ;;
  update (fun o => set_renderbuffersMS_ (renderbuffersMS_ o ++ [renderbuffer]) o).

Definition CreateRenderbuffersMS (internalFormats : list (option Z)) : Run unit :=
  ca ← member colorAttachments_;
  for_each (imap (fun i attachment => (i, attachment)) ca)
    (fun '(i, attachment) =>
       internalFormat ← array_load internalFormats i;
       CreateRenderbufferMS attachment internalFormat) ;;
  SetDrawBuffers ;;
  ValidateFramebufferStatus
    "color attachments to multi-sample framebuffer object (FBO) failed".

(** **** Construction *)

Definition CreateFramebufferWithAttachments (desc : RenderTargetDescriptor) : Run unit :=
  o ← member id;
  when (HasMultiSampling o && negb (customMultiSampling desc))
    (name ← genName;
     emit (GenFramebuffer name) ;;
     update (set_framebufferMS_ name)) ;;
  let internalFormats : list (option Z) :=
    replicate g_maxFramebufferAttachments None in
  numColorAttachments ← CountColorAttachments (attachments desc);
  o ← member id;
  emit (BindFramebuffer FRAMEBUFFER (framebuffer_ o)) ;;
  internalFormats ←
    (if Valid (framebufferMS_ o) then
       AttachAllTextures (attachments desc) internalFormats
     else
       AttachAllDepthStencilBuffers (attachments desc) ;;
       internalFormats' ← AttachAllTextures (attachments desc) internalFormats;
       SetDrawBuffers ;;
       mret internalFormats');
  ValidateFramebufferStatus "color attachment to framebuffer object (FBO) failed" ;;
  when (Valid (framebufferMS_ o))
    (emit (BindFramebuffer FRAMEBUFFER (framebufferMS_ o)) ;;
     AttachAllDepthStencilBuffers (attachments desc) ;;
     CreateRenderbuffersMS internalFormats).

Definition CreateFramebufferWithNoAttachments (desc : RenderTargetDescriptor) : Run unit :=
  o ← member id;
  (if ARB_framebuffer_no_attachments platform then
     emit (FramebufferParameters (framebuffer_ o)
             (to_int32 (fst (resolution desc))) (to_int32 (snd (resolution desc)))
             1 (to_int32 (multiSamples_ o)) 0)
   else
     emit (BindFramebuffer FRAMEBUFFER (framebuffer_ o)) ;;
     name ← genName;
     emit (GenRenderbuffer name) ;;
     update (set_renderbuffer_ name) ;;
     emit (RenderbufferStorage name GL_RED
             (to_int32 (fst (resolution desc))) (to_int32 (snd (resolution desc)))
             (multiSamples_ o)) ;;
     emit (AttachRenderbuffer GL_COLOR_ATTACHMENT0 name)) ;;
  ValidateFramebufferStatus
    "initializing default parameters for framebuffer object (FBO) failed".

(** The member initialisers of the constructor. *)
Definition initial (desc : RenderTargetDescriptor) : GLRenderTarget :=
  {| resolution_ := resolution desc;
     multiSamples_ := to_int32 (sampleCount desc);
     framebuffer_ := 0; framebufferMS_ := 0; renderbuffer_ := 0;
     renderbuffersMS_ := []; colorAttachments_ := []; blitMask_ := 0 |}.

(** The constructor body. *)
Definition construct (desc : RenderTargetDescriptor) : Run unit :=
  name ← genName;
  emit (GenFramebuffer name) ;;
  update (set_framebuffer_ name) ;;
  match attachments desc with
  | [] => CreateFramebufferWithNoAttachments desc
  | _ => CreateFramebufferWithAttachments desc
  end.

(** [new GLRenderTarget(desc)] against a driver that has made no call
    yet and hands out names from 1. *)
Definition Bind (desc : RenderTargetDescriptor) : Outcome Failure unit * State :=
  construct desc {| self := initial desc; calls := []; nextName := 1 |}.

End WithPlatform.

(** Whether [CreateFramebufferWithAttachments] generates the secondary
    (multi-sample) framebuffer for [desc]. *)
Definition has_secondary_store (desc : RenderTargetDescriptor) : bool :=
  HasMultiSampling (initial desc) && negb (customMultiSampling desc).

(** Attachments the binder creates a renderbuffer for. *)
Definition without_texture (attachmentDescs : list AttachmentDescriptor)
    : list AttachmentDescriptor :=
  filter (fun attachmentDesc => texture attachmentDesc = None) attachmentDescs.

Definition numColor (attachmentDescs : list AttachmentDescriptor) : nat :=
  length (filter (fun attachmentDesc => is_Color (type attachmentDesc)) attachmentDescs).

(** What [AttachDepthBuffer], [AttachStencilBuffer] and
    [AttachDepthStencilBuffer] pass to [CreateAndAttachRenderbuffer] and
    add to the blit mask, by the type of the texture-less attachment. *)
Definition buffer_format (t : AttachmentType) : Z :=
  match t with
  | Depth => GL_DEPTH_COMPONENT
  | Stencil => GL_STENCIL_INDEX
  | DepthStencil => GL_DEPTH_STENCIL
  | Color => GL_NONE
  end.

Definition buffer_attachment (t : AttachmentType) : Z :=
  match t with
  | Depth => GL_DEPTH_ATTACHMENT
  | Stencil => GL_STENCIL_ATTACHMENT
  | DepthStencil => GL_DEPTH_STENCIL_ATTACHMENT
  | Color => GL_NONE
  end.

Definition buffer_bits (t : AttachmentType) : Z :=
  match t with
  | Depth => GL_DEPTH_BUFFER_BIT
  | Stencil => GL_STENCIL_BUFFER_BIT
  | DepthStencil => Z.lor GL_DEPTH_BUFFER_BIT GL_STENCIL_BUFFER_BIT
  | Color => 0
  end.

(** An attachment of type Color whose texture has a colour format (one
    [MakeFramebufferAttachment] gives a colour slot) and passes
    [ValidateMipResolution]. *)
Definition color_attachment (platform : Platform) (res : Z * Z)
    (attachmentDesc : AttachmentDescriptor) : Prop :=
  type attachmentDesc = Color /\
  exists tex, texture attachmentDesc = Some tex /\
    to_uint32 (texInternalFormat tex) <> GL_DEPTH_COMPONENT /\
    to_uint32 (texInternalFormat tex) <> GL_DEPTH_STENCIL /\
    ValidateMipResolution_ok platform res tex (mipLevel attachmentDesc) = true.

(** Formats [MakeFramebufferAttachment] treats as depth or depth-stencil. *)
Definition depth_format (internalFormat : Z) : bool :=
  (internalFormat =? GL_DEPTH_COMPONENT) || (internalFormat =? GL_DEPTH_STENCIL).






(** Attachments [AttachAllTextures] stores an internal format for. *)
Definition has_texture (attachmentDesc : AttachmentDescriptor) : bool :=
  match texture attachmentDesc with Some _ => true | None => false end.


(** *** Two depth or stencil attachments on one framebuffer *)






(** *** What a successful bind leaves *)

(** The bits [MakeFramebufferAttachment] adds to the blit mask for a
    texture of the given internal format. *)
Definition format_bits (internalFormat : Z) : Z :=
  if internalFormat =? GL_DEPTH_COMPONENT then GL_DEPTH_BUFFER_BIT
  else if internalFormat =? GL_DEPTH_STENCIL
       then Z.lor GL_DEPTH_BUFFER_BIT GL_STENCIL_BUFFER_BIT
       else GL_COLOR_BUFFER_BIT.

(** The colour slot [MakeFramebufferAttachment] hands out when [n] slots
    are taken. *)
Definition next_slot (n : nat) : Z :=
  to_uint32 (GL_COLOR_ATTACHMENT0 + to_uint32 (Z.of_nat n)).

(** Attachments whose texture gets a colour slot. *)
Definition color_texture (attachmentDesc : AttachmentDescriptor) : bool :=
  match texture attachmentDesc with
  | Some tex => negb (depth_format (to_uint32 (texInternalFormat tex)))
  | None => false
  end.

(** Attachments that bring a depth aspect: a Depth or DepthStencil
    renderbuffer, or a texture of depth or depth-stencil format. *)
Definition has_depth (attachmentDesc : AttachmentDescriptor) : bool :=
  match texture attachmentDesc with
  | Some tex => depth_format (to_uint32 (texInternalFormat tex))
  | None => match type attachmentDesc with
            | Depth | DepthStencil => true
            | _ => false
            end
  end.

(** Attachments that bring a stencil aspect. *)
Definition has_stencil (attachmentDesc : AttachmentDescriptor) : bool :=
  match texture attachmentDesc with
  | Some tex => to_uint32 (texInternalFormat tex) =? GL_DEPTH_STENCIL
  | None => match type attachmentDesc with
            | Stencil | DepthStencil => true
            | _ => false
            end
  end.

(** A C++ exception, as opposed to an access outside an array. *)
Definition thrown (e : Failure) : bool :=
  match e with Throw _ => true | _ => false end.

(** The members no attachment function writes. *)
Definition same_target (o o' : GLRenderTarget) : Prop :=
  resolution_ o' = resolution_ o /\ multiSamples_ o' = multiSamples_ o /\
  framebuffer_ o' = framebuffer_ o /\ framebufferMS_ o' = framebufferMS_ o.

(** What the texture pass and the renderbuffer pass add to the blit mask
    for one attachment. *)
Definition texture_bits (attachmentDesc : AttachmentDescriptor) : Z :=
  match texture attachmentDesc with
  | Some tex => format_bits (to_uint32 (texInternalFormat tex))
  | None => 0
  end.

Definition renderbuffer_bits (attachmentDesc : AttachmentDescriptor) : Z :=
  match texture attachmentDesc with
  | Some _ => 0
  | None => buffer_bits (type attachmentDesc)
  end.

(** [blitMask_ |= bits] over a list of attachments. *)
Definition mask_after (bits : AttachmentDescriptor -> Z)
    (attachmentDescs : list AttachmentDescriptor) (mask : Z) : Z :=
  fold_left (fun m attachmentDesc => Z.lor m (bits attachmentDesc)) attachmentDescs mask.

(** The blit mask of a descriptor: the bits of its textures and of its
    renderbuffers. *)
Definition expected_mask (l : list AttachmentDescriptor) : Z :=
  Z.lor (mask_after texture_bits l 0) (mask_after renderbuffer_bits l 0).

(** A bit of the blit mask is set. *)
Definition has_bit (mask bit : Z) : bool := negb (Z.land mask bit =? 0).

(** *** Sample inputs *)

(** A platform on which every framebuffer is complete and every MIP
    level has the resolution of the render target. *)
Definition accepting : Platform :=
  {| glCheckFramebufferStatus := fun _ => GL_FRAMEBUFFER_COMPLETE;
     ValidateMipResolution_ok := fun _ _ _ => true;
     ARB_framebuffer_no_attachments := false |}.




Definition texture2D (name internalFormat : Z) : Texture :=
  {| texID := name; texType := Texture2D; texInternalFormat := internalFormat |}.

Definition colorTexture (i : nat) : AttachmentDescriptor :=
  {| type := Color; texture := Some (texture2D (100 + Z.of_nat i) GL_RGBA);
     mipLevel := 0; arrayLayer := 0 |}.

Definition depthTexture : AttachmentDescriptor :=
  {| type := Depth; texture := Some (texture2D 99 GL_DEPTH_COMPONENT);
     mipLevel := 0; arrayLayer := 0 |}.


Definition buffer (t : AttachmentType) : AttachmentDescriptor :=
  {| type := t; texture := None; mipLevel := 0; arrayLayer := 0 |}.

Definition target (samples : Z) (attachmentDescs : list AttachmentDescriptor)
    : RenderTargetDescriptor :=
  {| resolution := (640, 480); sampleCount := samples;
     customMultiSampling := false; attachments := attachmentDescs |}.

(** The render target bound from one colour texture without
    multi-sampling: it has no secondary store. *)
Definition direct_target : State := snd (Bind accepting (target 1 [colorTexture 0])).

(** Two colour textures, a depth texture and a stencil renderbuffer,
    with four samples: bound through the secondary store. *)
Definition multisampled : RenderTargetDescriptor :=
  target 4 [colorTexture 0; colorTexture 1; depthTexture; buffer Stencil].

Definition multisampled_target : State := snd (Bind accepting multisampled).

End GL.

(** ** Vulkan back end: VKCommandBuffer.cpp *)

Module VK.

(** *** Constants *)

Definition g_maxNumViewportsPerBatch : Z := 16.
Definition g_maxNumColorAttachments : Z := 32.
Definition g_maxNumAttachments : Z := g_maxNumColorAttachments + 1.

Definition VK_SUCCESS : Z := 0.
Definition VK_NULL_HANDLE : Z := 0.
Definition VK_TRUE : Z := 1.
Definition UINT64_MAX : Z := 2 ^ 64 - 1.
Definition VK_IMAGE_ASPECT_COLOR_BIT : Z := 0x1.
Definition VK_IMAGE_ASPECT_DEPTH_BIT : Z := 0x2.
Definition VK_IMAGE_ASPECT_STENCIL_BIT : Z := 0x4.
Definition VK_COMMAND_POOL_CREATE_RESET_COMMAND_BUFFER_BIT : Z := 0x2.
Definition VK_COMMAND_BUFFER_USAGE_SIMULTANEOUS_USE_BIT : Z := 0x4.

(** LLGL/CommandBufferFlags.h, [struct ClearFlags]. *)
Module ClearFlags.
Definition Color : Z := Z.shiftl 1 0.
Definition Depth : Z := Z.shiftl 1 1.
Definition Stencil : Z := Z.shiftl 1 2.
Definition ColorDepth : Z := Z.lor Color Depth.
Definition DepthStencil : Z := Z.lor Depth Stencil.
Definition All : Z := Z.lor (Z.lor Color Depth) Stencil.
End ClearFlags.

(** *** Plain data *)

(** A C [float] is carried as its 32-bit pattern: the recorder only
    copies floats, it never computes with them. *)
Definition float : Type := Z.

Record Viewport := {
  x : float; y : float; width : float; height : float;
  minDepth : float; maxDepth : float }.

Record VkViewport := {
  vk_x : float; vk_y : float; vk_width : float; vk_height : float;
  vk_minDepth : float; vk_maxDepth : float }.

(** Modelled from the spec: VKTypes::Convert(VkViewport&, const Viewport&)
    is declared outside the sources at hand; the recorder forwards the
    viewports it is given, so the conversion is the member-wise copy. *)
Definition Convert (src : Viewport) : VkViewport :=
  {| vk_x := x src; vk_y := y src; vk_width := width src; vk_height := height src;
     vk_minDepth := minDepth src; vk_maxDepth := maxDepth src |}.

Definition VkExtent2D : Type := Z * Z.          (* width, height *)

Record VkClearColorValue := { float32 : float * float * float * float }.
Record VkClearDepthStencilValue := { depth : float; stencil : Z }.

(** [union VkClearValue] *)
Inductive VkClearValue :=
| color (c : VkClearColorValue)
| depthStencil (d : VkClearDepthStencilValue).

Record VkClearAttachment := {
  aspectMask : Z;
  colorAttachment : Z;
  clearValue : VkClearValue }.

Record VkClearRect := {
  rect_offset : Z * Z;
  rect_extent : VkExtent2D;
  baseArrayLayer : Z;
  layerCount : Z }.

(** The getters of VKRenderTarget that [SetRenderTarget] reads. *)
Record VKRenderTarget := {
  GetVkRenderPass : Z;
  GetVkFramebuffer : Z;
  GetVkExtent : VkExtent2D;
  GetNumColorAttachments : Z;
  HasDepthAttachment : bool;
  HasStencilAttachment : bool }.

(** *** Native calls *)

Inductive VkCall :=
| vkCreateCommandPool (flags queueFamilyIndex : Z) (pCommandPool : Z)
| vkAllocateCommandBuffers (commandPool commandBufferCount : Z) (pCommandBuffers : list Z)
| vkCreateFence (flags : Z) (pFence : Z)
| vkQueueSubmit (queue submitCount fence : Z)
| vkWaitForFences (fence waitAll timeout : Z)
| vkResetFences (fence : Z)
| vkBeginCommandBuffer (commandBuffer flags : Z)
| vkEndCommandBuffer (commandBuffer : Z)
| vkCmdBeginRenderPass (commandBuffer renderPass framebuffer : Z) (extent : VkExtent2D)
| vkCmdEndRenderPass (commandBuffer : Z)
| vkCmdSetViewport (commandBuffer firstViewport viewportCount : Z)
                   (pViewports : list VkViewport)
| vkCmdClearAttachments (commandBuffer attachmentCount : Z)
                        (pAttachments : list VkClearAttachment)
                        (rectCount : Z) (pRects : list VkClearRect).

(** *** The recorder and the world it runs in *)

(** Members that describe the current render pass.  Their initial values
    are the default member initialisers of the class declaration. *)
Record Session := {
  renderPass_ : Z;
  framebuffer_ : Z;
  framebufferExtent_ : VkExtent2D;
  scissorEnabled_ : bool;
  scissorRectInvalidated_ : bool;
  numColorAttachments_ : Z;
  hasDSVAttachment_ : bool;
  clearColor_ : VkClearColorValue;
  clearDepthStencil_ : VkClearDepthStencilValue }.

(** Members of VKCommandBuffer.  [commandBufferActiveIt_] is the iterator
    into [commandBufferActiveList_], kept as its distance from begin():
    the length of the list is end(). *)
Record VKCommandBuffer := {
  commandPool_ : Z;
  commandBufferList_ : list Z;
  commandBuffer_ : Z;
  commandBufferActiveList_ : list bool;
  commandBufferActiveIt_ : nat;
  recordingFenceList_ : list Z;
  recordingFence_ : Z;
  session : Session }.

(** The driver: calls so far (oldest first), the fences it has created
    with their signalled flag, and the next handle it hands out. *)
Record State := {
  self : VKCommandBuffer;
  calls : list VkCall;
  fences : gmap Z bool;
  nextHandle : Z }.

Inductive Failure :=
| Throw (result : Z) (info : string)   (* VKThrowIfFailed *)
| PastTheEnd (index : nat)             (* dereference of an iterator at or past end() *)
| OutOfBounds (index : nat)            (* access past the end of an array or vector *)
| Indeterminate (index : nat)          (* read of an array element never written *)
| InvalidFence (fence : Z)             (* fence handle the driver never created *)
| Blocked (fence : Z)                  (* wait on a fence nothing will signal *)
| OutOfFuel.

(** The driver's VkResult for the call just made, as a function of all
    calls made so far (the last one is the call in question). *)
Record Driver := { vkResult : list VkCall -> Z }.

Abbreviation Run := (M State Failure).

Definition emit (c : VkCall) : Run unit :=
  modify (fun s => {| self := self s; calls := calls s ++ [c];
                      fences := fences s; nextHandle := nextHandle s |}).

Definition genHandle : Run Z :=
  h ← gets nextHandle;
  modify (fun s => {| self := self s; calls := calls s;
                      fences := fences s; nextHandle := nextHandle s + 1 |}) ;;
  mret h.

Definition set_fence (fence : Z) (signalled : bool) : Run unit :=
  modify (fun s => {| self := self s; calls := calls s;
                      fences := <[fence := signalled]> (fences s);
                      nextHandle := nextHandle s |}).

Definition update (f : VKCommandBuffer -> VKCommandBuffer) : Run unit :=
  modify (fun s => {| self := f (self s); calls := calls s;
                      fences := fences s; nextHandle := nextHandle s |}).

Definition member {A} (f : VKCommandBuffer -> A) : Run A := gets (fun s => f (self s)).

Definition set_commandPool_ (v : Z) (o : VKCommandBuffer) : VKCommandBuffer :=
  {| commandPool_ := v; commandBufferList_ := commandBufferList_ o;
     commandBuffer_ := commandBuffer_ o;
     commandBufferActiveList_ := commandBufferActiveList_ o;
     commandBufferActiveIt_ := commandBufferActiveIt_ o;
     recordingFenceList_ := recordingFenceList_ o;
     recordingFence_ := recordingFence_ o; session := session o |}.

Definition set_commandBufferList_ (v : list Z) (o : VKCommandBuffer) : VKCommandBuffer :=
  {| commandPool_ := commandPool_ o; commandBufferList_ := v;
     commandBuffer_ := commandBuffer_ o;
     commandBufferActiveList_ := commandBufferActiveList_ o;
     commandBufferActiveIt_ := commandBufferActiveIt_ o;
     recordingFenceList_ := recordingFenceList_ o;
     recordingFence_ := recordingFence_ o; session := session o |}.

Definition set_commandBuffer_ (v : Z) (o : VKCommandBuffer) : VKCommandBuffer :=
  {| commandPool_ := commandPool_ o; commandBufferList_ := commandBufferList_ o;
     commandBuffer_ := v;
     commandBufferActiveList_ := commandBufferActiveList_ o;
     commandBufferActiveIt_ := commandBufferActiveIt_ o;
     recordingFenceList_ := recordingFenceList_ o;
     recordingFence_ := recordingFence_ o; session := session o |}.

Definition set_commandBufferActiveList_ (v : list bool) (o : VKCommandBuffer)
    : VKCommandBuffer :=
  {| commandPool_ := commandPool_ o; commandBufferList_ := commandBufferList_ o;
     commandBuffer_ := commandBuffer_ o;
     commandBufferActiveList_ := v;
     commandBufferActiveIt_ := commandBufferActiveIt_ o;
     recordingFenceList_ := recordingFenceList_ o;
     recordingFence_ := recordingFence_ o; session := session o |}.

Definition set_commandBufferActiveIt_ (v : nat) (o : VKCommandBuffer) : VKCommandBuffer :=
  {| commandPool_ := commandPool_ o; commandBufferList_ := commandBufferList_ o;
     commandBuffer_ := commandBuffer_ o;
     commandBufferActiveList_ := commandBufferActiveList_ o;
     commandBufferActiveIt_ := v;
     recordingFenceList_ := recordingFenceList_ o;
     recordingFence_ := recordingFence_ o; session := session o |}.

Definition set_recordingFenceList_ (v : list Z) (o : VKCommandBuffer) : VKCommandBuffer :=
  {| commandPool_ := commandPool_ o; commandBufferList_ := commandBufferList_ o;
     commandBuffer_ := commandBuffer_ o;
     commandBufferActiveList_ := commandBufferActiveList_ o;
     commandBufferActiveIt_ := commandBufferActiveIt_ o;
     recordingFenceList_ := v;
     recordingFence_ := recordingFence_ o; session := session o |}.

Definition set_recordingFence_ (v : Z) (o : VKCommandBuffer) : VKCommandBuffer :=
  {| commandPool_ := commandPool_ o; commandBufferList_ := commandBufferList_ o;
     commandBuffer_ := commandBuffer_ o;
     commandBufferActiveList_ := commandBufferActiveList_ o;
     commandBufferActiveIt_ := commandBufferActiveIt_ o;
     recordingFenceList_ := recordingFenceList_ o;
     recordingFence_ := v; session := session o |}.

Definition set_session (v : Session) (o : VKCommandBuffer) : VKCommandBuffer :=
  {| commandPool_ := commandPool_ o; commandBufferList_ := commandBufferList_ o;
     commandBuffer_ := commandBuffer_ o;
     commandBufferActiveList_ := commandBufferActiveList_ o;
     commandBufferActiveIt_ := commandBufferActiveIt_ o;
     recordingFenceList_ := recordingFenceList_ o;
     recordingFence_ := recordingFence_ o; session := v |}.

(** Element access into C arrays, std::vector and through pointers. *)
Definition array_store {A} (buf : list (option A)) (i : nat) (v : A)
    : Run (list (option A)) :=
  if decide (i < length buf)%nat then mret (<[i := Some v]> buf)
  else fail (OutOfBounds i).

Definition array_load {A} (buf : list (option A)) (i : nat) : Run A :=
  match buf !! i with
  | Some (Some v) => mret v
  | Some None => fail (Indeterminate i)
  | None => fail (OutOfBounds i)
  end.

Definition at_ {A} (v : list A) (i : nat) : Run A :=
  match v !! i with
  | Some a => mret a
  | None => fail (OutOfBounds i)
  end.

(** What a native call reads from [count] elements behind a pointer. *)
Fixpoint array_prefix {A} (buf : list (option A)) (first count : nat) : Run (list A) :=
  match count with
  | O => mret []
  | S count' =>
      v ← array_load buf first;
      vs ← array_prefix buf (S first) count';
      mret (v :: vs)
  end.

(** std::vector::resize *)
Definition resize {A} (n : nat) (value : A) (v : list A) : list A :=
  take n v ++ replicate (n - length v) value.

Definition update_session (f : Session -> Session) : Run unit :=
  update (fun o => set_session (f (session o)) o).

(** *** The driver's side of the calls whose effect the recorder relies on *)

Section WithDriver.
Context (driver : Driver).

(** The VkResult of the call made last. *)
Definition result_of_last_call : Run Z :=
  gets (fun s => vkResult driver (calls s)).

(** Modelled from the spec: VKThrowIfFailed(result, info) is declared
    outside the sources at hand; a native failure is fatal and surfaced,
    so it throws, with the native result, unless the result is
    VK_SUCCESS. *)
Definition VKThrowIfFailed (result : Z) (info : string) : Run unit :=
  if result =? VK_SUCCESS then mret tt else fail (Throw result info).

(** A fence created with flags 0 starts unsignalled. *)
Definition native_vkCreateFence (flags : Z) : Run (Z * Z) :=
  fence ← genHandle;
  emit (vkCreateFence flags fence) ;;
  result ← result_of_last_call;
  if result =? VK_SUCCESS then set_fence fence false ;; mret (result, fence)
  else mret (result, VK_NULL_HANDLE).

(** A submission of no batches has nothing to execute: the queue
    signals its fence as soon as it is reached.  The asynchrony of
    the queue is not modelled. *)
Definition native_vkQueueSubmit_empty (queue fence : Z) : Run Z :=
  emit (vkQueueSubmit queue 0 fence) ;;
  result ← result_of_last_call;
  fs ← gets fences;
  match fs !! fence with
  | Some _ => when (result =? VK_SUCCESS) (set_fence fence true) ;; mret result
  | None => fail (InvalidFence fence)
  end.

(** A wait with timeout UINT64_MAX returns once the fence is
    signalled; on a fence nothing signals it does not return. *)
Definition native_vkWaitForFences (fence : Z) : Run unit :=
  emit (vkWaitForFences fence VK_TRUE UINT64_MAX) ;;
  fs ← gets fences;
  match fs !! fence with
  | Some true => mret tt
  | Some false => fail (Blocked fence)
  | None => fail (InvalidFence fence)
  end.

Definition native_vkResetFences (fence : Z) : Run unit :=
  emit (vkResetFences fence) ;;
  fs ← gets fences;
  match fs !! fence with
  | Some _ => set_fence fence false
  | None => fail (InvalidFence fence)
  end.

(** *** Viewports *)

(** Inner loop of [SetViewports]:
    [for (first = i; i < first + count; ++i) Convert(viewportsVK[i - first], viewports[i]);] *)
Fixpoint SetViewports_convert (fuel : nat) (viewports : list Viewport)
    (first count i : Z) (viewportsVK : list (option VkViewport))
    : Run (Z * list (option VkViewport)) :=
  if i <? to_uint32 (first + count) then
    match fuel with
    | O => fail OutOfFuel
    | S fuel' =>
        src ← at_ viewports (Z.to_nat i);
        viewportsVK' ←
          array_store viewportsVK (Z.to_nat (to_uint32 (i - first))) (Convert src);
        SetViewports_convert fuel' viewports first count (to_uint32 (i + 1)) viewportsVK'
    end
  else mret (i, viewportsVK).

(** Outer loop of [SetViewports]:
    [for (i = 0, first = 0, count = 0; i < numViewports; numViewports -= count)]. *)
Fixpoint SetViewports_loop (fuel : nat) (viewports : list Viewport)
    (i numViewports : Z) (viewportsVK : list (option VkViewport)) : Run unit :=
  if i <? numViewports then
    match fuel with
    | O => fail OutOfFuel
    | S fuel' =>
        let count := Z.min numViewports g_maxNumViewportsPerBatch in
        let first := i in
        '(i', viewportsVK') ←
          SetViewports_convert (Z.to_nat count) viewports first count i viewportsVK;
        commandBuffer ← member commandBuffer_;
        pViewports ← array_prefix viewportsVK' 0 (Z.to_nat count);
        emit (vkCmdSetViewport commandBuffer first count pViewports) ;;
        SetViewports_loop fuel' viewports i' (to_uint32 (numViewports - count)) viewportsVK'
    end
  else mret tt.

(** Every turn of the outer loop with [i < numViewports] takes at least
    one element off [numViewports], so [numViewports] turns are
    enough fuel. *)
Definition SetViewports (numViewports : Z) (viewports : list Viewport) : Run unit :=
  let viewportsVK : list (option VkViewport) :=
    replicate (Z.to_nat g_maxNumViewportsPerBatch) None in
  SetViewports_loop (Z.to_nat numViewports) viewports 0 numViewports viewportsVK.

(** *** Clear *)


Definition GetDepthStencilAspectMask (flags : Z) : Z :=
  let aspectMask := 0 in
  let aspectMask :=
    if negb (Z.land flags ClearFlags.Depth =? 0)
    then Z.lor aspectMask VK_IMAGE_ASPECT_DEPTH_BIT else aspectMask in
  let aspectMask :=
    if negb (Z.land flags ClearFlags.Stencil =? 0)
    then Z.lor aspectMask VK_IMAGE_ASPECT_STENCIL_BIT else aspectMask in
  aspectMask.

Definition ClearFramebufferAttachments (numAttachments : Z)
    (attachments : list (option VkClearAttachment)) : Run unit :=
  when (0 <? numAttachments)
    (ss ← member session;
     commandBuffer ← member commandBuffer_;
     let clearRect :=
       {| rect_offset := (0, 0); rect_extent := framebufferExtent_ ss;
          baseArrayLayer := 0; layerCount := 1 |} in
     pAttachments ← array_prefix attachments 0 (Z.to_nat numAttachments);
     emit (vkCmdClearAttachments commandBuffer numAttachments pAttachments
                                 1 [clearRect])).

Definition Clear (flags : Z) : Run unit :=
  ss ← member session;
  let attachments : list (option VkClearAttachment) :=
    replicate (Z.to_nat g_maxNumAttachments) None in
  let numAttachments := 0 in
  '(numAttachments, attachments) ←
    (if negb (Z.land flags ClearFlags.Color =? 0) then
       let numAttachments :=
         Z.min (numColorAttachments_ ss) g_maxNumColorAttachments in
       attachments' ←
         for_range 0 (Z.to_nat numAttachments)
           (fun i attachments =>
              array_store attachments i
                {| aspectMask := VK_IMAGE_ASPECT_COLOR_BIT;
                   colorAttachment := Z.of_nat i;
                   clearValue := color (clearColor_ ss) |})
           attachments;
       mret (numAttachments, attachments')
     else mret (numAttachments, attachments));
  '(numAttachments, attachments) ←
    (if negb (Z.land flags ClearFlags.DepthStencil =? 0) && hasDSVAttachment_ ss then
       attachments' ←
         array_store attachments (Z.to_nat numAttachments)
           {| aspectMask := GetDepthStencilAspectMask flags;
              colorAttachment := 0;
              clearValue := depthStencil (clearDepthStencil_ ss) |};
       mret (to_uint32 (numAttachments + 1), attachments')
     else mret (numAttachments, attachments));
  ClearFramebufferAttachments numAttachments attachments.

(** *** Recording *)

Definition SetPresentIndex (idx : Z) : Run unit :=
  o ← member id;
  cb ← at_ (commandBufferList_ o) (Z.to_nat idx);
  update (set_commandBuffer_ cb) ;;
  update (set_commandBufferActiveIt_ (Z.to_nat idx)) ;;
  fence ← at_ (recordingFenceList_ o) (Z.to_nat idx);
  update (set_recordingFence_ fence).

(** [*commandBufferActiveIt_] as an rvalue. *)
Definition IsCommandBufferActive : Run bool :=
  o ← member id;
  match commandBufferActiveList_ o !! commandBufferActiveIt_ o with
  | Some active => mret active
  | None => fail (PastTheEnd (commandBufferActiveIt_ o))
  end.

(** [*commandBufferActiveIt_ = value] *)
Definition store_active (value : bool) : Run unit :=
  o ← member id;
  if decide (commandBufferActiveIt_ o < length (commandBufferActiveList_ o))%nat then
    update (set_commandBufferActiveList_
              (<[commandBufferActiveIt_ o := value]> (commandBufferActiveList_ o)))
  else fail (PastTheEnd (commandBufferActiveIt_ o)).

Definition BeginCommandBuffer : Run unit :=
  o ← member id;
  native_vkWaitForFences (recordingFence_ o) ;;
  native_vkResetFences (recordingFence_ o) ;;
  emit (vkBeginCommandBuffer (commandBuffer_ o)
          VK_COMMAND_BUFFER_USAGE_SIMULTANEOUS_USE_BIT) ;;
  result ← result_of_last_call;
  VKThrowIfFailed result "failed to begin Vulkan command buffer" ;;
  store_active true.

Definition EndCommandBuffer : Run unit :=
  o ← member id;
  emit (vkEndCommandBuffer (commandBuffer_ o)) ;;
  result ← result_of_last_call;
  VKThrowIfFailed result "failed to end Vulkan command buffer" ;;
  store_active false.

Definition BeginRenderPass (renderPass framebuffer : Z) (extent : VkExtent2D) : Run unit :=
  commandBuffer ← member commandBuffer_;
  emit (vkCmdBeginRenderPass commandBuffer renderPass framebuffer extent).

Definition EndRenderPass : Run unit :=
  commandBuffer ← member commandBuffer_;
  emit (vkCmdEndRenderPass commandBuffer).

Definition SetRenderPass (renderPass framebuffer : Z) (extent : VkExtent2D) : Run unit :=
  ss ← member session;
  when (negb (renderPass_ ss =? VK_NULL_HANDLE)) EndRenderPass ;;
  when (negb (renderPass =? VK_NULL_HANDLE))
    (BeginRenderPass renderPass framebuffer extent ;;
     update_session (fun ss =>
       {| renderPass_ := renderPass; framebuffer_ := framebuffer;
          framebufferExtent_ := extent;
          scissorEnabled_ := scissorEnabled_ ss;
          scissorRectInvalidated_ := true;
          numColorAttachments_ := numColorAttachments_ ss;
          hasDSVAttachment_ := hasDSVAttachment_ ss;
          clearColor_ := clearColor_ ss;
          clearDepthStencil_ := clearDepthStencil_ ss |})).

(** [SetRenderTarget(RenderTarget&)] *)
Definition SetRenderTarget (renderTargetVK : VKRenderTarget) : Run unit :=
  active ← IsCommandBufferActive;
  when (negb active) BeginCommandBuffer ;;
  SetRenderPass (GetVkRenderPass renderTargetVK) (GetVkFramebuffer renderTargetVK)
                (GetVkExtent renderTargetVK) ;;
  update_session (fun ss =>
    {| renderPass_ := renderPass_ ss; framebuffer_ := framebuffer_ ss;
       framebufferExtent_ := framebufferExtent_ ss;
       scissorEnabled_ := scissorEnabled_ ss;
       scissorRectInvalidated_ := scissorRectInvalidated_ ss;
       numColorAttachments_ := GetNumColorAttachments renderTargetVK;
       hasDSVAttachment_ :=
         HasDepthAttachment renderTargetVK || HasStencilAttachment renderTargetVK;
       clearColor_ := clearColor_ ss;
       clearDepthStencil_ := clearDepthStencil_ ss |}).

(** *** Construction *)

Definition CreateCommandPool (queueFamilyIndex : Z) : Run unit :=
  pool ← genHandle;
  emit (vkCreateCommandPool VK_COMMAND_POOL_CREATE_RESET_COMMAND_BUFFER_BIT
                            queueFamilyIndex pool) ;;
  result ← result_of_last_call;
  VKThrowIfFailed result "failed to create Vulkan command pool" ;;
  update (set_commandPool_ pool).

(** The handles the driver writes for one vkAllocateCommandBuffers. *)
Fixpoint genHandles (count : nat) : Run (list Z) :=
  match count with
  | O => mret []
  | S count' => h ← genHandle; hs ← genHandles count'; mret (h :: hs)
  end.

Definition CreateCommandBuffers (bufferCount : nat) : Run unit :=
  update (fun o => set_commandBufferList_
                     (resize bufferCount VK_NULL_HANDLE (commandBufferList_ o)) o) ;;
  pool ← member commandPool_;
  let commandBufferCount := to_uint32 (Z.of_nat bufferCount) in
  handles ← genHandles (Z.to_nat commandBufferCount);
  emit (vkAllocateCommandBuffers pool commandBufferCount handles) ;;
  result ← result_of_last_call;
  VKThrowIfFailed result "failed to allocate Vulkan command buffers" ;;
  update (fun o => set_commandBufferList_
                     (handles ++ drop (length handles) (commandBufferList_ o)) o) ;;
  list ← member commandBufferList_;
  front ← at_ list 0;
  update (set_commandBuffer_ front) ;;
  update (fun o => set_commandBufferActiveList_
                     (resize bufferCount false (commandBufferActiveList_ o)) o) ;;
  update (fun o => set_commandBufferActiveIt_ (length (commandBufferActiveList_ o)) o).

(** Body of the loop over [recordingFenceList_]; [fence] is its element at
    position [i]. *)
Definition CreateRecordingFence (graphicsQueue : Z) (i : nat) : Run unit :=
  '(result, fence) ← native_vkCreateFence 0;
  VKThrowIfFailed result "failed to create Vulkan fence" ;;
  update (fun o => set_recordingFenceList_ (<[i := fence]> (recordingFenceList_ o)) o) ;;
  _ ← native_vkQueueSubmit_empty graphicsQueue fence;
  mret tt.

Definition CreateRecordingFences (graphicsQueue : Z) (numFences : nat) : Run unit :=
  update (fun o => set_recordingFenceList_
                     (resize numFences VK_NULL_HANDLE (recordingFenceList_ o)) o) ;;
  for_range 0 numFences (fun i (_ : unit) => CreateRecordingFence graphicsQueue i) tt ;;
  list ← member recordingFenceList_;
  front ← at_ list 0;
  update (set_recordingFence_ front).

Definition construct (graphicsQueue : Z) (bufferCount : nat) (graphicsFamily : Z)
    : Run unit :=
  CreateCommandPool graphicsFamily ;;
  CreateCommandBuffers bufferCount ;;
  CreateRecordingFences graphicsQueue bufferCount.

(** The object before the constructor body runs: empty vectors, null
    handles; [defaults] are the initialisers of the session members. *)
Definition initial (defaults : Session) : VKCommandBuffer :=
  {| commandPool_ := VK_NULL_HANDLE; commandBufferList_ := [];
     commandBuffer_ := VK_NULL_HANDLE;
     commandBufferActiveList_ := []; commandBufferActiveIt_ := 0;
     recordingFenceList_ := []; recordingFence_ := VK_NULL_HANDLE;
     session := defaults |}.

(** [new VKCommandBuffer(device, graphicsQueue, bufferCount, families)]
    against a driver that has made no call yet and hands out handles
    from 1. *)
Definition New (defaults : Session) (graphicsQueue : Z) (bufferCount : nat)
    (graphicsFamily : Z) : Outcome Failure unit * State :=
  construct graphicsQueue bufferCount graphicsFamily
    {| self := initial defaults; calls := []; fences := ∅; nextHandle := 1 |}.

End WithDriver.

(** The (first, count) pairs of the native calls [SetViewports] makes: its
    outer loop with the conversion left out. *)
Fixpoint batches (fuel : nat) (i numViewports : Z) : list (Z * Z) :=
  if i <? numViewports then
    match fuel with
    | O => []
    | S fuel' =>
        let count := Z.min numViewports g_maxNumViewportsPerBatch in
        (i, count) :: batches fuel' (to_uint32 (i + count)) (to_uint32 (numViewports - count))
    end
  else [].

(** The native call for one batch. *)
Definition batch_call (commandBuffer : Z) (viewports : list Viewport) (b : Z * Z) : VkCall :=
  vkCmdSetViewport commandBuffer b.1 b.2
    (Convert <$> take (Z.to_nat b.2) (drop (Z.to_nat b.1) viewports)).

(** How many viewports the batches cover. *)
Definition covered (bs : list (Z * Z)) : Z := foldr (fun b acc => b.2 + acc) 0 bs.

(** Handles the driver hands out in a row, starting from [h]. *)
Fixpoint handles_from (h : Z) (n : nat) : list Z :=
  match n with
  | O => []
  | S n' => h :: handles_from (h + 1) n'
  end.

(** The state after the loop of [CreateRecordingFences] has run [count]
    times from position [i], on a driver that reports success. *)
Fixpoint fences_created (graphicsQueue : Z) (i count : nat) (s : State) : State :=
  match count with
  | O => s
  | S count' =>
      fences_created graphicsQueue (S i) count'
        {| self := set_recordingFenceList_
                     (<[i := nextHandle s]> (recordingFenceList_ (self s))) (self s);
           calls := calls s ++ [vkCreateFence 0 (nextHandle s);
                                vkQueueSubmit graphicsQueue 0 (nextHandle s)];
           fences := <[nextHandle s := true]> (fences s);
           nextHandle := nextHandle s + 1 |}
  end.

(** *** Functions of the recorder beside the ones above *)

Definition SetViewport (viewport : Viewport) : Run unit :=
  commandBuffer ← member commandBuffer_;
  emit (vkCmdSetViewport commandBuffer 0 1 [Convert viewport]).









(** LLGL/CommandBufferFlags.h: [ClearValue] and [AttachmentClear] with its
    constructors; LLGL/ColorRGBA.h gives the four components of
    [ColorRGBAf]. *)
Module LLGL.

Record ColorRGBAf := { r : float; g : float; b : float; a : float }.

Record ClearValue := {
  color : ColorRGBAf;
  depth : float;
  stencil : Z }.

Record AttachmentClear := {
  flags : Z;
  colorAttachment : Z;
  clearValue : ClearValue }.

(** The default member initialisers: colour (0, 0, 0, 0), depth 1.0f,
    stencil 0. *)
Definition ClearValue_default : ClearValue :=
  {| color := {| r := 0; g := 0; b := 0; a := 0 |};
     depth := 0x3F800000; stencil := 0 |}.

(** [AttachmentClear(const ColorRGBAf& color, std::uint32_t colorAttachment)] *)
Definition AttachmentClear_color (color : ColorRGBAf) (colorAttachment : Z)
    : AttachmentClear :=
  {| flags := ClearFlags.Color; LLGL.colorAttachment := colorAttachment;
     clearValue := {| LLGL.color := color; depth := depth ClearValue_default;
                      stencil := stencil ClearValue_default |} |}.

(** [AttachmentClear(float depth)] *)
Definition AttachmentClear_depth (depth : float) : AttachmentClear :=
  {| flags := ClearFlags.Depth; colorAttachment := 0;
     clearValue := {| color := color ClearValue_default; LLGL.depth := depth;
                      stencil := stencil ClearValue_default |} |}.

(** [AttachmentClear(std::uint32_t stencil)] *)
Definition AttachmentClear_stencil (stencil : Z) : AttachmentClear :=
  {| flags := ClearFlags.Stencil; colorAttachment := 0;
     clearValue := {| color := color ClearValue_default;
                      depth := depth ClearValue_default; LLGL.stencil := stencil |} |}.

(** [AttachmentClear(float depth, std::uint32_t stencil)] *)
Definition AttachmentClear_depth_stencil (depth : float) (stencil : Z) : AttachmentClear :=
  {| flags := ClearFlags.DepthStencil; colorAttachment := 0;
     clearValue := {| color := color ClearValue_default; LLGL.depth := depth;
                      LLGL.stencil := stencil |} |}.

End LLGL.

(** [auto& dst = attachmentsVK[numAttachmentsVK];] *)
Definition array_ref {A} (buf : list (option A)) (i : nat) : Run unit :=
  if decide (i < length buf)%nat then mret tt else fail (OutOfBounds i).

(** Body of the loop of [ClearAttachments] for command [i], with
    [numAttachmentsVK] and [attachmentsVK] as they stand.
    [attachmentsVK] is not initialised: the members of an element that
    the loop does not write keep what the memory held, which
    [indeterminate] gives for the depth-stencil view of each element. *)
Definition ClearAttachments_body (indeterminate : nat -> VkClearDepthStencilValue)
    (attachments : list LLGL.AttachmentClear) (i : nat)
    (acc : Z * list (option VkClearAttachment))
    : Run (Z * list (option VkClearAttachment)) :=
  let '(numAttachmentsVK, attachmentsVK) := acc in
  array_ref attachmentsVK (Z.to_nat numAttachmentsVK) ;;
  src ← at_ attachments i;
  ss ← member session;
  if negb (Z.land (LLGL.flags src) ClearFlags.Color =? 0) then
    attachmentsVK' ←
      array_store attachmentsVK (Z.to_nat numAttachmentsVK)
        {| aspectMask := VK_IMAGE_ASPECT_COLOR_BIT;
           colorAttachment := LLGL.colorAttachment src;
           clearValue :=
             color {| float32 :=
               (LLGL.r (LLGL.color (LLGL.clearValue src)),
                LLGL.g (LLGL.color (LLGL.clearValue src)),
                LLGL.b (LLGL.color (LLGL.clearValue src)),
                LLGL.a (LLGL.color (LLGL.clearValue src))) |} |};
    mret (to_uint32 (numAttachmentsVK + 1), attachmentsVK')
  else if hasDSVAttachment_ ss then
    let dst := indeterminate (Z.to_nat numAttachmentsVK) in
    let aspectMask := 0 in
    let '(aspectMask, dst) :=
      if negb (Z.land (LLGL.flags src) ClearFlags.Depth =? 0)
      then (Z.lor aspectMask VK_IMAGE_ASPECT_DEPTH_BIT,
            {| depth := LLGL.depth (LLGL.clearValue src); stencil := stencil dst |})
      else (aspectMask, dst) in
    let '(aspectMask, dst) :=
      if negb (Z.land (LLGL.flags src) ClearFlags.Stencil =? 0)
      then (Z.lor aspectMask VK_IMAGE_ASPECT_STENCIL_BIT,
            {| depth := depth dst; stencil := LLGL.stencil (LLGL.clearValue src) |})
      else (aspectMask, dst) in
    attachmentsVK' ←
      array_store attachmentsVK (Z.to_nat numAttachmentsVK)
        {| aspectMask := aspectMask; colorAttachment := 0;
           clearValue := depthStencil dst |};
    mret (to_uint32 (numAttachmentsVK + 1), attachmentsVK')
  else mret (numAttachmentsVK, attachmentsVK).

Definition ClearAttachments (indeterminate : nat -> VkClearDepthStencilValue)
    (numAttachments : Z) (attachments : list LLGL.AttachmentClear) : Run unit :=
  let attachmentsVK : list (option VkClearAttachment) :=
    replicate (Z.to_nat g_maxNumAttachments) None in
  let numAttachmentsVK := 0 in
  let n := Z.min numAttachments g_maxNumAttachments in
  '(numAttachmentsVK, attachmentsVK) ←
    for_range 0 (Z.to_nat n) (ClearAttachments_body indeterminate attachments)
      (numAttachmentsVK, attachmentsVK);
  ClearFramebufferAttachments numAttachmentsVK attachmentsVK.

Definition SetRenderPassNull : Run unit :=
  ss ← member session;
  when (negb (renderPass_ ss =? VK_NULL_HANDLE))
    (EndRenderPass ;;
     update_session (fun ss =>
       {| renderPass_ := VK_NULL_HANDLE; framebuffer_ := VK_NULL_HANDLE;
          framebufferExtent_ := framebufferExtent_ ss;
          scissorEnabled_ := scissorEnabled_ ss;
          scissorRectInvalidated_ := scissorRectInvalidated_ ss;
          numColorAttachments_ := numColorAttachments_ ss;
          hasDSVAttachment_ := hasDSVAttachment_ ss;
          clearColor_ := clearColor_ ss;
          clearDepthStencil_ := clearDepthStencil_ ss |})).

(** The clear descriptors [Clear] fills in: one per colour attachment, up
    to the limit, then one for the depth-stencil attachment. *)
Definition color_clears (ss : Session) : list VkClearAttachment :=
  (fun i : nat =>
     {| aspectMask := VK_IMAGE_ASPECT_COLOR_BIT; colorAttachment := Z.of_nat i;
        clearValue := color (clearColor_ ss) |})
  <$> seq 0 (Z.to_nat (Z.min (numColorAttachments_ ss) g_maxNumColorAttachments)).

Definition Clear_entries (flags : Z) (ss : Session) : list VkClearAttachment :=
  (if negb (Z.land flags ClearFlags.Color =? 0) then color_clears ss else []) ++
  (if negb (Z.land flags ClearFlags.DepthStencil =? 0) && hasDSVAttachment_ ss
   then [{| aspectMask := GetDepthStencilAspectMask flags; colorAttachment := 0;
            clearValue := depthStencil (clearDepthStencil_ ss) |}]
   else []).

(** The native call of [ClearFramebufferAttachments], none for no entry. *)
Definition clear_call (o : VKCommandBuffer) (entries : list VkClearAttachment)
    : list VkCall :=
  match entries with
  | [] => []
  | _ =>
      [vkCmdClearAttachments (commandBuffer_ o) (Z.of_nat (length entries)) entries 1
         [{| rect_offset := (0, 0); rect_extent := framebufferExtent_ (session o);
             baseArrayLayer := 0; layerCount := 1 |}]]
  end.

(** What [ClearAttachments] makes of one colour command and of one
    depth-stencil command; [dst] is what the element held before. *)
Definition color_clear (src : LLGL.AttachmentClear) : VkClearAttachment :=
  {| aspectMask := VK_IMAGE_ASPECT_COLOR_BIT;
     colorAttachment := LLGL.colorAttachment src;
     clearValue :=
       color {| float32 :=
         (LLGL.r (LLGL.color (LLGL.clearValue src)),
          LLGL.g (LLGL.color (LLGL.clearValue src)),
          LLGL.b (LLGL.color (LLGL.clearValue src)),
          LLGL.a (LLGL.color (LLGL.clearValue src))) |} |}.

Definition depth_stencil_clear (dst : VkClearDepthStencilValue)
    (src : LLGL.AttachmentClear) : VkClearAttachment :=
  {| aspectMask := GetDepthStencilAspectMask (LLGL.flags src);
     colorAttachment := 0;
     clearValue :=
       depthStencil
         {| depth := if negb (Z.land (LLGL.flags src) ClearFlags.Depth =? 0)
                     then LLGL.depth (LLGL.clearValue src) else depth dst;
            stencil := if negb (Z.land (LLGL.flags src) ClearFlags.Stencil =? 0)
                       then LLGL.stencil (LLGL.clearValue src) else stencil dst |} |}.

(** The clear descriptors [ClearAttachments] fills in for the commands
    [attachments], from element [k] of its array on: colour commands
    always, the others only with a depth-stencil attachment. *)
Fixpoint ClearAttachments_entries (hasDSVAttachment : bool)
    (indeterminate : nat -> VkClearDepthStencilValue) (k : nat)
    (attachments : list LLGL.AttachmentClear) : list VkClearAttachment :=
  match attachments with
  | [] => []
  | src :: rest =>
      if negb (Z.land (LLGL.flags src) ClearFlags.Color =? 0) then
        color_clear src
        :: ClearAttachments_entries hasDSVAttachment indeterminate (S k) rest
      else if hasDSVAttachment then
        depth_stencil_clear (indeterminate k) src
        :: ClearAttachments_entries hasDSVAttachment indeterminate (S k) rest
      else ClearAttachments_entries hasDSVAttachment indeterminate k rest
  end.

(** The calls that set or clear the render pass, as a caller makes them
    one after the other. *)
Inductive RenderPassOp :=
| OpSetRenderPass (renderPass framebuffer : Z) (extent : VkExtent2D)
| OpSetRenderPassNull.

Definition run_RenderPassOp (op : RenderPassOp) : Run unit :=
  match op with
  | OpSetRenderPass renderPass framebuffer extent =>
      SetRenderPass renderPass framebuffer extent
  | OpSetRenderPassNull => SetRenderPassNull
  end.

Definition begins_pass (op : RenderPassOp) : Prop :=
  match op with
  | OpSetRenderPass renderPass _ _ => renderPass <> VK_NULL_HANDLE
  | OpSetRenderPassNull => True
  end.

(** Reads a trace for its render pass instances: [Some (Some cb)] when it
    ends inside one begun on command buffer [cb], [Some None] when it
    ends outside any, [None] when a begin comes inside an instance or an
    end comes outside one or on another command buffer. *)
Fixpoint render_pass_after (open : option Z) (trace : list VkCall) : option (option Z) :=
  match trace with
  | [] => Some open
  | vkCmdBeginRenderPass commandBuffer _ _ _ :: rest =>
      match open with
      | None => render_pass_after (Some commandBuffer) rest
      | Some _ => None
      end
  | vkCmdEndRenderPass commandBuffer :: rest =>
      match open with
      | Some cb => if cb =? commandBuffer then render_pass_after None rest else None
      | None => None
      end
  | _ :: rest => render_pass_after open rest
  end.

(** What the recorder's [renderPass_] says about the same. *)
Definition render_pass_of (o : VKCommandBuffer) : option Z :=
  if renderPass_ (session o) =? VK_NULL_HANDLE then None else Some (commandBuffer_ o).

(** *** Sample inputs *)

(** A driver on which every call succeeds. *)
Definition succeeding : Driver := {| vkResult := fun _ => VK_SUCCESS |}.

Definition defaults : Session :=
  {| renderPass_ := VK_NULL_HANDLE; framebuffer_ := VK_NULL_HANDLE;
     framebufferExtent_ := (0, 0);
     scissorEnabled_ := false; scissorRectInvalidated_ := true;
     numColorAttachments_ := 0; hasDSVAttachment_ := false;
     clearColor_ := {| float32 := (0, 0, 0, 0) |};
     clearDepthStencil_ := {| depth := 0x3F800000; stencil := 0 |} |}.

(** The recorder as its constructor leaves it, for a swap chain of
    [bufferCount] images on graphics queue 1000. *)
Definition fresh (bufferCount : nat) : State :=
  snd (New succeeding defaults 1000 bufferCount 0).

(** The same recorder after [SetPresentIndex(idx)]. *)
Definition presenting (bufferCount : nat) (idx : Z) : State :=
  snd (SetPresentIndex idx (fresh bufferCount)).

Definition viewport (k : nat) : Viewport :=
  {| x := Z.of_nat k; y := 0; width := 0x44800000; height := 0x44400000;
     minDepth := 0; maxDepth := 0x3F800000 |}.

(** A render target with three colour attachments and a depth-only
    attachment. *)
Definition three_colors_and_depth : VKRenderTarget :=
  {| GetVkRenderPass := 500; GetVkFramebuffer := 501; GetVkExtent := (800, 600);
     GetNumColorAttachments := 3;
     HasDepthAttachment := true; HasStencilAttachment := false |}.

(** The recorder once [three_colors_and_depth] is its render target on
    slot 1: the slot is recording and a render pass instance is open. *)
Definition recording : State :=
  snd (SetRenderTarget succeeding three_colors_and_depth (presenting 2 1)).

(** Memory that holds zeroes where [ClearAttachments] has its array. *)
Definition zeroed : nat -> VkClearDepthStencilValue :=
  fun _ => {| depth := 0; stencil := 0 |}.

Definition black : LLGL.ColorRGBAf :=
  {| LLGL.r := 0; LLGL.g := 0; LLGL.b := 0; LLGL.a := 0 |}.

(** Clear commands for the colour attachments 2 and 0 and for the depth
    attachment. *)
Definition three_clears : list LLGL.AttachmentClear :=
  [LLGL.AttachmentClear_color black 2; LLGL.AttachmentClear_depth 5;
   LLGL.AttachmentClear_color black 0].

End VK.

(** ** Vulkan back end: the commands of VKCommandBuffer.cpp that record
    other native calls *)

Module VKCommands.
Import VK.

Definition VK_PIPELINE_BIND_POINT_GRAPHICS : Z := 0.
Definition VK_PIPELINE_BIND_POINT_COMPUTE : Z := 1.

Record VkRect2D := {
  offset : Z * Z;
  extent : VkExtent2D }.

(** The getters of VKGraphicsPipeline that [SetGraphicsPipeline] reads. *)
Record VKGraphicsPipeline := {
  GetVkPipeline : Z;
  IsScissorEnabled : bool;
  HasDynamicScissor : bool }.

(** *** Native calls *)

Inductive Command :=
| vkCmdSetScissor (commandBuffer firstScissor scissorCount : Z) (pScissors : list VkRect2D)
| vkCmdBindPipeline (commandBuffer pipelineBindPoint pipeline : Z)
| vkFreeCommandBuffers (commandPool commandBufferCount : Z) (pCommandBuffers : list Z).

(** The recorder with the native calls of this part beside the ones of
    the part above, each kind in the order it was made. *)
Record State := {
  recorder : VK.State;
  commands : list Command }.

Abbreviation Run := (M State Failure).

(** A function of the part above, run on the recorder. *)
Definition lift {A} (m : VK.Run A) : Run A :=
  fun s => let '(r, recorder') := m (recorder s) in
           (r, {| recorder := recorder'; commands := commands s |}).

Definition emit (c : Command) : Run unit :=
  modify (fun s => {| recorder := recorder s; commands := commands s ++ [c] |}).

Definition member {A} (f : VKCommandBuffer -> A) : Run A := lift (VK.member f).

Definition update_session (f : Session -> Session) : Run unit :=
  lift (VK.update_session f).

Section WithScissor.
(** [Scissor] and VKTypes::Convert(VkRect2D&, const Scissor&) are declared
    outside the sources at hand. *)
Context {Scissor : Type} (Convert : Scissor -> VkRect2D).

Definition SetScissor (scissor : Scissor) : Run unit :=
  ss ← member session;
  when (scissorEnabled_ ss)
    (commandBuffer ← member commandBuffer_;
     emit (vkCmdSetScissor commandBuffer 0 1 [Convert scissor])).

(** Inner loop of [SetScissors]:
    [for (first = i; i < first + count; ++i) Convert(scissorsVK[i - first], scissors[i]);] *)
Fixpoint SetScissors_convert (fuel : nat) (scissors : list Scissor)
    (first count i : Z) (scissorsVK : list (option VkRect2D))
    : VK.Run (Z * list (option VkRect2D)) :=
  if i <? to_uint32 (first + count) then
    match fuel with
    | O => fail OutOfFuel
    | S fuel' =>
        src ← at_ scissors (Z.to_nat i);
        scissorsVK' ←
          array_store scissorsVK (Z.to_nat (to_uint32 (i - first))) (Convert src);
        SetScissors_convert fuel' scissors first count (to_uint32 (i + 1)) scissorsVK'
    end
  else mret (i, scissorsVK).

(** Outer loop of [SetScissors]:
    [for (i = 0, first = 0, count = 0; i < numScissors; numScissors -= count)]. *)
Fixpoint SetScissors_loop (fuel : nat) (scissors : list Scissor)
    (i numScissors : Z) (scissorsVK : list (option VkRect2D)) : Run unit :=
  if i <? numScissors then
    match fuel with
    | O => fail OutOfFuel
    | S fuel' =>
        let count := Z.min numScissors g_maxNumViewportsPerBatch in
        let first := i in
        '(i', scissorsVK') ←
          lift (SetScissors_convert (Z.to_nat count) scissors first count i scissorsVK);
        commandBuffer ← member commandBuffer_;
        pScissors ← lift (array_prefix scissorsVK' 0 (Z.to_nat count));
        emit (vkCmdSetScissor commandBuffer first count pScissors) ;;
        SetScissors_loop fuel' scissors i' (to_uint32 (numScissors - count)) scissorsVK'
    end
  else mret tt.

Definition SetScissors (numScissors : Z) (scissors : list Scissor) : Run unit :=
  ss ← member session;
  when (scissorEnabled_ ss)
    (let scissorsVK : list (option VkRect2D) :=
       replicate (Z.to_nat g_maxNumViewportsPerBatch) None in
     SetScissors_loop (Z.to_nat numScissors) scissors 0 numScissors scissorsVK).

End WithScissor.

(** *** Pipelines *)

Definition SetGraphicsPipeline (graphicsPipelineVK : VKGraphicsPipeline) : Run unit :=
  commandBuffer ← member commandBuffer_;
  emit (vkCmdBindPipeline commandBuffer VK_PIPELINE_BIND_POINT_GRAPHICS
          (GetVkPipeline graphicsPipelineVK)) ;;
  update_session (fun ss =>
    {| renderPass_ := renderPass_ ss; framebuffer_ := framebuffer_ ss;
       framebufferExtent_ := framebufferExtent_ ss;
       scissorEnabled_ := IsScissorEnabled graphicsPipelineVK;
       scissorRectInvalidated_ := scissorRectInvalidated_ ss;
       numColorAttachments_ := numColorAttachments_ ss;
       hasDSVAttachment_ := hasDSVAttachment_ ss;
       clearColor_ := clearColor_ ss;
       clearDepthStencil_ := clearDepthStencil_ ss |}) ;;
  ss ← member session;
  when (negb (scissorEnabled_ ss) && scissorRectInvalidated_ ss
        && HasDynamicScissor graphicsPipelineVK)
    (let scissorRect := {| offset := (0, 0); extent := framebufferExtent_ ss |} in
     commandBuffer ← member commandBuffer_;
     emit (vkCmdSetScissor commandBuffer 0 1 [scissorRect]) ;;
     update_session (fun ss =>
       {| renderPass_ := renderPass_ ss; framebuffer_ := framebuffer_ ss;
          framebufferExtent_ := framebufferExtent_ ss;
          scissorEnabled_ := scissorEnabled_ ss;
          scissorRectInvalidated_ := false;
          numColorAttachments_ := numColorAttachments_ ss;
          hasDSVAttachment_ := hasDSVAttachment_ ss;
          clearColor_ := clearColor_ ss;
          clearDepthStencil_ := clearDepthStencil_ ss |})).

(** [computePipelineVK] is the value of its [GetVkPipeline()]. *)
Definition SetComputePipeline (computePipelineVK : Z) : Run unit :=
  commandBuffer ← member commandBuffer_;
  emit (vkCmdBindPipeline commandBuffer VK_PIPELINE_BIND_POINT_COMPUTE computePipelineVK).

(** Pipeline bindings, as a caller makes them one after the other. *)
Inductive PipelineOp :=
| BindGraphics (graphicsPipelineVK : VKGraphicsPipeline)
| BindCompute (computePipelineVK : Z).

Definition run_PipelineOp (op : PipelineOp) : Run unit :=
  match op with
  | BindGraphics graphicsPipelineVK => SetGraphicsPipeline graphicsPipelineVK
  | BindCompute computePipelineVK => SetComputePipeline computePipelineVK
  end.

(** A graphics pipeline without scissor test whose scissor is dynamic
    state: binding one is what makes the recorder set the scissor. *)
Definition wants_full_scissor (op : PipelineOp) : bool :=
  match op with
  | BindGraphics graphicsPipelineVK =>
      negb (IsScissorEnabled graphicsPipelineVK) && HasDynamicScissor graphicsPipelineVK
  | BindCompute _ => false
  end.

Definition is_vkCmdSetScissor (c : Command) : bool :=
  match c with vkCmdSetScissor _ _ _ _ => true | _ => false end.

(** *** Destruction *)

(** [~VKCommandBuffer()] *)
Definition destruct_ : Run unit :=
  o ← member id;
  emit (vkFreeCommandBuffers (commandPool_ o)
          (to_uint32 (Z.of_nat (length (commandBufferList_ o)))) (commandBufferList_ o)).

(** *** Sample inputs *)

(** The recorder on slot 0 of two, with none of the commands of this
    part recorded. *)
Definition idle_recorder : State := {| recorder := presenting 2 0; commands := [] |}.

(** A graphics pipeline without scissor test and with dynamic scissor,
    and one with scissor test. *)
Definition unclipped : VKGraphicsPipeline :=
  {| GetVkPipeline := 700; IsScissorEnabled := false; HasDynamicScissor := true |}.

Definition clipped : VKGraphicsPipeline :=
  {| GetVkPipeline := 701; IsScissorEnabled := true; HasDynamicScissor := true |}.

Definition square (size : Z) : VkRect2D := {| offset := (0, 0); extent := (size, size) |}.

End VKCommands.

(** * Properties *)

(** ** The execution monad *)

Module ExecFacts.

Lemma run_bind {S E A B} (m : M S E A) (k : A -> M S E B) s :
  (m ≫= k) s = match m s with
               | (Ok a, s') => k a s'
               | (Fail e, s') => (Fail e, s')
               end.
Proof. reflexivity. Qed.

Lemma bind_ok {S E A B} (m : M S E A) (k : A -> M S E B) s a s' :
  m s = (Ok a, s') -> (m ≫= k) s = k a s'.
Proof. intros H. rewrite run_bind, H. reflexivity. Qed.

Lemma bind_fail {S E A B} (m : M S E A) (k : A -> M S E B) s e s' :
  m s = (Fail e, s') -> (m ≫= k) s = (Fail e, s').
Proof. intros H. rewrite run_bind, H. reflexivity. Qed.

Lemma run_ret {S E A} (a : A) (s : S) : (mret a : M S E A) s = (Ok a, s).
Proof. reflexivity. Qed.

Lemma for_each_cons {S E A} (x : A) (xs : list A) (body : A -> M S E unit) (s : S) :
  for_each (x :: xs) body s = (body x ≫= fun _ => for_each xs body) s.
Proof. reflexivity. Qed.

Lemma bind_congr {S E A B} (m : M S E A) (k1 k2 : A -> M S E B) s :
  (forall a s', k1 a s' = k2 a s') -> (m ≫= k1) s = (m ≫= k2) s.
Proof. intros H. rewrite !run_bind. destruct (m s) as [[a|e] s']; auto. Qed.

Lemma bind_ok_inv {S E A B} (m : M S E A) (k : A -> M S E B) s b s' :
  (m ≫= k) s = (Ok b, s') -> exists a s1, m s = (Ok a, s1) /\ k a s1 = (Ok b, s').
Proof.
  rewrite run_bind. destruct (m s) as [[a|e] s1]; [eauto | discriminate].
Qed.

(** Symbolic execution: push the state through binds and returns. *)
Ltac run := simpl; repeat (first [rewrite run_bind | rewrite run_ret]; simpl).

(** [fails_only P m]: whenever [m] fails, the failure satisfies [P]. *)
Definition fails_only {S E A} (P : E -> Prop) (m : M S E A) : Prop :=
  forall s e s', m s = (Fail e, s') -> P e.

Section FailsOnly.
Context {S E : Type} (P : E -> Prop).

Lemma fails_only_ret {A} (a : A) : fails_only P (mret a : M S E A).
Proof. intros s e s' H. discriminate H. Qed.

Lemma fails_only_gets {A} (f : S -> A) : fails_only P (gets f : M S E A).
Proof. intros s e s' H. discriminate H. Qed.

Lemma fails_only_modify (f : S -> S) : fails_only P (modify f : M S E unit).
Proof. intros s e s' H. discriminate H. Qed.

Lemma fails_only_fail {A} (e : E) : P e -> fails_only P (fail e : M S E A).
Proof. intros He s e' s' H. injection H as <- _. exact He. Qed.

Lemma fails_only_bind {A B} (m : M S E A) (k : A -> M S E B) :
  fails_only P m -> (forall a, fails_only P (k a)) -> fails_only P (m ≫= k).
Proof.
  intros Hm Hk s e s' H. rewrite run_bind in H.
  destruct (m s) as [[a|e1] s1] eqn:Em.
  - eapply Hk, H.
  - injection H as <- _. eapply Hm, Em.
Qed.

Lemma fails_only_when (c : bool) (body : M S E unit) :
  fails_only P body -> fails_only P (when c body).
Proof. intros H. destruct c; [exact H | apply fails_only_ret]. Qed.

Lemma fails_only_for_each {A} (xs : list A) (body : A -> M S E unit) :
  (forall x, fails_only P (body x)) -> fails_only P (for_each xs body).
Proof.
  intros H. induction xs as [|x xs IH]; simpl.
  - apply fails_only_ret.
  - apply (fails_only_bind (body x)); [apply H | intros _; exact IH].
Qed.
End FailsOnly.

End ExecFacts.

(** ** GLRenderTarget *)

Module GLRenderTargetSpec.
Import ExecFacts GL.

Create HintDb gl_run discriminated.

#[local] Hint Unfold emit genName update member or_blitMask_ array_store array_load
  ErrDepthAttachmentFailed ErrTooManyColorAttachments : gl_run.

#[local] Arguments ValidateFramebufferStatus : simpl never.
#[local] Arguments SetDrawBuffers : simpl never.
#[local] Arguments CreateRenderbuffersMS : simpl never.
#[local] Arguments AttachAllDepthStencilBuffers : simpl never.
#[local] Arguments CountColorAttachments : simpl never.
#[local] Arguments to_uint32 : simpl never.
#[local] Arguments to_int32 : simpl never.

(** The counting loop of [CountColorAttachments] counts the attachments
    of type Color. *)
Lemma count_loop_numColor (attachmentDescs : list AttachmentDescriptor) (n : nat) :
  fold_left (fun n attachmentDesc => if is_Color (type attachmentDesc) then S n else n)
            attachmentDescs n
  = (n + numColor attachmentDescs)%nat.
Proof.
  unfold numColor. revert n.
  induction attachmentDescs as [|a l IH]; intros n; simpl.
  - lia.
  - rewrite IH, filter_cons. destruct (is_Color (type a)); simpl; lia.
Qed.

Lemma CountColorAttachments_run (attachmentDescs : list AttachmentDescriptor) (s : State) :
  CountColorAttachments attachmentDescs s =
  if (g_maxFramebufferAttachments <? numColor attachmentDescs)%nat
  then (Fail (Throw (TooManyColorAttachments g_maxFramebufferAttachments)), s)
  else (Ok (numColor attachmentDescs), s).
Proof.
  unfold CountColorAttachments. rewrite count_loop_numColor. simpl.
  destruct (_ <? _)%nat; reflexivity.
Qed.

Definition not_TooManyColorAttachments (e : Failure) : Prop :=
  forall n, e <> Throw (TooManyColorAttachments n).

Ltac fails_only_step :=
  first
    [ apply fails_only_bind; [|intros ?]
    | apply fails_only_ret
    | apply fails_only_gets
    | apply fails_only_modify
    | apply fails_only_when
    | apply fails_only_for_each; intros ?
    | apply fails_only_fail; intros ?; discriminate
    | match goal with
      | |- fails_only _ (if ?c then _ else _) => destruct c
      | |- fails_only _ (match ?x with _ => _ end) => destruct x
      end ].

Ltac fails_only_auto := repeat (autounfold with gl_run; fails_only_step).

Section NoSpuriousCountFailure.
Context (platform : Platform).

Lemma ValidateFramebufferStatus_count info :
  fails_only not_TooManyColorAttachments (ValidateFramebufferStatus platform info).
Proof. unfold ValidateFramebufferStatus. fails_only_auto. Qed.

Lemma AttachAllDepthStencilBuffers_count l :
  fails_only not_TooManyColorAttachments (AttachAllDepthStencilBuffers l).
Proof.
  unfold AttachAllDepthStencilBuffers, AttachDepthBuffer, AttachStencilBuffer,
    AttachDepthStencilBuffer, CreateAndAttachRenderbuffer, InitRenderbufferStorage.
  fails_only_auto.
Qed.

Lemma AttachTexture_count t a f i :
  fails_only not_TooManyColorAttachments (AttachTexture platform t a f i).
Proof.
  unfold AttachTexture, ValidateMipResolution, GetTexInternalFormat,
    MakeFramebufferAttachment.
  fails_only_auto.
Qed.

Lemma AttachAllTextures_count l f i :
  fails_only not_TooManyColorAttachments (AttachAllTextures_from platform l f i).
Proof.
  revert f i. induction l as [|a l IH]; intros f i; simpl.
  - fails_only_auto.
  - destruct (texture a); [|apply IH].
    apply fails_only_bind; [apply AttachTexture_count | intros; apply IH].
Qed.

Lemma CreateRenderbuffersMS_count f :
  fails_only not_TooManyColorAttachments (CreateRenderbuffersMS platform f).
Proof.
  unfold CreateRenderbuffersMS, CreateRenderbufferMS, SetDrawBuffers,
    InitRenderbufferStorage.
  repeat first [ apply ValidateFramebufferStatus_count | fails_only_step
               | progress autounfold with gl_run ].
Qed.

Lemma construct_count desc :
  (numColor (attachments desc) <= g_maxFramebufferAttachments)%nat ->
  fails_only not_TooManyColorAttachments (construct platform desc).
Proof.
  intros Hn.
  unfold construct, CreateFramebufferWithAttachments,
    CreateFramebufferWithNoAttachments, AttachAllTextures, SetDrawBuffers.
  assert (Hc : fails_only not_TooManyColorAttachments
                 (CountColorAttachments (attachments desc))).
  { intros s e s' H. rewrite CountColorAttachments_run in H.
    apply Nat.ltb_ge in Hn. rewrite Hn in H. discriminate H. }
  repeat first [ apply ValidateFramebufferStatus_count
               | apply AttachAllDepthStencilBuffers_count
               | apply AttachAllTextures_count
               | apply CreateRenderbuffersMS_count
               | exact Hc
               | fails_only_step
               | progress autounfold with gl_run ].
Qed.
End NoSpuriousCountFailure.

(** C8. Binding a descriptor with more than 32 attachments of type Color
    fails with the too-many-color-attachments error, and at that point
    nothing but the framebuffer objects has been generated: no
    framebuffer is bound, no attachment made, no slot assigned.  With 32
    or fewer, binding never fails with that error. *)
Theorem too_many_color_attachments (platform : Platform) (desc : RenderTargetDescriptor) :
  ((g_maxFramebufferAttachments < numColor (attachments desc))%nat ->
    Bind platform desc =
    (Fail (Throw (TooManyColorAttachments g_maxFramebufferAttachments)),
     if has_secondary_store desc then
       {| self := set_framebufferMS_ 2 (set_framebuffer_ 1 (initial desc));
          calls := [GenFramebuffer 1; GenFramebuffer 2]; nextName := 3 |}
     else
       {| self := set_framebuffer_ 1 (initial desc);
          calls := [GenFramebuffer 1]; nextName := 2 |}))
  /\
  ((numColor (attachments desc) <= g_maxFramebufferAttachments)%nat ->
    forall n, fst (Bind platform desc) <> Fail (Throw (TooManyColorAttachments n))).
Proof.
  split.
  - intros Hn. unfold Bind, construct.
    destruct (attachments desc) as [|a l] eqn:E;
      [unfold numColor in Hn; rewrite filter_nil in Hn; simpl in Hn; lia|].
    rewrite <- E in Hn. clear E a l.
    apply Nat.ltb_lt in Hn.
    unfold CreateFramebufferWithAttachments, has_secondary_store, HasMultiSampling.
    repeat (rewrite run_bind; simpl).
    destruct ((1 <? to_int32 (sampleCount desc)) && negb (customMultiSampling desc));
      simpl; repeat (rewrite run_bind; simpl);
      rewrite CountColorAttachments_run, Hn; reflexivity.
  - intros Hn n H. unfold Bind in H.
    destruct (construct platform desc _) as [[[]|e] s'] eqn:E; simpl in H; [discriminate|].
    apply (construct_count platform desc Hn) in E.
    injection H as ->. exact (E n eq_refl).
Qed.

(** Thirty-three colour textures are refused, thirty-two are not. *)
Lemma too_many_color_attachments_witness :
  fst (Bind accepting (target 1 (map colorTexture (seq 0 33))))
    = Fail (Throw (TooManyColorAttachments 32)) /\
  fst (Bind accepting (target 1 (map colorTexture (seq 0 32))))
    <> Fail (Throw (TooManyColorAttachments 32)).
Proof.
  split.
  - rewrite (proj1 (too_many_color_attachments accepting
                      (target 1 (map colorTexture (seq 0 33))))); [reflexivity|].
    vm_compute. lia.
  - apply (proj2 (too_many_color_attachments accepting
                    (target 1 (map colorTexture (seq 0 32))))).
    vm_compute. lia.
Defined.

Definition depth_stencil_bits : Z := Z.lor GL_DEPTH_BUFFER_BIT GL_STENCIL_BUFFER_BIT.

Lemma color_bit_keeps_mask_clear (m : Z) :
  Z.land m depth_stencil_bits = 0 ->
  Z.land (Z.lor m GL_COLOR_BUFFER_BIT) depth_stencil_bits = 0.
Proof. intros H. rewrite Z.land_lor_distr_l, H. reflexivity. Qed.

Lemma mask_clear_no_depth (m : Z) :
  Z.land m depth_stencil_bits = 0 -> Z.land m GL_DEPTH_BUFFER_BIT = 0.
Proof.
  intros H.
  change GL_DEPTH_BUFFER_BIT with (Z.land depth_stencil_bits GL_DEPTH_BUFFER_BIT).
  rewrite Z.land_assoc, H. reflexivity.
Qed.

Lemma mask_clear_no_stencil (m : Z) :
  Z.land m depth_stencil_bits = 0 -> Z.land m GL_STENCIL_BUFFER_BIT = 0.
Proof.
  intros H.
  change GL_STENCIL_BUFFER_BIT with (Z.land depth_stencil_bits GL_STENCIL_BUFFER_BIT).
  rewrite Z.land_assoc, H. reflexivity.
Qed.

(** Everything a colour texture changes in the object: one more slot and
    the colour bit. *)
Definition with_slots (slots : list Z) (mask : Z) (o : GLRenderTarget) : GLRenderTarget :=
  set_blitMask_ mask (set_colorAttachments_ (colorAttachments_ o ++ slots) o).

Definition initialised (buf : list (option Z)) (n : nat) : Prop :=
  forall j, (j < n)%nat -> exists v, buf !! j = Some (Some v).

Section ColorOnly.
Context (platform : Platform).

Lemma AttachTexture_color tex a fmts i (s : State) :
  color_attachment platform (resolution_ (self s)) a ->
  texture a = Some tex ->
  (i < length fmts)%nat ->
  exists slot calls',
    AttachTexture platform tex a fmts i s =
    (Ok (<[i := Some (to_uint32 (texInternalFormat tex))]> fmts),
     {| self := with_slots [slot] (Z.lor (blitMask_ (self s)) GL_COLOR_BUFFER_BIT) (self s);
        calls := calls'; nextName := nextName s |}).
Proof.
  intros (_ & tex' & Ht & Hd & Hds & Hmip) Ht' Hi.
  rewrite Ht in Ht'. injection Ht' as ->.
  unfold AttachTexture, ValidateMipResolution, GetTexInternalFormat,
    MakeFramebufferAttachment.
  autounfold with gl_run.
  run. rewrite Hmip. run.
  destruct (decide (i < length fmts)%nat) as [_|]; [|lia]. run.
  apply Z.eqb_neq in Hd, Hds. rewrite Hd, Hds. run.
  destruct (texType tex); run; eexists _, _; reflexivity.
Qed.

Lemma AttachAllTextures_color l : forall fmts i (s : State),
  Forall (color_attachment platform (resolution_ (self s))) l ->
  (i + length l <= length fmts)%nat ->
  initialised fmts i ->
  exists fmts' slots mask calls',
    AttachAllTextures_from platform l fmts i s =
    (Ok fmts', {| self := with_slots slots mask (self s);
                  calls := calls'; nextName := nextName s |}) /\
    initialised fmts' (i + length l) /\
    length slots = length l /\
    (Z.land (blitMask_ (self s)) depth_stencil_bits = 0 ->
     Z.land mask depth_stencil_bits = 0).
Proof.
  induction l as [|a l IH]; intros fmts i s Hl Hlen Hinit; simpl.
  - exists fmts, [], (blitMask_ (self s)), (calls s). repeat split.
    + rewrite run_ret. destruct s as [[] ? ?]; unfold with_slots; simpl.
      rewrite app_nil_r. reflexivity.
    + rewrite Nat.add_0_r. exact Hinit.
    + auto.
  - apply Forall_cons in Hl as [Ha Hl].
    pose proof Ha as (_ & tex & Ht & _). rewrite Ht.
    simpl in Hlen.
    destruct (AttachTexture_color tex a fmts i s Ha Ht) as (slot & calls1 & E1); [lia|].
    rewrite (bind_ok _ _ _ _ _ E1).
    match type of E1 with _ = (_, ?st) => set (s1 := st) in * end.
    destruct (IH (<[i := Some (to_uint32 (texInternalFormat tex))]> fmts) (S i) s1)
      as (fmts' & slots & mask & calls' & E2 & Hinit' & Hslots & Hmask).
    + exact Hl.
    + rewrite length_insert. lia.
    + intros j Hj. destruct (decide (j = i)) as [->|Hne].
      * eexists. apply list_lookup_insert_eq. lia.
      * rewrite list_lookup_insert_ne by congruence. apply Hinit. lia.
    + rewrite E2. exists fmts', (slot :: slots), mask, calls'. repeat split.
      * simpl. unfold with_slots. simpl. rewrite <- app_assoc. reflexivity.
      * replace (i + S (length l))%nat with (S i + length l)%nat by lia. exact Hinit'.
      * simpl. congruence.
      * intros H. apply Hmask. simpl. apply color_bit_keeps_mask_clear, H.
Qed.

Lemma AttachAllDepthStencilBuffers_textures l (s : State) :
  Forall (fun a => is_Some (texture a)) l ->
  AttachAllDepthStencilBuffers l s = (Ok tt, s).
Proof.
  unfold AttachAllDepthStencilBuffers.
  induction 1 as [|a l [tex Ht] _ IH]; simpl; [reflexivity|].
  rewrite Ht. exact IH.
Qed.

Hypothesis complete :
  forall trace, glCheckFramebufferStatus platform trace = GL_FRAMEBUFFER_COMPLETE.

Lemma ValidateFramebufferStatus_complete info (s : State) :
  ValidateFramebufferStatus platform info s =
  (Ok tt, {| self := self s; calls := calls s ++ [CheckFramebufferStatus];
             nextName := nextName s |}).
Proof.
  unfold ValidateFramebufferStatus. autounfold with gl_run. run.
  rewrite complete. reflexivity.
Qed.

Lemma SetDrawBuffers_run (s : State) :
  exists c, SetDrawBuffers s =
    (Ok tt, {| self := self s; calls := calls s ++ [c]; nextName := nextName s |}).
Proof.
  unfold SetDrawBuffers. autounfold with gl_run. run.
  destruct (colorAttachments_ (self s)) as [|x [|y l]]; eexists; reflexivity.
Qed.

Lemma CreateRenderbufferMS_run attachment internalFormat (s : State) :
  CreateRenderbufferMS attachment internalFormat s =
  (Ok tt,
   {| self := set_renderbuffersMS_ (renderbuffersMS_ (self s) ++ [nextName s]) (self s);
      calls := calls s ++
               [GenRenderbuffer (nextName s);
                RenderbufferStorage (nextName s) internalFormat
                  (to_int32 (resolution_ (self s)).1)
                  (to_int32 (resolution_ (self s)).2) (multiSamples_ (self s));
                AttachRenderbuffer attachment (nextName s)];
      nextName := nextName s + 1 |}).
Proof.
  unfold CreateRenderbufferMS, InitRenderbufferStorage. autounfold with gl_run. run.
  rewrite <- !app_assoc. reflexivity.
Qed.

Lemma CreateRenderbuffersMS_loop fmts (ps : list (nat * Z)) : forall s : State,
  Forall (fun p => exists v, fmts !! p.1 = Some (Some v)) ps ->
  exists rbs calls' next',
    for_each ps (fun '(i, attachment) =>
                   internalFormat ← array_load fmts i;
                   CreateRenderbufferMS attachment internalFormat) s =
    (Ok tt, {| self := set_renderbuffersMS_ (renderbuffersMS_ (self s) ++ rbs) (self s);
               calls := calls'; nextName := next' |}).
Proof.
  induction ps as [|[i att] ps IH]; intros s Hps.
  - exists [], (calls s), (nextName s). simpl. unfold ret.
    destruct s as [[] ? ?]; simpl. rewrite app_nil_r. reflexivity.
  - apply Forall_cons in Hps as [[v Hv] Hps]. simpl in Hv.
    rewrite for_each_cons, run_bind. cbv beta iota.
    unfold array_load at 1. rewrite Hv, run_bind, run_ret, CreateRenderbufferMS_run.
    match goal with |- context [for_each ps _ ?st] => set (s1 := st) end.
    destruct (IH s1 Hps) as (rbs & calls' & next' & E). rewrite E.
    exists (nextName s :: rbs), calls', next'. subst s1. simpl.
    rewrite <- app_assoc. reflexivity.
Qed.

Lemma CreateRenderbuffersMS_complete fmts (s : State) :
  initialised fmts (length (colorAttachments_ (self s))) ->
  exists rbs calls' next',
    CreateRenderbuffersMS platform fmts s =
    (Ok tt, {| self := set_renderbuffersMS_ (renderbuffersMS_ (self s) ++ rbs) (self s);
               calls := calls'; nextName := next' |}).
Proof.
  intros Hinit. unfold CreateRenderbuffersMS, member. run.
  edestruct (CreateRenderbuffersMS_loop fmts) as (rbs & calls1 & next1 & E).
  2: { rewrite E.
       match goal with |- context [(SetDrawBuffers ≫= _) ?st] =>
         destruct (SetDrawBuffers_run st) as [c Ec] end.
       rewrite (bind_ok _ _ _ _ _ Ec), ValidateFramebufferStatus_complete. simpl.
       eexists _, _, _. reflexivity. }
  apply Forall_forall. intros [i att] Hin. simpl.
  apply list_elem_of_lookup in Hin as [j Hj].
  rewrite list_lookup_imap in Hj.
  destruct (colorAttachments_ (self s) !! j) as [x|] eqn:Ex; [|discriminate].
  simpl in Hj. injection Hj as <- <-.
  apply Hinit. eapply lookup_lt_Some, Ex.
Qed.

Lemma numColor_all_color res l :
  Forall (color_attachment platform res) l -> numColor l = length l.
Proof.
  unfold numColor. induction 1 as [|a l [Ha _] _ IH]; [reflexivity|].
  rewrite filter_cons, Ha. simpl. congruence.
Qed.

(** C4. A descriptor whose attachments are all colour textures, at most
    32 of them, on a platform that reports its framebuffers complete,
    binds successfully; the render target then reports as many colour
    attachments as the descriptor has, and neither a depth nor a
    stencil attachment. *)
Theorem color_only_target (desc : RenderTargetDescriptor) :
  Forall (color_attachment platform (resolution desc)) (attachments desc) ->
  (numColor (attachments desc) <= g_maxFramebufferAttachments)%nat ->
  exists st,
    Bind platform desc = (Ok tt, st) /\
    GetNumColorAttachments (self st) = Z.of_nat (numColor (attachments desc)) /\
    HasDepthAttachment (self st) = false /\
    HasStencilAttachment (self st) = false.
Proof.
  intros Hall Hk. rewrite (numColor_all_color _ _ Hall) in *.
  unfold Bind, construct. run.
  destruct (attachments desc) as [|a0 l0] eqn:Eatt.
  - unfold CreateFramebufferWithNoAttachments. autounfold with gl_run. run.
    destruct (ARB_framebuffer_no_attachments platform); run;
      rewrite ValidateFramebufferStatus_complete;
      eexists; (split; [reflexivity|]); repeat split.
  - rewrite <- Eatt in *. clear a0 l0 Eatt.
    unfold CreateFramebufferWithAttachments, AttachAllTextures, member. run.
    assert (Hinit0 : initialised (replicate g_maxFramebufferAttachments None) 0)
      by (intros j Hj; lia).
    assert (Hcount : forall s : State,
               CountColorAttachments (attachments desc) s
               = (Ok (length (attachments desc)), s)).
    { intros s. rewrite CountColorAttachments_run, (numColor_all_color _ _ Hall).
      apply Nat.ltb_ge in Hk. rewrite Hk. reflexivity. }
    assert (Htex : Forall (fun a => is_Some (texture a)) (attachments desc)).
    { eapply Forall_impl; [exact Hall|]. intros a (_ & tex & -> & _). eauto. }
    destruct (HasMultiSampling _ && negb _) eqn:Ems; run; rewrite Hcount; run.
    all: assert (Hresult : forall (slots : list Z) (mask : Z) (o : GLRenderTarget),
           length slots = length (attachments desc) ->
           Z.land mask depth_stencil_bits = 0 ->
           colorAttachments_ o = slots -> blitMask_ o = mask ->
           GetNumColorAttachments o = Z.of_nat (length (attachments desc)) /\
           HasDepthAttachment o = false /\ HasStencilAttachment o = false)
      by (intros slots mask o Hslots Hmask Hca Hbm;
           unfold GetNumColorAttachments, HasDepthAttachment, HasStencilAttachment;
           rewrite Hca, Hbm, Hslots, (mask_clear_no_depth _ Hmask),
             (mask_clear_no_stencil _ Hmask);
           repeat split; unfold to_uint32; apply Z.mod_small;
           unfold g_maxFramebufferAttachments in Hk; lia).
    + match goal with |- context [AttachAllTextures_from platform ?l ?f 0 ?st] =>
        destruct (AttachAllTextures_color l f 0%nat st)
          as (fmts' & slots & mask & calls' & E & Hinit' & Hslots & Hmask);
          [exact Hall | simpl; unfold g_maxFramebufferAttachments in Hk; lia
          | exact Hinit0 | ] end.
      rewrite E. run. rewrite ValidateFramebufferStatus_complete. run.
      rewrite (AttachAllDepthStencilBuffers_textures _ _ Htex). run.
      match goal with |- context [CreateRenderbuffersMS platform ?f ?st] =>
        destruct (CreateRenderbuffersMS_complete f st) as (rbs & calls2 & next2 & E2)
      end.
      { simpl. rewrite Hslots. exact Hinit'. }
      rewrite E2. eexists. split; [reflexivity|].
      apply (Hresult slots mask); auto.
    + rewrite (AttachAllDepthStencilBuffers_textures _ _ Htex). run.
      match goal with |- context [AttachAllTextures_from platform ?l ?f 0 ?st] =>
        destruct (AttachAllTextures_color l f 0%nat st)
          as (fmts' & slots & mask & calls' & E & Hinit' & Hslots & Hmask);
          [exact Hall | simpl; unfold g_maxFramebufferAttachments in Hk; lia
          | exact Hinit0 | ] end.
      rewrite E. run.
      match goal with |- context [SetDrawBuffers ?st] =>
         destruct (SetDrawBuffers_run st) as [c Ec] end.
      rewrite Ec. run.
      rewrite ValidateFramebufferStatus_complete. run.
      eexists. split; [reflexivity|].
      apply (Hresult slots mask); auto.
Qed.
End ColorOnly.

Lemma color_only_target_witness :
  exists st,
    Bind accepting (target 4 (map colorTexture (seq 0 3))) = (Ok tt, st) /\
    GetNumColorAttachments (self st)
      = Z.of_nat (numColor (attachments (target 4 (map colorTexture (seq 0 3))))) /\
    HasDepthAttachment (self st) = false /\
    HasStencilAttachment (self st) = false.
Proof.
  apply (color_only_target accepting (fun _ => eq_refl)
           (target 4 (map colorTexture (seq 0 3)))).
  - simpl.
    repeat (constructor;
            [split; [reflexivity|]; eexists; repeat split; now vm_compute |]).
    constructor.
  - vm_compute. lia.
Defined.

(** *** Depth and stencil buffers *)

Lemma AttachAllDepthStencilBuffers_without_texture l (s : State) :
  AttachAllDepthStencilBuffers l s = AttachAllDepthStencilBuffers (without_texture l) s.
Proof.
  unfold AttachAllDepthStencilBuffers, without_texture. revert s.
  induction l as [|a l IH]; intros s; [reflexivity|].
  rewrite filter_cons. destruct (texture a) as [tex|] eqn:Ht.
  - rewrite for_each_cons, run_bind, Ht, run_ret.
    destruct (decide (Some tex = None)); [discriminate|]. apply IH.
  - destruct (decide (None = None)); [|congruence].
    rewrite !for_each_cons. apply bind_congr. intros [] s'. apply IH.
Qed.

(** When the first two attachments without a texture are
    both of depth or stencil type, the descriptor passes the colour count
    and no secondary store is used, binding fails with the
    depth-attachment error.  The state at the failure shows the
    renderbuffer of the first (name 2) created, sized and attached, its
    bits in the blit mask, and no call made for the second: the first is
    not overridden. *)
Theorem duplicate_depth_buffer (platform : Platform) (desc : RenderTargetDescriptor)
    (a1 a2 : AttachmentDescriptor) (rest : list AttachmentDescriptor) :
  (numColor (attachments desc) <= g_maxFramebufferAttachments)%nat ->
  has_secondary_store desc = false ->
  without_texture (attachments desc) = a1 :: a2 :: rest ->
  type a1 <> Color ->
  type a2 <> Color ->
  Bind platform desc =
  (Fail (Throw DepthAttachmentFailed),
   {| self := set_blitMask_ (buffer_bits (type a1))
                (set_renderbuffer_ 2 (set_framebuffer_ 1 (initial desc)));
      calls := [GenFramebuffer 1; BindFramebuffer FRAMEBUFFER 1; GenRenderbuffer 2;
                RenderbufferStorage 2 (buffer_format (type a1))
                  (to_int32 (resolution desc).1) (to_int32 (resolution desc).2)
                  (to_int32 (sampleCount desc));
                AttachRenderbuffer (buffer_attachment (type a1)) 2];
      nextName := 3 |}).
Proof.
  intros Hn Hms Hbuf H1 H2.
  assert (Ht1 : texture a1 = None).
  { assert (Hin : a1 ∈ without_texture (attachments desc))
      by (rewrite Hbuf; apply list_elem_of_here).
    apply list_elem_of_filter in Hin as [Hin _]. exact Hin. }
  assert (Ht2 : texture a2 = None).
  { assert (Hin : a2 ∈ without_texture (attachments desc))
      by (rewrite Hbuf; apply list_elem_of_further, list_elem_of_here).
    apply list_elem_of_filter in Hin as [Hin _]. exact Hin. }
  unfold Bind, construct. run.
  destruct (attachments desc) as [|a0 l0] eqn:Eatt; [discriminate Hbuf|].
  rewrite <- Eatt in *. clear a0 l0 Eatt.
  unfold CreateFramebufferWithAttachments, member. run.
  unfold has_secondary_store, HasMultiSampling in Hms. simpl in Hms.
  unfold HasMultiSampling. simpl. rewrite Hms. run.
  rewrite CountColorAttachments_run.
  apply Nat.ltb_ge in Hn. rewrite Hn. run.
  rewrite AttachAllDepthStencilBuffers_without_texture, Hbuf.
  unfold AttachAllDepthStencilBuffers. simpl. rewrite Ht1, Ht2.
  unfold AttachDepthBuffer, AttachStencilBuffer, AttachDepthStencilBuffer,
    CreateAndAttachRenderbuffer, InitRenderbufferStorage.
  autounfold with gl_run.
  destruct (type a1); [congruence | | |];
    (destruct (type a2); [congruence | | |]); run; reflexivity.
Qed.

Lemma duplicate_depth_buffer_witness :
  Bind accepting (target 1 [colorTexture 0; buffer Depth; buffer DepthStencil]) =
  (Fail (Throw DepthAttachmentFailed),
   {| self := set_blitMask_ GL_DEPTH_BUFFER_BIT
                (set_renderbuffer_ 2
                   (set_framebuffer_ 1
                      (initial (target 1 [colorTexture 0; buffer Depth; buffer DepthStencil]))));
      calls := [GenFramebuffer 1; BindFramebuffer FRAMEBUFFER 1; GenRenderbuffer 2;
                RenderbufferStorage 2 GL_DEPTH_COMPONENT 640 480 1;
                AttachRenderbuffer GL_DEPTH_ATTACHMENT 2];
      nextName := 3 |}).
Proof.
  apply (duplicate_depth_buffer accepting
           (target 1 [colorTexture 0; buffer Depth; buffer DepthStencil])
           (buffer Depth) (buffer DepthStencil) []).
  - vm_compute. lia.
  - reflexivity.
  - reflexivity.
  - discriminate.
  - discriminate.
Defined.

(** The same from any state in which no renderbuffer has been created yet
    (the driver hands out no name 0), which is where the secondary store
    starts once the textures have been attached to the primary one. *)
Lemma duplicate_depth_buffer_any_store (l : list AttachmentDescriptor) (s : State)
    (a1 a2 : AttachmentDescriptor) (rest : list AttachmentDescriptor) :
  renderbuffer_ (self s) = 0 ->
  nextName s <> 0 ->
  without_texture l = a1 :: a2 :: rest ->
  type a1 <> Color ->
  type a2 <> Color ->
  fst (AttachAllDepthStencilBuffers l s) = Fail (Throw DepthAttachmentFailed).
Proof.
  intros Hrb Hname Hbuf H1 H2. apply Z.eqb_neq in Hname.
  assert (Ht1 : texture a1 = None).
  { assert (Hin : a1 ∈ without_texture l) by (rewrite Hbuf; apply list_elem_of_here).
    apply list_elem_of_filter in Hin as [Hin _]. exact Hin. }
  assert (Ht2 : texture a2 = None).
  { assert (Hin : a2 ∈ without_texture l)
      by (rewrite Hbuf; apply list_elem_of_further, list_elem_of_here).
    apply list_elem_of_filter in Hin as [Hin _]. exact Hin. }
  rewrite AttachAllDepthStencilBuffers_without_texture, Hbuf.
  unfold AttachAllDepthStencilBuffers. simpl. rewrite Ht1, Ht2.
  unfold AttachDepthBuffer, AttachStencilBuffer, AttachDepthStencilBuffer,
    CreateAndAttachRenderbuffer, InitRenderbufferStorage.
  autounfold with gl_run.
  destruct (type a1); [congruence | | |];
    (destruct (type a2); [congruence | | |]); run; rewrite Hrb; run;
    unfold Valid; rewrite Hname; reflexivity.
Qed.

(** *** Depth and stencil textures together with buffers *)






Section Contenders.
Context (platform : Platform).



End Contenders.












(** *** Blitting *)

(** C2 (as amended). On a render target without a secondary store
    [BlitOntoFramebuffer] does nothing.  [BlitOntoScreen] does nothing
    when its index is not a colour slot of the target; for a colour slot
    it copies that slot of the primary store to the back buffer. *)
Theorem blit_without_secondary_store (s : State) :
  framebufferMS_ (self s) = 0 ->
  BlitOntoFramebuffer s = (Ok tt, s) /\
  forall colorAttachmentIndex : nat,
    BlitOntoScreen colorAttachmentIndex s =
    (Ok tt,
     match colorAttachments_ (self s) !! colorAttachmentIndex with
     | None => s
     | Some attachment =>
         {| self := self s;
            calls := calls s ++
                     [BindFramebuffer DRAW_FRAMEBUFFER 0;
                      BindFramebuffer READ_FRAMEBUFFER (framebuffer_ (self s));
                      ReadBuffer attachment;
                      DrawBuffer GL_BACK;
                      Blit (to_int32 (resolution_ (self s)).1)
                           (to_int32 (resolution_ (self s)).2) (blitMask_ (self s));
                      BindFramebuffer READ_FRAMEBUFFER 0];
            nextName := nextName s |}
     end).
Proof.
  intros Hms. split.
  - unfold BlitOntoFramebuffer, member. run. rewrite Hms. reflexivity.
  - intros idx. unfold BlitOntoScreen, BlitFramebuffer, GetFramebuffer.
    autounfold with gl_run. run. rewrite Hms. simpl.
    destruct (colorAttachments_ (self s) !! idx) as [attachment|] eqn:E.
    + rewrite bool_decide_eq_true_2 by (eapply lookup_lt_Some, E).
      run. unfold modify. simpl. rewrite <- !app_assoc. reflexivity.
    + rewrite bool_decide_eq_false_2
        by (apply Nat.nlt_ge; eapply lookup_ge_None, E).
      reflexivity.
Qed.

Lemma blit_without_secondary_store_witness :
  BlitOntoFramebuffer direct_target = (Ok tt, direct_target) /\
  forall colorAttachmentIndex : nat,
    BlitOntoScreen colorAttachmentIndex direct_target =
    (Ok tt,
     match colorAttachments_ (self direct_target) !! colorAttachmentIndex with
     | None => direct_target
     | Some attachment =>
         {| self := self direct_target;
            calls := calls direct_target ++
                     [BindFramebuffer DRAW_FRAMEBUFFER 0;
                      BindFramebuffer READ_FRAMEBUFFER (framebuffer_ (self direct_target));
                      ReadBuffer attachment;
                      DrawBuffer GL_BACK;
                      Blit (to_int32 (resolution_ (self direct_target)).1)
                           (to_int32 (resolution_ (self direct_target)).2)
                           (blitMask_ (self direct_target));
                      BindFramebuffer READ_FRAMEBUFFER 0];
            nextName := nextName direct_target |}
     end).
Proof. apply (blit_without_secondary_store direct_target). reflexivity. Defined.

(** C2 as stated does not hold: the target bound from one colour texture
    has no secondary store, and [BlitOntoScreen 0] on it binds the back
    buffer for drawing and the primary store for reading, selects the
    read and draw buffers and blits. *)
Lemma BlitOntoScreen_counterexample :
  fst (Bind accepting (target 1 [colorTexture 0])) = Ok tt /\
  framebufferMS_ (self direct_target) = 0 /\
  fst (BlitOntoScreen 0 direct_target) = Ok tt /\
  calls (snd (BlitOntoScreen 0 direct_target)) =
    calls direct_target ++
    [BindFramebuffer DRAW_FRAMEBUFFER 0; BindFramebuffer READ_FRAMEBUFFER 1;
     ReadBuffer GL_COLOR_ATTACHMENT0; DrawBuffer GL_BACK;
     Blit 640 480 GL_COLOR_BUFFER_BIT; BindFramebuffer READ_FRAMEBUFFER 0].
Proof. repeat split; vm_compute; reflexivity. Qed.

(** *** The buffer of internal formats *)

(** C9 fails on the code.  Thirty-two colour textures and one depth
    texture pass [CountColorAttachments] (32 attachments of type Color),
    and [AttachAllTextures] then stores the format of the 33rd texture at
    index 32 of the 32-element array [internalFormats]. *)
Theorem internalFormats_overflow :
  fst (CountColorAttachments
         (attachments (target 1 (map colorTexture (seq 0 32) ++ [depthTexture])))
         direct_target) = Ok 32%nat /\
  fst (Bind accepting (target 1 (map colorTexture (seq 0 32) ++ [depthTexture])))
    = Fail (OutOfBounds 32).
Proof. split; vm_compute; reflexivity. Qed.

(** *** What a successful bind leaves *)

Lemma same_target_refl o : same_target o o.
Proof. repeat split. Qed.

Lemma same_target_trans o1 o2 o3 :
  same_target o1 o2 -> same_target o2 o3 -> same_target o1 o3.
Proof. unfold same_target. intuition congruence. Qed.

Section Shape.
Context (platform : Platform).

Lemma AttachTexture_spec tex a fmts i (s : State) :
  match AttachTexture platform tex a fmts i s with
  | (Ok fmts', s') =>
      (i < length fmts)%nat /\
      fmts' = <[i := Some (to_uint32 (texInternalFormat tex))]> fmts /\
      colorAttachments_ (self s') =
        colorAttachments_ (self s) ++
        (if depth_format (to_uint32 (texInternalFormat tex)) then []
         else [next_slot (length (colorAttachments_ (self s)))]) /\
      blitMask_ (self s') =
        Z.lor (blitMask_ (self s)) (format_bits (to_uint32 (texInternalFormat tex))) /\
      same_target (self s) (self s') /\
      renderbuffer_ (self s') = renderbuffer_ (self s) /\
      renderbuffersMS_ (self s') = renderbuffersMS_ (self s) /\
      nextName s' = nextName s
  | (Fail e, _) => (i < length fmts)%nat -> thrown e = true
  end.
Proof.
  unfold AttachTexture, ValidateMipResolution, GetTexInternalFormat,
    MakeFramebufferAttachment.
  autounfold with gl_run. run.
  destruct (ValidateMipResolution_ok _ _ _ _); run; [|reflexivity].
  destruct (decide (i < length fmts)%nat) as [Hi|Hi]; run; [|intros; lia].
  unfold depth_format, format_bits.
  destruct (to_uint32 (texInternalFormat tex) =? GL_DEPTH_COMPONENT) eqn:Ed; run;
    [|destruct (to_uint32 (texInternalFormat tex) =? GL_DEPTH_STENCIL) eqn:Eds; run].
  1, 2: destruct (HasDepthStencilAttachment (self s)) eqn:Hds; run; [reflexivity|].
  all: destruct (texType tex); run; unfold modify; simpl;
    rewrite ?app_nil_r; repeat split; reflexivity || assumption.
Qed.

Lemma AttachAllTextures_from_spec l : forall fmts i (s : State),
  match AttachAllTextures_from platform l fmts i s with
  | (Ok fmts', s') =>
      (length (List.filter has_texture l) = 0
       \/ i + length (List.filter has_texture l) <= length fmts)%nat /\
      length fmts' = length fmts /\
      (forall j, (j < i)%nat -> fmts' !! j = fmts !! j) /\
      (forall j, (i <= j < i + length (List.filter has_texture l))%nat ->
                 exists v, fmts' !! j = Some (Some v)) /\
      colorAttachments_ (self s') =
        colorAttachments_ (self s) ++
        map next_slot (seq (length (colorAttachments_ (self s)))
                           (length (List.filter color_texture l))) /\
      blitMask_ (self s') = mask_after texture_bits l (blitMask_ (self s)) /\
      same_target (self s) (self s') /\
      renderbuffer_ (self s') = renderbuffer_ (self s) /\
      renderbuffersMS_ (self s') = renderbuffersMS_ (self s) /\
      nextName s' = nextName s
  | (Fail e, _) =>
      (i + length (List.filter has_texture l) <= length fmts)%nat -> thrown e = true
  end.
Proof.
  induction l as [|a l IH]; intros fmts i s.
  - simpl. rewrite app_nil_r. repeat split; auto; intros; lia.
  - cbn [AttachAllTextures_from List.filter mask_after fold_left].
    assert (Hht : has_texture a = if texture a is Some _ then true else false)
      by reflexivity.
    assert (Hct : color_texture a =
                  match texture a with
                  | Some tex => negb (depth_format (to_uint32 (texInternalFormat tex)))
                  | None => false
                  end) by reflexivity.
    assert (Htb : texture_bits a =
                  match texture a with
                  | Some tex => format_bits (to_uint32 (texInternalFormat tex))
                  | None => 0
                  end) by reflexivity.
    rewrite Hht, Hct, Htb. clear Hht Hct Htb.
    destruct (texture a) as [tex|].
    2: { rewrite Z.lor_0_r. apply IH. }
    rewrite run_bind. pose proof (AttachTexture_spec tex a fmts i s) as Ha.
    destruct (AttachTexture platform tex a fmts i s) as [[fmts1|e] s1].
    2: { cbn [length]. intros H. apply Ha. lia. }
    destruct Ha as (Hi & -> & Hca & Hbm & Hsame & Hrb & Hrbs & Hnext).
    specialize (IH (<[i := Some (to_uint32 (texInternalFormat tex))]> fmts) (S i) s1).
    destruct (AttachAllTextures_from platform l _ (S i) s1) as [[fmts'|e] s'].
    2: { cbn [length]. intros H. apply IH. rewrite length_insert. lia. }
    destruct IH as (Hroom & Hlen & Hold & Hnew & Hca' & Hbm' & Hsame' & Hrb' & Hrbs' & Hnext').
    rewrite length_insert in Hroom, Hlen. cbn [length].
    split; [right; lia|]. split; [exact Hlen|].
    split.
    { intros j Hj. rewrite Hold by lia. apply list_lookup_insert_ne. lia. }
    split.
    { intros j Hj. destruct (decide (j = i)) as [->|Hne].
      - rewrite Hold by lia. eexists. apply list_lookup_insert_eq. lia.
      - apply Hnew. lia. }
    split.
    { rewrite Hca', Hca. destruct (depth_format _); cbn [negb length].
      - rewrite app_nil_r. reflexivity.
      - rewrite length_app, <- app_assoc. cbn [length seq map app].
        replace (length (colorAttachments_ (self s)) + 1)%nat
          with (S (length (colorAttachments_ (self s)))) by lia.
        reflexivity. }
    split; [rewrite Hbm', Hbm; reflexivity|].
    split; [eapply same_target_trans; eassumption|].
    repeat split; congruence.
Qed.

Lemma AttachAllDepthStencilBuffers_spec l : forall s : State,
  match AttachAllDepthStencilBuffers l s with
  | (Ok _, s') =>
      colorAttachments_ (self s') = colorAttachments_ (self s) /\
      blitMask_ (self s') = mask_after renderbuffer_bits l (blitMask_ (self s)) /\
      same_target (self s) (self s') /\
      renderbuffersMS_ (self s') = renderbuffersMS_ (self s) /\
      nextName s <= nextName s'
  | (Fail e, _) => thrown e = true
  end.
Proof.
  unfold AttachAllDepthStencilBuffers.
  induction l as [|a l IH]; intros s.
  - simpl. repeat split; auto using same_target_refl. lia.
  - rewrite for_each_cons, run_bind. cbv beta.
    cbn [mask_after fold_left].
    assert (Hrb : renderbuffer_bits a =
                  match texture a with
                  | Some _ => 0
                  | None => buffer_bits (type a)
                  end) by reflexivity.
    rewrite Hrb. clear Hrb.
    destruct (texture a) as [tex|].
    { rewrite run_ret, Z.lor_0_r. apply IH. }
    unfold AttachDepthBuffer, AttachStencilBuffer, AttachDepthStencilBuffer,
      CreateAndAttachRenderbuffer, InitRenderbufferStorage.
    autounfold with gl_run.
    destruct (type a); run; [reflexivity|..];
      (destruct (Valid (renderbuffer_ (self s))); run; [reflexivity|]);
      match goal with |- context [for_each l _ ?st] =>
        specialize (IH st); destruct (for_each l _ st) as [[[]|e] s'] end;
      try exact IH;
      destruct IH as (Hca & Hbm & Hsame & Hrbs & Hnext);
      simpl in *; repeat split; try tauto; try lia; destruct Hsame; tauto.
Qed.

Lemma CreateRenderbuffersMS_loop_spec fmts (ps : list (nat * Z)) : forall s : State,
  match for_each ps (fun '(i, attachment) =>
                       internalFormat ← array_load fmts i;
                       CreateRenderbufferMS attachment internalFormat) s with
  | (Ok _, s') =>
      colorAttachments_ (self s') = colorAttachments_ (self s) /\
      blitMask_ (self s') = blitMask_ (self s) /\
      same_target (self s) (self s') /\
      length (renderbuffersMS_ (self s'))
        = (length (renderbuffersMS_ (self s)) + length ps)%nat
  | (Fail e, _) =>
      Forall (fun p => exists v, fmts !! p.1 = Some (Some v)) ps -> thrown e = true
  end.
Proof.
  induction ps as [|[i att] ps IH]; intros s.
  - simpl. repeat split; auto; lia.
  - rewrite for_each_cons, run_bind. cbv beta iota.
    unfold array_load at 1.
    destruct (fmts !! i) as [[v|]|] eqn:Ev.
    2, 3: rewrite run_bind; simpl; intros [[v Hv] _]%Forall_cons;
          simpl in Hv; congruence.
    rewrite run_bind, run_ret, CreateRenderbufferMS_run.
    match goal with |- context [for_each ps _ ?st] =>
      specialize (IH st); destruct (for_each ps _ st) as [[[]|e] s'] end.
    + destruct IH as (Hca & Hbm & Hsame & Hlen). simpl in *.
      repeat split; try tauto; try (destruct Hsame; tauto).
      rewrite Hlen, length_app. simpl. lia.
    + intros [_ Hps]%Forall_cons. auto.
Qed.

Lemma ValidateFramebufferStatus_spec info (s : State) :
  match ValidateFramebufferStatus platform info s with
  | (Ok _, s') => self s' = self s /\ nextName s' = nextName s
  | (Fail e, _) => thrown e = true
  end.
Proof.
  unfold ValidateFramebufferStatus. autounfold with gl_run. run.
  destruct (_ =? _); simpl; auto.
Qed.

Lemma SetDrawBuffers_spec (s : State) :
  exists s', SetDrawBuffers s = (Ok tt, s') /\ self s' = self s /\ nextName s' = nextName s.
Proof.
  destruct (SetDrawBuffers_run s) as [c ->]. eexists. repeat split.
Qed.

Lemma CreateRenderbuffersMS_spec fmts (s : State) :
  match CreateRenderbuffersMS platform fmts s with
  | (Ok _, s') =>
      colorAttachments_ (self s') = colorAttachments_ (self s) /\
      blitMask_ (self s') = blitMask_ (self s) /\
      same_target (self s) (self s') /\
      length (renderbuffersMS_ (self s'))
        = (length (renderbuffersMS_ (self s)) + length (colorAttachments_ (self s)))%nat
  | (Fail e, _) =>
      initialised fmts (length (colorAttachments_ (self s))) -> thrown e = true
  end.
Proof.
  unfold CreateRenderbuffersMS, member. run.
  pose proof (CreateRenderbuffersMS_loop_spec fmts
                (imap (fun i attachment => (i, attachment)) (colorAttachments_ (self s))) s)
    as Hloop.
  assert (Hinit : initialised fmts (length (colorAttachments_ (self s))) ->
            Forall (fun p : nat * Z => exists v, fmts !! p.1 = Some (Some v))
              (imap (fun i attachment => (i, attachment)) (colorAttachments_ (self s)))).
  { intros Hinit. apply Forall_forall. intros [i att] Hin. simpl.
    apply list_elem_of_lookup in Hin as [j Hj].
    rewrite list_lookup_imap in Hj.
    destruct (colorAttachments_ (self s) !! j) as [x|] eqn:Ex; [|discriminate].
    simpl in Hj. injection Hj as <- <-.
    apply Hinit. eapply lookup_lt_Some, Ex. }
  destruct (for_each _ _ s) as [[[]|e] s1]; [|tauto].
  destruct Hloop as (Hca & Hbm & Hsame & Hlen). rewrite length_imap in Hlen.
  destruct (SetDrawBuffers_spec s1) as (s2 & Ed & Hs2 & _).
  rewrite run_bind, Ed.
  pose proof (ValidateFramebufferStatus_spec
    "color attachments to multi-sample framebuffer object (FBO) failed" s2) as Hv.
  destruct (ValidateFramebufferStatus _ _ s2) as [[[]|e] s3]; [|auto].
  destruct Hv as [Hs3 _]. rewrite Hs3, Hs2. auto.
Qed.

Lemma mask_after_lor bits l : forall m,
  mask_after bits l m = Z.lor m (mask_after bits l 0).
Proof.
  unfold mask_after. induction l as [|a l IH]; intros m; cbn [fold_left].
  - rewrite Z.lor_0_r. reflexivity.
  - rewrite (IH (Z.lor m (bits a))), (IH (Z.lor 0 (bits a))), Z.lor_0_l, Z.lor_assoc.
    reflexivity.
Qed.

Lemma Bind_spec (desc : RenderTargetDescriptor) :
  match Bind platform desc with
  | (Ok _, st) =>
      (length (List.filter has_texture (attachments desc))
         <= g_maxFramebufferAttachments)%nat /\
      colorAttachments_ (self st) =
        map next_slot (seq 0 (length (List.filter color_texture (attachments desc)))) /\
      blitMask_ (self st) = expected_mask (attachments desc) /\
      framebuffer_ (self st) = 1 /\
      framebufferMS_ (self st) =
        (if has_secondary_store desc && negb (bool_decide (attachments desc = []))
         then 2 else 0) /\
      resolution_ (self st) = resolution desc /\
      length (renderbuffersMS_ (self st)) =
        (if has_secondary_store desc
         then length (List.filter color_texture (attachments desc)) else 0)%nat
  | (Fail e, _) =>
      (length (List.filter has_texture (attachments desc))
         <= g_maxFramebufferAttachments)%nat -> thrown e = true
  end.
Proof.
  unfold Bind, construct. run.
  destruct (attachments desc) as [|a0 l0] eqn:Eatt.
  { unfold CreateFramebufferWithNoAttachments. autounfold with gl_run. run.
    rewrite andb_false_r.
    destruct (ARB_framebuffer_no_attachments platform); run;
      match goal with |- context [ValidateFramebufferStatus platform ?i ?st] =>
        pose proof (ValidateFramebufferStatus_spec i st) as Hv;
        destruct (ValidateFramebufferStatus platform i st) as [[[]|e] s'] end;
      auto; destruct Hv as [-> _]; simpl;
      destruct (has_secondary_store desc); repeat split; lia. }
  rewrite <- Eatt. assert (Hne : attachments desc <> []) by congruence.
  clear a0 l0 Eatt.
  rewrite bool_decide_eq_false_2 by exact Hne. rewrite andb_true_r.
  unfold CreateFramebufferWithAttachments, AttachAllTextures, member. run.
  unfold has_secondary_store, HasMultiSampling. simpl.
  destruct ((1 <? to_int32 (sampleCount desc)) && negb (customMultiSampling desc));
    run; rewrite CountColorAttachments_run;
    (destruct (_ <? _)%nat; run; [reflexivity|]).
  - (* secondary store *)
    match goal with |- context [AttachAllTextures_from platform ?l ?f 0%nat ?st] =>
      pose proof (AttachAllTextures_from_spec l f 0%nat st) as Ht;
      destruct (AttachAllTextures_from platform l f 0%nat st) as [[fmts|e] s1] end;
      [|exact Ht].
    destruct Ht as (Hroom & Hlen & _ & Hinit & Hca & Hbm & Hsame & Hrb & Hrbs & Hnext).
    simpl in Hca, Hbm, Hsame, Hrb, Hrbs, Hnext, Hlen, Hroom.
    rewrite run_bind.
    match goal with |- context [ValidateFramebufferStatus platform ?i ?st] =>
      pose proof (ValidateFramebufferStatus_spec i st) as Hv;
      destruct (ValidateFramebufferStatus platform i st) as [[[]|e] s2] end;
      [|auto].
    destruct Hv as [Hs2 Hn2]. run.
    match goal with |- context [AttachAllDepthStencilBuffers ?l ?st] =>
      pose proof (AttachAllDepthStencilBuffers_spec l st) as Hd;
      destruct (AttachAllDepthStencilBuffers l st) as [[[]|e] s3] end;
      [|auto].
    destruct Hd as (Hca3 & Hbm3 & Hsame3 & Hrbs3 & Hn3). simpl in *.
    pose proof (CreateRenderbuffersMS_spec fmts s3) as Hc.
    destruct (CreateRenderbuffersMS platform fmts s3) as [[[]|e] s4].
    + destruct Hc as (Hca4 & Hbm4 & Hsame4 & Hlen4).
      rewrite Hca4, Hbm4, Hlen4, Hca3, Hbm3, Hrbs3, Hs2, Hca, Hbm, Hrbs.
      destruct Hsame as (R1 & M1 & F1 & G1), Hsame3 as (R3 & M3 & F3 & G3),
        Hsame4 as (R4 & M4 & F4 & G4).
      rewrite Hs2 in R3, F3, G3.
      rewrite R4, F4, G4, R3, F3, G3, R1, F1, G1. simpl.
      rewrite length_map, length_seq.
      split; [unfold g_maxFramebufferAttachments; lia|].
      repeat split.
      unfold expected_mask. rewrite (mask_after_lor renderbuffer_bits). reflexivity.
    + intros Hle. apply Hc. rewrite Hca3, Hs2, Hca. simpl.
      rewrite length_map, length_seq. intros j Hj. apply Hinit.
      assert (length (List.filter color_texture (attachments desc))
              <= length (List.filter has_texture (attachments desc)))%nat; [|lia].
      clear. induction (attachments desc) as [|a l IH]; simpl; [lia|].
      unfold color_texture at 1, has_texture at 1.
      destruct (texture a); [destruct (negb _)|]; simpl; lia.
  - (* direct *)
    match goal with |- context [AttachAllDepthStencilBuffers ?l ?st] =>
      pose proof (AttachAllDepthStencilBuffers_spec l st) as Hd;
      destruct (AttachAllDepthStencilBuffers l st) as [[[]|e] s1] end;
      [|auto].
    destruct Hd as (Hca1 & Hbm1 & Hsame1 & Hrbs1 & Hn1). simpl in *.
    rewrite run_bind.
    match goal with |- context [AttachAllTextures_from platform ?l ?f 0%nat ?st] =>
      pose proof (AttachAllTextures_from_spec l f 0%nat st) as Ht;
      destruct (AttachAllTextures_from platform l f 0%nat st) as [[fmts|e] s2] end;
      [|exact Ht].
    destruct Ht as (Hroom & Hlen & _ & Hinit & Hca & Hbm & Hsame & Hrb & Hrbs & Hnext).
    simpl in Hroom.
    destruct (SetDrawBuffers_spec s2) as (s3 & Ed & Hs3 & _).
    rewrite run_bind, Ed. run.
    match goal with |- context [ValidateFramebufferStatus platform ?i ?st] =>
      pose proof (ValidateFramebufferStatus_spec i st) as Hv;
      destruct (ValidateFramebufferStatus platform i st) as [[[]|e] s4] end;
      [|auto].
    destruct Hv as [Hs4 _]. run.
    rewrite Hs4, Hs3, Hca, Hbm, Hrbs, Hca1, Hbm1, Hrbs1.
    destruct Hsame as (R & M & F & G), Hsame1 as (R1 & M1 & F1 & G1).
    rewrite R, F, G, R1, F1, G1. simpl.
    split; [unfold g_maxFramebufferAttachments; lia|].
    repeat split.
    unfold expected_mask. rewrite (mask_after_lor texture_bits), Z.lor_comm. reflexivity.
Qed.

End Shape.

Lemma has_bit_lor m1 m2 b : has_bit (Z.lor m1 m2) b = has_bit m1 b || has_bit m2 b.
Proof.
  unfold has_bit. rewrite Z.land_lor_distr_l, <- negb_andb. f_equal.
  apply eq_true_iff_eq. rewrite andb_true_iff, !Z.eqb_eq. apply Z.lor_eq_0_iff.
Qed.

Lemma has_bit_mask_after bits l b : forall m,
  has_bit (mask_after bits l m) b = has_bit m b || existsb (fun a => has_bit (bits a) b) l.
Proof.
  unfold mask_after. induction l as [|a l IH]; intros m; cbn [fold_left existsb].
  - rewrite orb_false_r. reflexivity.
  - rewrite IH, has_bit_lor, orb_assoc. reflexivity.
Qed.

Lemma existsb_orb {A} (f g : A -> bool) l :
  existsb f l || existsb g l = existsb (fun a => f a || g a) l.
Proof.
  induction l as [|a l IH]; simpl; [reflexivity|].
  rewrite <- IH. destruct (f a), (g a), (existsb f l), (existsb g l); reflexivity.
Qed.

Lemma has_bit_expected_mask l b :
  has_bit (expected_mask l) b
  = existsb (fun a => has_bit (texture_bits a) b || has_bit (renderbuffer_bits a) b) l.
Proof.
  unfold expected_mask. rewrite has_bit_lor, !has_bit_mask_after.
  change (has_bit 0 b) with false. simpl. apply existsb_orb.
Qed.

Lemma existsb_ext' {A} (f g : A -> bool) l :
  (forall a, f a = g a) -> existsb f l = existsb g l.
Proof. intros H. induction l as [|a l IH]; simpl; congruence. Qed.

Lemma depth_bit_of_attachment a :
  has_bit (texture_bits a) GL_DEPTH_BUFFER_BIT
  || has_bit (renderbuffer_bits a) GL_DEPTH_BUFFER_BIT = has_depth a.
Proof.
  unfold texture_bits, renderbuffer_bits, has_depth, format_bits, depth_format.
  destruct (texture a) as [tex|].
  - destruct (_ =? GL_DEPTH_COMPONENT); [reflexivity|].
    destruct (_ =? GL_DEPTH_STENCIL); reflexivity.
  - destruct (type a); reflexivity.
Qed.

Lemma stencil_bit_of_attachment a :
  has_bit (texture_bits a) GL_STENCIL_BUFFER_BIT
  || has_bit (renderbuffer_bits a) GL_STENCIL_BUFFER_BIT = has_stencil a.
Proof.
  unfold texture_bits, renderbuffer_bits, has_stencil, format_bits.
  destruct (texture a) as [tex|].
  - destruct (_ =? GL_DEPTH_COMPONENT) eqn:Ed.
    + apply Z.eqb_eq in Ed. rewrite Ed. reflexivity.
    + destruct (_ =? GL_DEPTH_STENCIL); reflexivity.
  - destruct (type a); reflexivity.
Qed.

Lemma color_textures_le_textures l :
  (length (List.filter color_texture l) <= length (List.filter has_texture l))%nat.
Proof.
  induction l as [|a l IH]; simpl; [lia|].
  unfold color_texture at 1, has_texture at 1.
  destruct (texture a); [destruct (negb _)|]; simpl; lia.
Qed.

Lemma next_slot_small (k : nat) :
  Z.of_nat k < 2 ^ 31 -> next_slot k = GL_COLOR_ATTACHMENT0 + Z.of_nat k.
Proof.
  intros Hk. unfold next_slot, to_uint32, GL_COLOR_ATTACHMENT0.
  rewrite (Z.mod_small (Z.of_nat k)) by lia. apply Z.mod_small. lia.
Qed.

(** X1. A descriptor with at most 32 attachments that carry a texture
    never makes the constructor leave its array of internal formats:
    binding either succeeds or ends in one of the exceptions the code
    throws, on every platform and on both the direct and the
    multi-sample path. *)
Theorem Bind_stays_in_bounds (platform : Platform) (desc : RenderTargetDescriptor) :
  (length (List.filter has_texture (attachments desc)) <= g_maxFramebufferAttachments)%nat ->
  fst (Bind platform desc) = Ok tt \/
  exists exception, fst (Bind platform desc) = Fail (Throw exception).
Proof.
  intros Hle. pose proof (Bind_spec platform desc) as H.
  destruct (Bind platform desc) as [[[]|e] st]; simpl; [left; reflexivity|].
  right. specialize (H Hle). destruct e; try discriminate H. eauto.
Qed.

Lemma Bind_stays_in_bounds_witness :
  fst (Bind accepting (target 4 (map colorTexture (seq 0 31) ++ [depthTexture]))) = Ok tt \/
  exists exception,
    fst (Bind accepting (target 4 (map colorTexture (seq 0 31) ++ [depthTexture])))
    = Fail (Throw exception).
Proof.
  apply (Bind_stays_in_bounds accepting
           (target 4 (map colorTexture (seq 0 31) ++ [depthTexture]))).
  vm_compute. lia.
Defined.


Lemma Bind_ok_slots (platform : Platform) (desc : RenderTargetDescriptor)
    (st : State) :
  Bind platform desc = (Ok tt, st) ->
  let n := length (List.filter color_texture (attachments desc)) in
  (n <= g_maxFramebufferAttachments)%nat /\
  colorAttachments_ (self st)
    = map (fun k : nat => GL_COLOR_ATTACHMENT0 + Z.of_nat k) (seq 0 n) /\
  GetNumColorAttachments (self st) = Z.of_nat n /\
  length (renderbuffersMS_ (self st)) = (if has_secondary_store desc then n else 0)%nat.
Proof.
  intros E n. pose proof (Bind_spec platform desc) as H. rewrite E in H.
  destruct H as (Hle & Hca & _ & _ & _ & _ & Hrbs).
  pose proof (color_textures_le_textures (attachments desc)) as Hn. fold n in Hn, Hca, Hrbs.
  unfold g_maxFramebufferAttachments in *.
  split; [lia|]. split; [|split; [|exact Hrbs]].
  - rewrite Hca. apply map_ext_in. intros k Hk%in_seq. apply next_slot_small. lia.
  - unfold GetNumColorAttachments. rewrite Hca, length_map, length_seq.
    unfold to_uint32. apply Z.mod_small. lia.
Qed.

(** X3. After a successful bind [HasDepthAttachment] holds exactly
    when some attachment is a Depth or DepthStencil renderbuffer or a
    texture of depth or depth-stencil format, and [HasStencilAttachment]
    exactly when some attachment is a Stencil or DepthStencil
    renderbuffer or a texture of depth-stencil format. *)
Theorem Bind_depth_stencil_flags (platform : Platform) (desc : RenderTargetDescriptor)
    (st : State) :
  Bind platform desc = (Ok tt, st) ->
  HasDepthAttachment (self st) = existsb has_depth (attachments desc) /\
  HasStencilAttachment (self st) = existsb has_stencil (attachments desc).
Proof.
  intros E. pose proof (Bind_spec platform desc) as H. rewrite E in H.
  destruct H as (_ & _ & Hbm & _).
  unfold HasDepthAttachment, HasStencilAttachment. rewrite Hbm.
  split.
  - change (negb (Z.land ?m GL_DEPTH_BUFFER_BIT =? 0)) with (has_bit m GL_DEPTH_BUFFER_BIT).
    rewrite has_bit_expected_mask. apply existsb_ext', depth_bit_of_attachment.
  - change (negb (Z.land ?m GL_STENCIL_BUFFER_BIT =? 0))
      with (has_bit m GL_STENCIL_BUFFER_BIT).
    rewrite has_bit_expected_mask. apply existsb_ext', stencil_bit_of_attachment.
Qed.

Lemma Bind_depth_stencil_flags_witness :
  HasDepthAttachment (self multisampled_target) = true /\
  HasStencilAttachment (self multisampled_target) = true.
Proof.
  pose proof (Bind_depth_stencil_flags accepting multisampled multisampled_target) as H.
  vm_compute in H. vm_compute. apply H. reflexivity.
Defined.


(** X4. Without a secondary store, a descriptor that passes the
    colour count and whose first attachment without a texture is of type
    Color is refused with the invalid-argument exception before anything
    is attached: the framebuffer has been generated and bound, nothing
    else. *)
Theorem color_attachment_without_texture (platform : Platform)
    (desc : RenderTargetDescriptor) (a : AttachmentDescriptor)
    (rest : list AttachmentDescriptor) :
  (numColor (attachments desc) <= g_maxFramebufferAttachments)%nat ->
  has_secondary_store desc = false ->
  without_texture (attachments desc) = a :: rest ->
  type a = Color ->
  Bind platform desc =
  (Fail (Throw ColorAttachmentWithoutTexture),
   {| self := set_framebuffer_ 1 (initial desc);
      calls := [GenFramebuffer 1; BindFramebuffer FRAMEBUFFER 1];
      nextName := 2 |}).
Proof.
  intros Hn Hms Hbuf Ha.
  assert (Ht : texture a = None).
  { assert (Hin : a ∈ without_texture (attachments desc))
      by (rewrite Hbuf; apply list_elem_of_here).
    apply list_elem_of_filter in Hin as [Hin _]. exact Hin. }
  unfold Bind, construct. run.
  destruct (attachments desc) as [|a0 l0] eqn:Eatt; [discriminate Hbuf|].
  rewrite <- Eatt in *. clear a0 l0 Eatt.
  unfold CreateFramebufferWithAttachments, member. run.
  unfold has_secondary_store, HasMultiSampling in Hms. simpl in Hms.
  unfold HasMultiSampling. simpl. rewrite Hms. run.
  rewrite CountColorAttachments_run.
  apply Nat.ltb_ge in Hn. rewrite Hn. run.
  rewrite AttachAllDepthStencilBuffers_without_texture, Hbuf.
  unfold AttachAllDepthStencilBuffers. simpl. rewrite Ht, Ha. reflexivity.
Qed.

Lemma color_attachment_without_texture_witness :
  Bind accepting (target 1 [colorTexture 0; buffer Color]) =
  (Fail (Throw ColorAttachmentWithoutTexture),
   {| self := set_framebuffer_ 1 (initial (target 1 [colorTexture 0; buffer Color]));
      calls := [GenFramebuffer 1; BindFramebuffer FRAMEBUFFER 1];
      nextName := 2 |}).
Proof.
  apply (color_attachment_without_texture accepting
           (target 1 [colorTexture 0; buffer Color]) (buffer Color) []).
  - vm_compute. lia.
  - reflexivity.
  - reflexivity.
  - reflexivity.
Defined.


Lemma BlitOntoFramebuffer_loop (o : GLRenderTarget) (slots : list Z) : forall s : State,
  self s = o ->
  for_each slots (fun attachment =>
    emit (ReadBuffer attachment) ;; emit (DrawBuffer attachment) ;; BlitFramebuffer) s
  = (Ok tt,
     {| self := o;
        calls := calls s ++
                 flat_map (fun attachment =>
                   [ReadBuffer attachment; DrawBuffer attachment;
                    Blit (to_int32 (resolution_ o).1) (to_int32 (resolution_ o).2)
                         (blitMask_ o)]) slots;
        nextName := nextName s |}).
Proof.
  induction slots as [|x slots IH]; intros s Hs.
  - simpl. unfold ret. rewrite app_nil_r. destruct s; simpl in *. subst. reflexivity.
  - rewrite for_each_cons, run_bind. unfold BlitFramebuffer at 1.
    autounfold with gl_run. run. rewrite IH by exact Hs. simpl.
    rewrite Hs, <- !app_assoc. reflexivity.
Qed.

(** The blits [BlitOntoFramebuffer] makes for a target with a secondary
    store: one per colour slot. *)
Lemma BlitOntoFramebuffer_run (s : State) :
  framebufferMS_ (self s) <> 0 ->
  BlitOntoFramebuffer s =
  (Ok tt,
   match colorAttachments_ (self s) with
   | [] => s
   | slots =>
       {| self := self s;
          calls := calls s ++
            [BindFramebuffer DRAW_FRAMEBUFFER (framebuffer_ (self s));
             BindFramebuffer READ_FRAMEBUFFER (framebufferMS_ (self s))] ++
            flat_map (fun attachment =>
              [ReadBuffer attachment; DrawBuffer attachment;
               Blit (to_int32 (resolution_ (self s)).1)
                    (to_int32 (resolution_ (self s)).2) (blitMask_ (self s))]) slots ++
            [UnbindFramebuffer READ_FRAMEBUFFER (framebufferMS_ (self s));
             UnbindFramebuffer DRAW_FRAMEBUFFER (framebuffer_ (self s))];
          nextName := nextName s |}
   end).
Proof.
  intros Hms. apply Z.eqb_neq in Hms.
  unfold BlitOntoFramebuffer, member. run. unfold Valid. rewrite Hms. simpl.
  destruct (colorAttachments_ (self s)) as [|x slots] eqn:Eca.
  - rewrite bool_decide_eq_true_2 by reflexivity. reflexivity.
  - rewrite bool_decide_eq_false_2 by discriminate. cbn [negb when].
    autounfold with gl_run. run.
    erewrite BlitOntoFramebuffer_loop by reflexivity. run. unfold modify. simpl.
    rewrite <- !app_assoc. reflexivity.
Qed.

Lemma flat_map_of_map {A B C} (f : B -> list C) (g : A -> B) (l : list A) :
  flat_map f (map g l) = flat_map (fun x => f (g x)) l.
Proof. induction l as [|x l IH]; simpl; congruence. Qed.

(** X5. On a render target bound with a secondary store,
    [BlitOntoFramebuffer] binds the primary framebuffer (1) for drawing
    and the multi-sample one (2) for reading, blits once per colour slot
    in slot order over the whole resolution with the full blit mask, and
    unbinds both; a target without colour slot (depth only, or no
    attachment at all) is not resolved: no call is made. *)
Theorem resolve_after_Bind (platform : Platform) (desc : RenderTargetDescriptor)
    (st : State) :
  Bind platform desc = (Ok tt, st) ->
  has_secondary_store desc = true ->
  BlitOntoFramebuffer st =
  (Ok tt,
   match length (List.filter color_texture (attachments desc)) with
   | O => st
   | n =>
       {| self := self st;
          calls := calls st ++
            [BindFramebuffer DRAW_FRAMEBUFFER 1; BindFramebuffer READ_FRAMEBUFFER 2] ++
            flat_map (fun k : nat =>
              [ReadBuffer (GL_COLOR_ATTACHMENT0 + Z.of_nat k);
               DrawBuffer (GL_COLOR_ATTACHMENT0 + Z.of_nat k);
               Blit (to_int32 (resolution desc).1) (to_int32 (resolution desc).2)
                    (blitMask_ (self st))]) (seq 0 n) ++
            [UnbindFramebuffer READ_FRAMEBUFFER 2;
             UnbindFramebuffer DRAW_FRAMEBUFFER 1];
          nextName := nextName st |}
   end).
Proof.
  intros E Hms.
  destruct (Bind_ok_slots platform desc st E) as (_ & Hca & _).
  pose proof (Bind_spec platform desc) as H. rewrite E in H.
  destruct H as (_ & _ & _ & Hfb & Hfbms & Hres & _).
  rewrite Hms in Hfbms.
  destruct (length (List.filter color_texture (attachments desc))) as [|n] eqn:En.
  - unfold BlitOntoFramebuffer, member. run. rewrite Hca. simpl.
    rewrite andb_false_r. reflexivity.
  - assert (Hne : attachments desc <> []) by (intros Hnil; rewrite Hnil in En; discriminate).
    rewrite bool_decide_eq_false_2 in Hfbms by exact Hne. simpl in Hfbms.
    rewrite BlitOntoFramebuffer_run by (rewrite Hfbms; discriminate).
    rewrite Hca, Hfb, Hfbms, Hres. cbn [seq map flat_map].
    rewrite flat_map_of_map. reflexivity.
Qed.

Lemma resolve_after_Bind_witness :
  BlitOntoFramebuffer multisampled_target =
  (Ok tt,
   {| self := self multisampled_target;
      calls := calls multisampled_target ++
        [BindFramebuffer DRAW_FRAMEBUFFER 1; BindFramebuffer READ_FRAMEBUFFER 2;
         ReadBuffer GL_COLOR_ATTACHMENT0; DrawBuffer GL_COLOR_ATTACHMENT0;
         Blit 640 480 (blitMask_ (self multisampled_target));
         ReadBuffer (GL_COLOR_ATTACHMENT0 + 1); DrawBuffer (GL_COLOR_ATTACHMENT0 + 1);
         Blit 640 480 (blitMask_ (self multisampled_target));
         UnbindFramebuffer READ_FRAMEBUFFER 2; UnbindFramebuffer DRAW_FRAMEBUFFER 1];
      nextName := nextName multisampled_target |}).
Proof.
  pose proof (resolve_after_Bind accepting multisampled multisampled_target) as H.
  vm_compute in H. vm_compute. apply H; reflexivity.
Defined.





(** X6. On a successfully bound render target [BlitOntoScreen] of a
    colour slot copies that slot to the back buffer, reading from the
    multi-sample framebuffer when there is a secondary store and from
    the primary one otherwise, and leaves the read framebuffer unbound;
    for an index that is no colour slot it does nothing. *)
Theorem present_after_Bind (platform : Platform) (desc : RenderTargetDescriptor)
    (st : State) (colorAttachmentIndex : nat) :
  Bind platform desc = (Ok tt, st) ->
  BlitOntoScreen colorAttachmentIndex st =
  (Ok tt,
   if decide (colorAttachmentIndex
              < length (List.filter color_texture (attachments desc)))%nat
   then
     {| self := self st;
        calls := calls st ++
          [BindFramebuffer DRAW_FRAMEBUFFER 0;
           BindFramebuffer READ_FRAMEBUFFER (if has_secondary_store desc then 2 else 1);
           ReadBuffer (GL_COLOR_ATTACHMENT0 + Z.of_nat colorAttachmentIndex);
           DrawBuffer GL_BACK;
           Blit (to_int32 (resolution desc).1) (to_int32 (resolution desc).2)
                (blitMask_ (self st));
           BindFramebuffer READ_FRAMEBUFFER 0];
        nextName := nextName st |}
   else st).
Proof.
  intros E.
  destruct (Bind_ok_slots platform desc st E) as (_ & Hca & _).
  pose proof (Bind_spec platform desc) as H. rewrite E in H.
  destruct H as (_ & _ & _ & Hfb & Hfbms & Hres & _).
  unfold BlitOntoScreen, BlitFramebuffer, member. run.
  rewrite Hca, length_map, length_seq.
  destruct (decide _) as [Hlt|Hge].
  - rewrite bool_decide_eq_true_2 by exact Hlt. cbn [when].
    autounfold with gl_run. run.
    rewrite list_lookup_fmap, lookup_seq_lt by exact Hlt. run.
    unfold modify, GetFramebuffer, Valid. rewrite Hfbms, Hfb, Hres.
    assert (Hne : attachments desc <> [])
      by (intros Hnil; rewrite Hnil in Hlt; simpl in Hlt; lia).
    rewrite bool_decide_eq_false_2 by exact Hne. rewrite andb_true_r.
    destruct (has_secondary_store desc); simpl; rewrite <- !app_assoc; reflexivity.
  - rewrite bool_decide_eq_false_2 by exact Hge. reflexivity.
Qed.

Lemma present_after_Bind_witness :
  BlitOntoScreen 1 multisampled_target =
  (Ok tt,
   {| self := self multisampled_target;
      calls := calls multisampled_target ++
        [BindFramebuffer DRAW_FRAMEBUFFER 0; BindFramebuffer READ_FRAMEBUFFER 2;
         ReadBuffer (GL_COLOR_ATTACHMENT0 + 1); DrawBuffer GL_BACK;
         Blit 640 480 (blitMask_ (self multisampled_target));
         BindFramebuffer READ_FRAMEBUFFER 0];
      nextName := nextName multisampled_target |}).
Proof.
  pose proof (present_after_Bind accepting multisampled multisampled_target 1) as H.
  vm_compute in H. vm_compute. apply H. reflexivity.
Defined.


End GLRenderTargetSpec.

(** ** VKCommandBuffer *)

Module VKCommandBufferSpec.
Import ExecFacts VK.

Create HintDb vk_run discriminated.

#[local] Hint Unfold emit genHandle set_fence update update_session member
  array_store array_load at_ result_of_last_call VKThrowIfFailed : vk_run.

#[local] Arguments to_uint32 : simpl never.

(** *** Viewports *)

(** C1 fails on the code.  For 20 viewports [SetViewports] issues one
    native call, for the first 16; after it the loop compares the index
    16 with the 4 viewports that remain and stops, so the viewports 16
    to 19 are never set. *)
Theorem SetViewports_drops_second_batch (s : State) (viewports : list Viewport) :
  length viewports = 20%nat ->
  SetViewports 20 viewports s =
  (Ok tt,
   {| self := self s;
      calls := calls s ++
               [vkCmdSetViewport (commandBuffer_ (self s)) 0 16
                                 (map Convert (take 16 viewports))];
      fences := fences s; nextHandle := nextHandle s |}).
Proof.
  intros Hlen.
  do 21 (destruct viewports as [|? viewports]; try discriminate Hlen).
  vm_compute. reflexivity.
Qed.

Lemma SetViewports_drops_second_batch_witness :
  SetViewports 20 (map viewport (seq 0 20)) (presenting 2 0) =
  (Ok tt,
   {| self := self (presenting 2 0);
      calls := calls (presenting 2 0) ++
               [vkCmdSetViewport (commandBuffer_ (self (presenting 2 0))) 0 16
                                 (map Convert (take 16 (map viewport (seq 0 20))))];
      fences := fences (presenting 2 0); nextHandle := nextHandle (presenting 2 0) |}).
Proof.
  apply (SetViewports_drops_second_batch (presenting 2 0) (map viewport (seq 0 20))).
  reflexivity.
Defined.

(** What the loop does for every length follows; the case above is the
    first of the lengths it gets wrong. *)

Lemma array_prefix_initialised {A} (xs : list A) (s : State) :
  forall pre rest : list (option A),
    array_prefix (pre ++ (Some <$> xs) ++ rest) (length pre) (length xs) s = (Ok xs, s).
Proof.
  induction xs as [|x xs IH]; intros pre rest; [reflexivity|].
  cbn [array_prefix length fmap list_fmap]. unfold array_load.
  rewrite lookup_app_r by lia. rewrite Nat.sub_diag. simpl.
  specialize (IH (pre ++ [Some x]) rest).
  rewrite length_app, Nat.add_1_r, <- app_assoc in IH. simpl in IH.
  run. rewrite IH. reflexivity.
Qed.

(** The inner loop, [k] elements into a batch of [count]: it converts the
    rest of the batch into the front of the buffer and leaves [i] just
    past the batch. *)
Lemma SetViewports_convert_run (viewports : list Viewport) (first count : Z)
    (buf0 : list (option VkViewport)) (s : State) :
  0 <= first -> 0 <= count ->
  first + count <= Z.of_nat (length viewports) ->
  first + count < 2 ^ 32 ->
  (Z.to_nat count <= length buf0)%nat ->
  forall (fuel k : nat),
    (k <= Z.to_nat count)%nat ->
    (Z.to_nat count - k <= fuel)%nat ->
    SetViewports_convert fuel viewports first count (first + Z.of_nat k)
      (((Some ∘ Convert) <$> take k (drop (Z.to_nat first) viewports)) ++ drop k buf0) s
    = (Ok (first + count,
           ((Some ∘ Convert) <$> take (Z.to_nat count) (drop (Z.to_nat first) viewports))
           ++ drop (Z.to_nat count) buf0), s).
Proof.
  intros Hfirst Hcount Hlen Hsmall Hbuf.
  induction fuel as [|fuel IH]; intros k Hk Hfuel.
  - assert (k = Z.to_nat count) as -> by lia.
    simpl. unfold to_uint32. rewrite Z.mod_small by lia.
    rewrite Z2Nat.id by lia. rewrite Z.ltb_irrefl. reflexivity.
  - cbn [SetViewports_convert]. unfold to_uint32 at 1. rewrite Z.mod_small by lia.
    destruct (decide (k = Z.to_nat count)) as [->|Hne].
    + rewrite Z2Nat.id by lia. rewrite Z.ltb_irrefl. reflexivity.
    + assert (Hlt : (first + Z.of_nat k <? first + count) = true) by (apply Z.ltb_lt; lia).
      rewrite Hlt. unfold at_.
      destruct (viewports !! Z.to_nat (first + Z.of_nat k)) as [src|] eqn:Esrc.
      2: { apply lookup_ge_None in Esrc. lia. }
      run. unfold array_store.
      replace (to_uint32 (first + Z.of_nat k - first)) with (Z.of_nat k)
        by (unfold to_uint32; rewrite Z.mod_small by lia; lia).
      rewrite Nat2Z.id.
      destruct (decide _) as [_|Hge].
      2: { exfalso. apply Hge. rewrite length_app, length_fmap, length_take, length_drop,
             length_drop. lia. }
      run.
      specialize (IH (S k)).
      replace (to_uint32 (first + Z.of_nat k + 1)) with (first + Z.of_nat (S k))
        by (unfold to_uint32; rewrite Z.mod_small by lia; lia).
      rewrite <- IH by lia. f_equal.
      assert (Hk' : length ((Some ∘ Convert) <$> take k (drop (Z.to_nat first) viewports)) = k)
        by (rewrite length_fmap, length_take, length_drop; lia).
      assert (Hsrc : drop (Z.to_nat first) viewports !! k = Some src).
      { rewrite lookup_drop, <- Esrc. f_equal. lia. }
      destruct (buf0 !! k) as [old|] eqn:Eold.
      2: { apply lookup_ge_None in Eold. lia. }
      rewrite insert_app_r_alt by lia. rewrite Hk', Nat.sub_diag.
      rewrite (drop_S _ _ _ Eold), (take_S_r _ _ _ Hsrc), fmap_app, <- app_assoc.
      reflexivity.
Qed.

Lemma SetViewports_loop_run (viewports : list Viewport) :
  Z.of_nat (length viewports) < 2 ^ 32 ->
  forall (fuel : nat) (i numViewports : Z) (buf : list (option VkViewport)) (s : State),
    0 <= i -> 0 <= numViewports ->
    i + numViewports = Z.of_nat (length viewports) ->
    length buf = Z.to_nat g_maxNumViewportsPerBatch ->
    (Z.to_nat numViewports <= fuel)%nat ->
    SetViewports_loop fuel viewports i numViewports buf s =
    (Ok tt,
     {| self := self s;
        calls := calls s ++
                 (batch_call (commandBuffer_ (self s)) viewports <$> batches fuel i numViewports);
        fences := fences s; nextHandle := nextHandle s |}).
Proof.
  intros Hsmall. induction fuel as [|fuel IH]; intros i n buf s Hi Hn Hsum Hbuf Hfuel.
  - assert (n = 0) as -> by lia. simpl.
    rewrite (proj2 (Z.ltb_ge i 0)) by lia. simpl. rewrite app_nil_r.
    destruct s; reflexivity.
  - cbn [SetViewports_loop batches].
    destruct (i <? n) eqn:Elt.
    2: { simpl. rewrite app_nil_r. destruct s; reflexivity. }
    apply Z.ltb_lt in Elt.
    set (count := Z.min n g_maxNumViewportsPerBatch).
    assert (Hcount : 1 <= count <= 16) by (unfold count, g_maxNumViewportsPerBatch; lia).
    assert (Hcn : count <= n) by (unfold count; lia).
    pose proof (SetViewports_convert_run viewports i count buf s) as Hinner.
    specialize (Hinner ltac:(lia) ltac:(lia) ltac:(lia) ltac:(lia)).
    specialize (Hinner ltac:(rewrite Hbuf; unfold g_maxNumViewportsPerBatch; lia)).
    specialize (Hinner (Z.to_nat count) 0%nat ltac:(lia) ltac:(lia)).
    simpl in Hinner. rewrite Z.add_0_r, drop_0 in Hinner.
    rewrite run_bind, Hinner. cbv beta iota. unfold member. run.
    rewrite list_fmap_compose.
    pose proof (array_prefix_initialised
                  (Convert <$> take (Z.to_nat count) (drop (Z.to_nat i) viewports))
                  s [] (drop (Z.to_nat count) buf)) as Hprefix.
    simpl in Hprefix. rewrite length_fmap, length_take, length_drop in Hprefix.
    replace (Z.to_nat count `min` (length viewports - Z.to_nat i))%nat
      with (Z.to_nat count) in Hprefix by lia.
    rewrite Hprefix. run. unfold emit. run.
    replace (to_uint32 (n - count)) with (n - count)
      by (unfold to_uint32; rewrite Z.mod_small; lia).
    replace (to_uint32 (i + count)) with (i + count)
      by (unfold to_uint32; rewrite Z.mod_small; lia).
    rewrite IH; [| lia | lia | lia | | lia].
    + simpl. rewrite <- app_assoc. reflexivity.
    + rewrite length_app, length_fmap, length_fmap, length_take, !length_drop, Hbuf.
      unfold g_maxNumViewportsPerBatch. lia.
Qed.

(** Once the index has reached a full batch, the loop stops short of the
    viewports that remain. *)
Lemma batches_stop_short : forall (fuel : nat) (i numViewports : Z),
  g_maxNumViewportsPerBatch <= i -> 0 < numViewports -> i + numViewports < 2 ^ 32 ->
  covered (batches fuel i numViewports) < numViewports.
Proof.
  unfold g_maxNumViewportsPerBatch.
  induction fuel as [|fuel IH]; intros i n Hi Hn Hsmall; simpl.
  - destruct (i <? n); simpl; lia.
  - destruct (i <? n) eqn:Elt; [|simpl; lia].
    apply Z.ltb_lt in Elt. unfold g_maxNumViewportsPerBatch.
    rewrite Z.min_r by lia. simpl.
    unfold to_uint32. rewrite !Z.mod_small by lia.
    specialize (IH (i + 16) (n - 16)). lia.
Qed.

(** What [SetViewports] does on any array: one native call per batch of
    [batches], each with the converted viewports of its range. *)
Lemma SetViewports_run (s : State) (viewports : list Viewport) :
  Z.of_nat (length viewports) < 2 ^ 32 ->
  SetViewports (Z.of_nat (length viewports)) viewports s =
  (Ok tt,
   {| self := self s;
      calls := calls s ++
               (batch_call (commandBuffer_ (self s)) viewports
                  <$> batches (length viewports) 0 (Z.of_nat (length viewports)));
      fences := fences s; nextHandle := nextHandle s |}).
Proof.
  intros Hsmall. unfold SetViewports. rewrite Nat2Z.id.
  apply SetViewports_loop_run; try lia.
  apply length_replicate.
Qed.

(** Up to the batch limit the one call covers the whole array. *)
Lemma SetViewports_single_batch (s : State) (viewports : list Viewport) :
  (1 <= length viewports <= 16)%nat ->
  SetViewports (Z.of_nat (length viewports)) viewports s =
  (Ok tt,
   {| self := self s;
      calls := calls s ++
               [vkCmdSetViewport (commandBuffer_ (self s)) 0 (Z.of_nat (length viewports))
                                 (Convert <$> viewports)];
      fences := fences s; nextHandle := nextHandle s |}).
Proof.
  intros Hlen. rewrite SetViewports_run by lia.
  destruct (length viewports) as [|n] eqn:En; [lia|].
  cbn [batches]. rewrite (proj2 (Z.ltb_lt 0 _)) by lia.
  unfold g_maxNumViewportsPerBatch. rewrite Z.min_l by lia.
  rewrite Z.sub_diag. unfold to_uint32 at 2. rewrite Z.mod_0_l by lia.
  assert (Hstop : forall fuel i, 0 <= i -> batches fuel i 0 = []).
  { intros fuel i Hi. destruct fuel; simpl; rewrite (proj2 (Z.ltb_ge i 0)) by lia;
      reflexivity. }
  rewrite Hstop by (unfold to_uint32; apply Z.mod_pos_bound; lia).
  simpl. unfold batch_call. simpl.
  rewrite Nat2Z.id. change (Z.to_nat 0) with 0%nat. rewrite drop_0.
  rewrite take_ge by lia. reflexivity.
Qed.

(** Above the batch limit some viewports are never set: the batches
    [SetViewports] issues cover fewer viewports than it was given. *)
Lemma SetViewports_stops_short (s : State) (viewports : list Viewport) :
  g_maxNumViewportsPerBatch < Z.of_nat (length viewports) < 2 ^ 32 ->
  exists bs,
    SetViewports (Z.of_nat (length viewports)) viewports s =
    (Ok tt,
     {| self := self s;
        calls := calls s ++ (batch_call (commandBuffer_ (self s)) viewports <$> bs);
        fences := fences s; nextHandle := nextHandle s |}) /\
    covered bs < Z.of_nat (length viewports).
Proof.
  unfold g_maxNumViewportsPerBatch. intros Hn.
  eexists. split; [apply SetViewports_run; lia|].
  destruct (length viewports) as [|n] eqn:En; [lia|].
  cbn [batches]. rewrite (proj2 (Z.ltb_lt 0 _)) by lia.
  unfold g_maxNumViewportsPerBatch. rewrite Z.min_r by lia.
  unfold to_uint32. rewrite !Z.mod_small by lia.
  cbn [covered foldr snd].
  pose proof (batches_stop_short n (0 + 16) (Z.of_nat (S n) - 16)) as H.
  unfold g_maxNumViewportsPerBatch, covered in H. lia.
Qed.

(** *** Clear *)

Lemma Clear_three_colors_and_depth (s : State) :
  numColorAttachments_ (session (self s)) = 3 ->
  hasDSVAttachment_ (session (self s)) = true ->
  Clear ClearFlags.ColorDepth s =
  (Ok tt,
   {| self := self s;
      calls := calls s ++
        [vkCmdClearAttachments (commandBuffer_ (self s)) 4
           [ {| aspectMask := VK_IMAGE_ASPECT_COLOR_BIT; colorAttachment := 0;
                clearValue := color (clearColor_ (session (self s))) |};
             {| aspectMask := VK_IMAGE_ASPECT_COLOR_BIT; colorAttachment := 1;
                clearValue := color (clearColor_ (session (self s))) |};
             {| aspectMask := VK_IMAGE_ASPECT_COLOR_BIT; colorAttachment := 2;
                clearValue := color (clearColor_ (session (self s))) |};
             {| aspectMask := VK_IMAGE_ASPECT_DEPTH_BIT; colorAttachment := 0;
                clearValue := depthStencil (clearDepthStencil_ (session (self s))) |} ]
           1
           [ {| rect_offset := (0, 0);
                rect_extent := framebufferExtent_ (session (self s));
                baseArrayLayer := 0; layerCount := 1 |} ]];
      fences := fences s; nextHandle := nextHandle s |}).
Proof.
  intros Hn Hds. unfold Clear, member. run. rewrite Hn, Hds.
  vm_compute. reflexivity.
Qed.

Lemma SetRenderTarget_session (driver : Driver) (renderTargetVK : VKRenderTarget)
    (s s' : State) :
  SetRenderTarget driver renderTargetVK s = (Ok tt, s') ->
  numColorAttachments_ (session (self s')) = GetNumColorAttachments renderTargetVK /\
  hasDSVAttachment_ (session (self s')) =
    HasDepthAttachment renderTargetVK || HasStencilAttachment renderTargetVK /\
  (GetVkRenderPass renderTargetVK <> VK_NULL_HANDLE ->
   renderPass_ (session (self s')) = GetVkRenderPass renderTargetVK /\
   framebufferExtent_ (session (self s')) = GetVkExtent renderTargetVK).
Proof.
  unfold SetRenderTarget. intros H.
  apply bind_ok_inv in H as (active & s1 & _ & H).
  apply bind_ok_inv in H as ([] & s2 & _ & H).
  apply bind_ok_inv in H as ([] & s3 & Hpass & H).
  unfold update_session, update, modify in H. injection H as <-. simpl.
  split; [reflexivity|]. split; [reflexivity|].
  intros Hrp. apply Z.eqb_neq in Hrp.
  unfold SetRenderPass, member, EndRenderPass, BeginRenderPass in Hpass.
  autounfold with vk_run in Hpass. rewrite Hrp in Hpass. revert Hpass. run.
  destruct (renderPass_ (session (self s2)) =? VK_NULL_HANDLE); run;
    unfold modify; intros [= <-]; split; reflexivity.
Qed.

(** C5. Once a render target with three colour attachments and a depth
    attachment is the active target, [Clear(Color | Depth)] records one
    vkCmdClearAttachments with four entries: colour attachments 0, 1 and
    2 with the cached clear colour, then one entry whose aspect is the
    depth bit alone with the cached depth-stencil value; its one
    rectangle is the whole extent of the render pass, base layer 0, one
    layer. *)
Theorem Clear_color_depth (driver : Driver) (renderTargetVK : VKRenderTarget)
    (s s' : State) :
  SetRenderTarget driver renderTargetVK s = (Ok tt, s') ->
  GetVkRenderPass renderTargetVK <> VK_NULL_HANDLE ->
  GetNumColorAttachments renderTargetVK = 3 ->
  HasDepthAttachment renderTargetVK = true ->
  Clear (Z.lor ClearFlags.Color ClearFlags.Depth) s' =
  (Ok tt,
   {| self := self s';
      calls := calls s' ++
        [vkCmdClearAttachments (commandBuffer_ (self s')) 4
           [ {| aspectMask := VK_IMAGE_ASPECT_COLOR_BIT; colorAttachment := 0;
                clearValue := color (clearColor_ (session (self s'))) |};
             {| aspectMask := VK_IMAGE_ASPECT_COLOR_BIT; colorAttachment := 1;
                clearValue := color (clearColor_ (session (self s'))) |};
             {| aspectMask := VK_IMAGE_ASPECT_COLOR_BIT; colorAttachment := 2;
                clearValue := color (clearColor_ (session (self s'))) |};
             {| aspectMask := VK_IMAGE_ASPECT_DEPTH_BIT; colorAttachment := 0;
                clearValue := depthStencil (clearDepthStencil_ (session (self s'))) |} ]
           1
           [ {| rect_offset := (0, 0);
                rect_extent := GetVkExtent renderTargetVK;
                baseArrayLayer := 0; layerCount := 1 |} ]];
      fences := fences s'; nextHandle := nextHandle s' |}).
Proof.
  intros Hrun Hrp Hcolors Hdepth.
  apply SetRenderTarget_session in Hrun as (Hn & Hds & Hext).
  destruct (Hext Hrp) as [_ <-].
  apply Clear_three_colors_and_depth.
  - congruence.
  - rewrite Hds, Hdepth. reflexivity.
Qed.

Lemma Clear_color_depth_witness :
  Clear (Z.lor ClearFlags.Color ClearFlags.Depth)
        (snd (SetRenderTarget succeeding three_colors_and_depth (presenting 2 1))) =
  (Ok tt,
   {| self := self (snd (SetRenderTarget succeeding three_colors_and_depth (presenting 2 1)));
      calls := calls (snd (SetRenderTarget succeeding three_colors_and_depth (presenting 2 1))) ++
        [vkCmdClearAttachments 3 4
           [ {| aspectMask := 1; colorAttachment := 0;
                clearValue := color {| float32 := (0, 0, 0, 0) |} |};
             {| aspectMask := 1; colorAttachment := 1;
                clearValue := color {| float32 := (0, 0, 0, 0) |} |};
             {| aspectMask := 1; colorAttachment := 2;
                clearValue := color {| float32 := (0, 0, 0, 0) |} |};
             {| aspectMask := 2; colorAttachment := 0;
                clearValue := depthStencil {| depth := 0x3F800000; stencil := 0 |} |} ]
           1
           [ {| rect_offset := (0, 0); rect_extent := (800, 600);
                baseArrayLayer := 0; layerCount := 1 |} ]];
      fences := fences (snd (SetRenderTarget succeeding three_colors_and_depth (presenting 2 1)));
      nextHandle :=
        nextHandle (snd (SetRenderTarget succeeding three_colors_and_depth (presenting 2 1))) |}).
Proof.
  apply (Clear_color_depth succeeding three_colors_and_depth (presenting 2 1)
           (snd (SetRenderTarget succeeding three_colors_and_depth (presenting 2 1)))).
  - vm_compute. reflexivity.
  - discriminate.
  - reflexivity.
  - reflexivity.
Defined.

(** *** Recording *)

Lemma IsCommandBufferActive_inv (s s' : State) (active : bool) :
  IsCommandBufferActive s = (Ok active, s') ->
  commandBufferActiveList_ (self s) !! commandBufferActiveIt_ (self s) = Some active.
Proof.
  unfold IsCommandBufferActive, member. run.
  destruct (_ !! _) as [b|]; [|discriminate]. rewrite run_ret. congruence.
Qed.

(** C6 (as amended). On an idle recorder [EndCommandBuffer] makes the
    native call all the same.  It fails exactly when the driver reports a
    failure for that call, with the driver's result; otherwise it returns
    normally and the slot stays idle.  No other state changes. *)
Theorem EndCommandBuffer_idle (driver : Driver) (s : State) :
  IsCommandBufferActive s = (Ok false, s) ->
  EndCommandBuffer driver s =
  (if vkResult driver (calls s ++ [vkEndCommandBuffer (commandBuffer_ (self s))])
      =? VK_SUCCESS
   then Ok tt
   else Fail (Throw (vkResult driver
                       (calls s ++ [vkEndCommandBuffer (commandBuffer_ (self s))]))
                    "failed to end Vulkan command buffer"),
   {| self := self s;
      calls := calls s ++ [vkEndCommandBuffer (commandBuffer_ (self s))];
      fences := fences s; nextHandle := nextHandle s |}).
Proof.
  intros Hidle. apply IsCommandBufferActive_inv in Hidle.
  unfold EndCommandBuffer, store_active. autounfold with vk_run. run.
  destruct (_ =? VK_SUCCESS); run; [|reflexivity].
  destruct (decide _) as [_|Hge];
    [|exfalso; apply Hge; eapply lookup_lt_Some, Hidle].
  unfold modify. simpl. rewrite (list_insert_id _ _ _ Hidle).
  destruct s as [[] ? ? ?]. reflexivity.
Qed.

Lemma EndCommandBuffer_idle_witness :
  EndCommandBuffer succeeding (presenting 2 0) =
  (if vkResult succeeding
        (calls (presenting 2 0) ++ [vkEndCommandBuffer (commandBuffer_ (self (presenting 2 0)))])
      =? VK_SUCCESS
   then Ok tt
   else Fail (Throw (vkResult succeeding
                       (calls (presenting 2 0) ++
                        [vkEndCommandBuffer (commandBuffer_ (self (presenting 2 0)))]))
                    "failed to end Vulkan command buffer"),
   {| self := self (presenting 2 0);
      calls := calls (presenting 2 0) ++
               [vkEndCommandBuffer (commandBuffer_ (self (presenting 2 0)))];
      fences := fences (presenting 2 0); nextHandle := nextHandle (presenting 2 0) |}).
Proof.
  apply (EndCommandBuffer_idle succeeding (presenting 2 0)).
  vm_compute. reflexivity.
Defined.

(** C6 as stated does not hold: slot 0 of a recorder that has not begun
    recording is idle, and [EndCommandBuffer] on it calls
    vkEndCommandBuffer and returns normally. *)
Lemma EndCommandBuffer_idle_counterexample :
  fst (IsCommandBufferActive (presenting 2 0)) = Ok false /\
  fst (EndCommandBuffer succeeding (presenting 2 0)) = Ok tt /\
  calls (snd (EndCommandBuffer succeeding (presenting 2 0))) =
    calls (presenting 2 0) ++ [vkEndCommandBuffer 2].
Proof. repeat split; vm_compute; reflexivity. Qed.

(** *** Construction *)

Lemma length_handles_from h n : length (handles_from h n) = n.
Proof. revert h. induction n; intros h; simpl; auto. Qed.

Lemma elem_of_handles_from f h n :
  f ∈ handles_from h n <-> h <= f < h + Z.of_nat n.
Proof.
  revert h. induction n as [|n IH]; intros h; simpl.
  - rewrite elem_of_nil. lia.
  - rewrite elem_of_cons, IH. lia.
Qed.


Lemma lookup_handles_from h n (i : nat) :
  (i < n)%nat -> handles_from h n !! i = Some (h + Z.of_nat i).
Proof.
  revert h i. induction n as [|n IH]; intros h i Hi; [lia|].
  destruct i as [|i]; simpl.
  - f_equal. lia.
  - rewrite IH by lia. f_equal. lia.
Qed.

Lemma genHandles_run (count : nat) (s : State) :
  genHandles count s =
  (Ok (handles_from (nextHandle s) count),
   {| self := self s; calls := calls s; fences := fences s;
      nextHandle := nextHandle s + Z.of_nat count |}).
Proof.
  revert s. induction count as [|n IH]; intros s.
  - simpl. rewrite run_ret. destruct s. simpl. rewrite Z.add_0_r. reflexivity.
  - cbn [genHandles]. unfold genHandle at 1. run. rewrite IH. run.
    do 2 f_equal. lia.
Qed.

Section Succeeding.
Context (driver : Driver).
Hypothesis success : forall trace, vkResult driver trace = VK_SUCCESS.

Lemma CreateRecordingFence_run (graphicsQueue : Z) (i : nat) (s : State) :
  CreateRecordingFence driver graphicsQueue i s =
  (Ok tt, fences_created graphicsQueue i 1 s).
Proof.
  unfold CreateRecordingFence, native_vkCreateFence, native_vkQueueSubmit_empty.
  autounfold with vk_run. run. rewrite !success. run.
  rewrite lookup_insert_eq. run. rewrite success. run.
  rewrite insert_insert_eq, <- app_assoc. reflexivity.
Qed.

Lemma CreateRecordingFences_loop (graphicsQueue : Z) (count : nat) : forall (i : nat) (s : State),
  for_range i count (fun i (_ : unit) => CreateRecordingFence driver graphicsQueue i) tt s =
  (Ok tt, fences_created graphicsQueue i count s).
Proof.
  induction count as [|n IH]; intros i s.
  - reflexivity.
  - cbn [for_range]. rewrite run_bind, CreateRecordingFence_run. apply IH.
Qed.
End Succeeding.

Lemma fences_created_frame (graphicsQueue : Z) (count : nat) :
  forall (i : nat) (s : State) (fence : Z),
    fence < nextHandle s ->
    fences (fences_created graphicsQueue i count s) !! fence = fences s !! fence.
Proof.
  induction count as [|n IH]; intros i s fence Hlt; [reflexivity|].
  simpl. rewrite IH by (simpl; lia). simpl.
  apply lookup_insert_ne. lia.
Qed.

Lemma fences_created_spec (graphicsQueue : Z) (count : nat) : forall (i : nat) (s : State),
  (i + count <= length (recordingFenceList_ (self s)))%nat ->
  let s' := fences_created graphicsQueue i count s in
  self s' = set_recordingFenceList_
              (take i (recordingFenceList_ (self s)) ++ handles_from (nextHandle s) count
               ++ drop (i + count) (recordingFenceList_ (self s))) (self s) /\
  calls s' = calls s ++ flat_map (fun fence => [vkCreateFence 0 fence;
                                               vkQueueSubmit graphicsQueue 0 fence])
                                 (handles_from (nextHandle s) count) /\
  (forall fence, fence ∈ handles_from (nextHandle s) count -> fences s' !! fence = Some true) /\
  nextHandle s' = nextHandle s + Z.of_nat count.
Proof.
  induction count as [|n IH]; intros i s Hlen; simpl.
  - rewrite Nat.add_0_r, take_drop, app_nil_r, Z.add_0_r.
    repeat split; [destruct s as [[] ? ? ?]; reflexivity|].
    intros fence Hf. apply elem_of_nil in Hf as [].
  - match goal with |- context [fences_created _ _ _ ?st] => set (s1 := st) end.
    destruct (IH (S i) s1) as (Hself & Hcalls & Hfences & Hnext).
    { subst s1. simpl. rewrite length_insert. lia. }
    rewrite Hself, Hcalls, Hnext. subst s1. simpl in *. repeat split.
    + unfold set_recordingFenceList_. simpl. f_equal.
      rewrite (take_S_r _ _ (nextHandle s)) by (apply list_lookup_insert_eq; lia).
      rewrite take_insert_ge by lia.
      rewrite (drop_insert_lt _ (S (i + n)) i) by lia.
      rewrite <- app_assoc. simpl. replace (i + S n)%nat with (S (i + n)) by lia.
      reflexivity.
    + rewrite <- app_assoc. reflexivity.
    + intros fence [->|Hf]%elem_of_cons; [|apply Hfences, Hf].
      rewrite fences_created_frame by (simpl; lia). simpl.
      apply lookup_insert_eq.
    + lia.
Qed.

Lemma resize_nil {A} (n : nat) (value : A) : resize n value [] = replicate n value.
Proof. unfold resize. rewrite take_nil. simpl. rewrite Nat.sub_0_r. reflexivity. Qed.

Section Construction.
Context (driver : Driver).
Hypothesis success : forall trace, vkResult driver trace = VK_SUCCESS.

Lemma New_run (defaults : Session) (graphicsQueue : Z) (bufferCount : nat) (graphicsFamily : Z) :
  (1 <= bufferCount)%nat ->
  Z.of_nat bufferCount < 2 ^ 32 ->
  exists st,
    New driver defaults graphicsQueue bufferCount graphicsFamily = (Ok tt, st) /\
    self st =
      {| commandPool_ := 1;
         commandBufferList_ := handles_from 2 bufferCount;
         commandBuffer_ := 2;
         commandBufferActiveList_ := replicate bufferCount false;
         commandBufferActiveIt_ := bufferCount;
         recordingFenceList_ := handles_from (2 + Z.of_nat bufferCount) bufferCount;
         recordingFence_ := 2 + Z.of_nat bufferCount;
         session := defaults |} /\
    calls st =
      [vkCreateCommandPool VK_COMMAND_POOL_CREATE_RESET_COMMAND_BUFFER_BIT graphicsFamily 1;
       vkAllocateCommandBuffers 1 (Z.of_nat bufferCount) (handles_from 2 bufferCount)]
      ++ flat_map (fun fence => [vkCreateFence 0 fence; vkQueueSubmit graphicsQueue 0 fence])
                  (handles_from (2 + Z.of_nat bufferCount) bufferCount) /\
    (forall fence, fence ∈ handles_from (2 + Z.of_nat bufferCount) bufferCount ->
                   fences st !! fence = Some true).
Proof.
  intros Hpos Hsmall.
  unfold New, construct, CreateCommandPool, CreateCommandBuffers, CreateRecordingFences.
  autounfold with vk_run. run. rewrite !success. run.
  rewrite genHandles_run. run. rewrite !success. run.
  assert (Hcount : Z.to_nat (to_uint32 (Z.of_nat bufferCount)) = bufferCount).
  { unfold to_uint32. rewrite Z.mod_small by lia. apply Nat2Z.id. }
  rewrite !Hcount.
  assert (Hcount' : to_uint32 (Z.of_nat bufferCount) = Z.of_nat bufferCount).
  { unfold to_uint32. apply Z.mod_small. lia. }
  rewrite !Hcount'.
  rewrite !resize_nil, length_handles_from, drop_replicate, Nat.sub_diag, app_nil_r.
  simpl. change (1 + 1) with 2.
  rewrite (lookup_handles_from 2 bufferCount 0) by lia. run.
  rewrite !resize_nil, length_replicate.
  rewrite CreateRecordingFences_loop by exact success.
  match goal with |- context [fences_created _ _ _ ?st] => set (s0 := st) end.
  destruct (fences_created_spec graphicsQueue bufferCount 0 s0)
    as (Hself & Hcalls & Hfences & Hnext).
  { subst s0. simpl. rewrite length_replicate. lia. }
  subst s0. simpl in Hself, Hcalls, Hfences, Hnext.
  rewrite drop_replicate, Nat.sub_diag, app_nil_r in Hself.
  match goal with |- context [fences_created ?q ?i ?n ?st] =>
    generalize dependent (fences_created q i n st) end.
  intros sF Hself Hcalls Hfences Hnext.
  unfold gets, modify. run. rewrite Hself. simpl.
  rewrite (lookup_handles_from _ bufferCount 0) by lia. run.
  eexists. split; [reflexivity|]. simpl.
  rewrite Hself, Hcalls, !Z.add_0_r. auto.
Qed.
End Construction.



(** C10 fails on the code.  The constructor leaves the iterator into the
    activity list at end(): on the recorder it returns, before any
    [SetPresentIndex], [IsCommandBufferActive] dereferences that
    iterator, and so does [SetRenderTarget] on its first line. *)
Theorem fresh_recorder_reads_past_the_end (driver : Driver) (defaults : Session)
    (graphicsQueue : Z) (bufferCount : nat) (graphicsFamily : Z) :
  (forall trace, vkResult driver trace = VK_SUCCESS) ->
  (1 <= bufferCount)%nat ->
  Z.of_nat bufferCount < 2 ^ 32 ->
  exists st,
    New driver defaults graphicsQueue bufferCount graphicsFamily = (Ok tt, st) /\
    length (commandBufferActiveList_ (self st)) = bufferCount /\
    IsCommandBufferActive st = (Fail (PastTheEnd bufferCount), st) /\
    forall renderTargetVK,
      SetRenderTarget driver renderTargetVK st = (Fail (PastTheEnd bufferCount), st).
Proof.
  intros success Hpos Hsmall.
  destruct (New_run driver success defaults graphicsQueue bufferCount graphicsFamily
              Hpos Hsmall) as (st & Hrun & Hself & _).
  exists st. split; [exact Hrun|].
  assert (Hend : commandBufferActiveList_ (self st) !! commandBufferActiveIt_ (self st)
                 = None).
  { rewrite Hself. simpl. apply lookup_replicate_None. lia. }
  assert (Hit : commandBufferActiveIt_ (self st) = bufferCount)
    by (rewrite Hself; reflexivity).
  assert (Hactive : IsCommandBufferActive st = (Fail (PastTheEnd bufferCount), st)).
  { unfold IsCommandBufferActive, member, gets. run. rewrite Hend, Hit. reflexivity. }
  split; [rewrite Hself; apply length_replicate|].
  split; [exact Hactive|].
  intros renderTargetVK. unfold SetRenderTarget.
  apply bind_fail, Hactive.
Qed.

Lemma fresh_recorder_reads_past_the_end_witness :
  exists st,
    New succeeding defaults 1000 2 0 = (Ok tt, st) /\
    length (commandBufferActiveList_ (self st)) = 2%nat /\
    IsCommandBufferActive st = (Fail (PastTheEnd 2), st) /\
    forall renderTargetVK,
      SetRenderTarget succeeding renderTargetVK st = (Fail (PastTheEnd 2), st).
Proof.
  apply (fresh_recorder_reads_past_the_end succeeding defaults 1000 2 0).
  - reflexivity.
  - lia.
  - reflexivity.
Defined.

(** *** The remaining functions of the recorder *)

#[local] Arguments replicate : simpl never.

Lemma ClearFramebufferAttachments_run (entries : list VkClearAttachment)
    (rest : list (option VkClearAttachment)) (s : State) :
  ClearFramebufferAttachments (Z.of_nat (length entries)) ((Some <$> entries) ++ rest) s =
  (Ok tt, {| self := self s; calls := calls s ++ clear_call (self s) entries;
             fences := fences s; nextHandle := nextHandle s |}).
Proof.
  unfold ClearFramebufferAttachments, clear_call.
  destruct entries as [|e entries].
  - simpl. rewrite app_nil_r. destruct s; reflexivity.
  - rewrite (proj2 (Z.ltb_lt 0 _)) by (simpl; lia). cbn [when].
    unfold member. run. rewrite Nat2Z.id.
    pose proof (array_prefix_initialised (e :: entries) s [] rest) as Hp.
    simpl in Hp. simpl. rewrite Hp. run. reflexivity.
Qed.

Lemma array_store_ok {A} (buf : list (option A)) (i : nat) (v : A) (s : State) :
  (i < length buf)%nat -> array_store buf i v s = (Ok (<[i := Some v]> buf), s).
Proof.
  intros Hi. unfold array_store. destruct (decide _); [reflexivity | lia].
Qed.

Lemma store_after_entries {A} (entries : list A) (k : nat) (e : A) (s : State) :
  array_store ((Some <$> entries) ++ replicate (S k) None) (length entries) e s =
  (Ok ((Some <$> (entries ++ [e])) ++ replicate k None), s).
Proof.
  rewrite array_store_ok by (rewrite length_app, length_fmap, length_replicate; lia).
  rewrite insert_app_r_alt by (rewrite length_fmap; lia).
  rewrite length_fmap, Nat.sub_diag, fmap_app, <- app_assoc. reflexivity.
Qed.

Lemma fill_color_clears (f : nat -> VkClearAttachment) (s : State) :
  forall (count first : nat) (buf : list (option VkClearAttachment)),
    (first + count <= length buf)%nat ->
    for_range first count (fun i attachments => array_store attachments i (f i)) buf s =
    (Ok (take first buf ++ (Some ∘ f <$> seq first count) ++ drop (first + count) buf), s).
Proof.
  induction count as [|count IH]; intros first buf Hlen.
  - simpl. rewrite Nat.add_0_r, take_drop. reflexivity.
  - cbn [for_range]. rewrite run_bind, array_store_ok by lia.
    rewrite IH by (rewrite length_insert; lia).
    do 2 f_equal.
    rewrite (take_S_r _ _ (Some (f first))) by (apply list_lookup_insert_eq; lia).
    rewrite take_insert_ge by lia.
    rewrite drop_insert_lt by lia.
    cbn [seq fmap list_fmap]. rewrite <- app_assoc. simpl.
    replace (first + S count)%nat with (S first + count)%nat by lia. reflexivity.
Qed.

Lemma Clear_run (flags : Z) (s : State) :
  0 <= numColorAttachments_ (session (self s)) ->
  Clear flags s =
  (Ok tt, {| self := self s;
             calls := calls s ++ clear_call (self s) (Clear_entries flags (session (self s)));
             fences := fences s; nextHandle := nextHandle s |}).
Proof.
  intros Hn. unfold Clear.
  set (buf := replicate (Z.to_nat g_maxNumAttachments) None).
  assert (Hbuf : buf = replicate 33 (@None VkClearAttachment)) by reflexivity.
  clearbody buf. unfold member. run.
  set (ss := session (self s)) in *.
  set (n := Z.min (numColorAttachments_ ss) g_maxNumColorAttachments).
  assert (Hn32 : 0 <= n <= 32) by (unfold n, g_maxNumColorAttachments; lia).
  unfold Clear_entries, color_clears. fold n. subst buf.
  set (E := (fun i : nat =>
               {| aspectMask := VK_IMAGE_ASPECT_COLOR_BIT; colorAttachment := Z.of_nat i;
                  clearValue := color (clearColor_ ss) |}) <$> seq 0 (Z.to_nat n)).
  assert (HE : length E = Z.to_nat n) by (unfold E; rewrite length_fmap, length_seq; lia).
  destruct (negb (Z.land flags ClearFlags.Color =? 0)).
  - rewrite run_bind, fill_color_clears by (rewrite length_replicate; lia).
    run. rewrite drop_replicate, list_fmap_compose. fold E.
    destruct (negb (Z.land flags ClearFlags.DepthStencil =? 0) && hasDSVAttachment_ ss).
    + replace (33 - Z.to_nat n)%nat with (S (32 - Z.to_nat n)) by lia.
      rewrite <- HE at 2. rewrite run_bind, store_after_entries. run.
      replace (to_uint32 (n + 1)) with (Z.of_nat (length (E ++ [
        {| aspectMask := GetDepthStencilAspectMask flags; colorAttachment := 0;
           clearValue := depthStencil (clearDepthStencil_ ss) |}])))
        by (rewrite length_app, HE; simpl; unfold to_uint32;
            rewrite Z.mod_small by lia; lia).
      apply ClearFramebufferAttachments_run.
    + run. rewrite app_nil_r.
      replace n with (Z.of_nat (length E)) at 1 by lia.
      apply ClearFramebufferAttachments_run.
  - run.
    destruct (negb (Z.land flags ClearFlags.DepthStencil =? 0) && hasDSVAttachment_ ss).
    + rewrite run_bind.
      match goal with |- context [array_store _ _ ?e ?st] =>
        pose proof (store_after_entries [] 32 e st) as H end.
      simpl in H. change (Z.to_nat 0) with 0%nat. rewrite H. run.
      apply (ClearFramebufferAttachments_run [_] (replicate 32 None)).
    + run. apply (ClearFramebufferAttachments_run [] (replicate 33 None)).
Qed.

Lemma length_ClearAttachments_entries hasDSV ind l : forall k,
  (length (ClearAttachments_entries hasDSV ind k l) <= length l)%nat.
Proof.
  induction l as [|src l IH]; intros k; simpl; [lia|].
  pose proof (IH k). pose proof (IH (S k)).
  destruct (negb _); [|destruct hasDSV]; simpl; lia.
Qed.

Lemma ClearAttachments_body_run (ind : nat -> VkClearDepthStencilValue)
    (attachments : list LLGL.AttachmentClear) (s : State) (i : nat)
    (src : LLGL.AttachmentClear) (entries : list VkClearAttachment) :
  attachments !! i = Some src ->
  (length entries <= 32)%nat ->
  let entries' :=
    entries ++ ClearAttachments_entries (hasDSVAttachment_ (session (self s))) ind
                 (length entries) [src] in
  ClearAttachments_body ind attachments i
    (Z.of_nat (length entries),
     (Some <$> entries) ++ replicate (33 - length entries) None) s
  = (Ok (Z.of_nat (length entries'),
         (Some <$> entries') ++ replicate (33 - length entries') None), s).
Proof.
  intros Esrc Hlen entries'. subst entries'.
  unfold ClearAttachments_body. rewrite run_bind.
  unfold array_ref. rewrite Nat2Z.id.
  destruct (decide _) as [_|Hge].
  2: { exfalso. apply Hge.
       rewrite length_app, length_fmap, length_replicate. lia. }
  rewrite run_ret, run_bind. unfold at_. rewrite Esrc, run_ret.
  rewrite run_bind. unfold member, gets. cbv beta iota.
  cbn [ClearAttachments_entries].
  replace (33 - length entries)%nat with (S (32 - length entries)) by lia.
  assert (Hsucc : to_uint32 (Z.of_nat (length entries) + 1)
                  = Z.of_nat (length entries + 1))
    by (unfold to_uint32; rewrite Z.mod_small by lia; lia).
  destruct (negb (Z.land (LLGL.flags src) ClearFlags.Color =? 0)).
  - rewrite run_bind, store_after_entries, run_ret, Hsucc, length_app.
    cbn [length]. replace (33 - (length entries + 1))%nat with (32 - length entries)%nat by lia.
    reflexivity.
  - destruct (hasDSVAttachment_ (session (self s))).
    + unfold depth_stencil_clear, GetDepthStencilAspectMask.
      destruct (negb (Z.land (LLGL.flags src) ClearFlags.Depth =? 0)),
               (negb (Z.land (LLGL.flags src) ClearFlags.Stencil =? 0));
        cbv beta iota zeta;
        rewrite run_bind, store_after_entries, run_ret, Hsucc, length_app;
        cbn [length];
        replace (33 - (length entries + 1))%nat with (32 - length entries)%nat by lia;
        destruct (ind (length entries)); reflexivity.
    + rewrite run_ret, app_nil_r.
      replace (S (32 - length entries)) with (33 - length entries)%nat by lia.
      reflexivity.
Qed.

Lemma ClearAttachments_entries_app hasDSV ind l1 : forall l2 k,
  ClearAttachments_entries hasDSV ind k (l1 ++ l2)
  = ClearAttachments_entries hasDSV ind k l1
    ++ ClearAttachments_entries hasDSV ind
         (k + length (ClearAttachments_entries hasDSV ind k l1)) l2.
Proof.
  induction l1 as [|src l1 IH]; intros l2 k; simpl.
  - rewrite Nat.add_0_r. reflexivity.
  - destruct (negb _); [|destruct hasDSV]; simpl; rewrite IH;
      rewrite ?Nat.add_succ_r; reflexivity.
Qed.

Lemma ClearAttachments_loop (ind : nat -> VkClearDepthStencilValue)
    (attachments : list LLGL.AttachmentClear) (s : State) :
  forall (count first : nat) (entries : list VkClearAttachment),
    (length entries <= first)%nat ->
    (first + count <= length attachments)%nat ->
    (first + count <= 33)%nat ->
    let entries' :=
      entries ++ ClearAttachments_entries (hasDSVAttachment_ (session (self s))) ind
                   (length entries) (take count (drop first attachments)) in
    for_range first count (ClearAttachments_body ind attachments)
      (Z.of_nat (length entries),
       (Some <$> entries) ++ replicate (33 - length entries) None) s
    = (Ok (Z.of_nat (length entries'),
           (Some <$> entries') ++ replicate (33 - length entries') None), s).
Proof.
  induction count as [|count IH]; intros first entries Hk Hlen H33 entries'.
  - subst entries'. simpl. rewrite app_nil_r. reflexivity.
  - cbn [for_range]. rewrite run_bind.
    destruct (attachments !! first) as [src|] eqn:Esrc.
    2: { apply lookup_ge_None in Esrc. lia. }
    rewrite (ClearAttachments_body_run ind attachments s first src entries Esrc) by lia.
    set (e1 := ClearAttachments_entries _ ind (length entries) [src]).
    assert (He1 : (length e1 <= 1)%nat)
      by (apply (length_ClearAttachments_entries _ ind [src])).
    rewrite IH by (rewrite ?length_app; lia).
    subst entries'.
    rewrite (drop_S _ src first Esrc). rewrite firstn_cons.
    change (src :: ?l) with ([src] ++ l).
    rewrite ClearAttachments_entries_app. fold e1.
    rewrite (length_app entries e1), <- !app_assoc. reflexivity.
Qed.

Lemma ClearAttachments_run (ind : nat -> VkClearDepthStencilValue)
    (numAttachments : nat) (attachments : list LLGL.AttachmentClear) (s : State) :
  (numAttachments <= length attachments)%nat ->
  ClearAttachments ind (Z.of_nat numAttachments) attachments s =
  (Ok tt,
   {| self := self s;
      calls := calls s ++
        clear_call (self s)
          (ClearAttachments_entries (hasDSVAttachment_ (session (self s))) ind 0
             (take (numAttachments `min` 33) attachments));
      fences := fences s; nextHandle := nextHandle s |}).
Proof.
  intros Hlen. unfold ClearAttachments.
  change (Z.to_nat g_maxNumAttachments) with 33%nat.
  replace (Z.to_nat (Z.min (Z.of_nat numAttachments) g_maxNumAttachments))
    with (numAttachments `min` 33)%nat
    by (unfold g_maxNumAttachments, g_maxNumColorAttachments; lia).
  rewrite run_bind.
  pose proof (ClearAttachments_loop ind attachments s (numAttachments `min` 33) 0 []) as H.
  cbn [length app fmap list_fmap] in H. rewrite Nat.sub_0_r, drop_0 in H.
  change (Z.of_nat 0) with 0 in H.
  rewrite H by lia. cbv beta iota.
  apply ClearFramebufferAttachments_run.
Qed.

Lemma ClearAttachments_entries_colors hasDSV ind (c : LLGL.ColorRGBAf) (count : nat) :
  forall (first k : nat) (rest : list LLGL.AttachmentClear),
  ClearAttachments_entries hasDSV ind k
    (((fun i : nat => LLGL.AttachmentClear_color c (Z.of_nat i)) <$> seq first count) ++ rest)
  = ((fun i : nat =>
        {| aspectMask := VK_IMAGE_ASPECT_COLOR_BIT; colorAttachment := Z.of_nat i;
           clearValue := color {| float32 := (LLGL.r c, LLGL.g c, LLGL.b c, LLGL.a c) |} |})
     <$> seq first count)
    ++ ClearAttachments_entries hasDSV ind (k + count) rest.
Proof.
  induction count as [|count IH]; intros first k rest.
  - simpl. rewrite Nat.add_0_r. reflexivity.
  - cbn [seq fmap list_fmap app ClearAttachments_entries].
    change (negb (Z.land (LLGL.flags (LLGL.AttachmentClear_color c (Z.of_nat first)))
                    ClearFlags.Color =? 0)) with true.
    cbv beta iota. rewrite IH, Nat.add_succ_r. reflexivity.
Qed.

(** X10. With up to 32 colour attachments, [Clear(ClearFlags::All)]
    records exactly what [ClearAttachments] records for one colour
    command per colour attachment, built by the colour constructor of
    AttachmentClear from the cached clear colour, followed by the
    depth-stencil constructor's command for the cached depth and
    stencil. *)
Theorem Clear_All_as_ClearAttachments (ind : nat -> VkClearDepthStencilValue)
    (s : State) (c : LLGL.ColorRGBAf) (d : float) (v : Z) (n : nat) :
  numColorAttachments_ (session (self s)) = Z.of_nat n ->
  (n <= 32)%nat ->
  clearColor_ (session (self s))
    = {| float32 := (LLGL.r c, LLGL.g c, LLGL.b c, LLGL.a c) |} ->
  clearDepthStencil_ (session (self s)) = {| depth := d; stencil := v |} ->
  Clear ClearFlags.All s =
  ClearAttachments ind (Z.of_nat (n + 1))
    (((fun i : nat => LLGL.AttachmentClear_color c (Z.of_nat i)) <$> seq 0 n)
     ++ [LLGL.AttachmentClear_depth_stencil d v]) s.
Proof.
  intros Hn Hle Hc Hd.
  rewrite Clear_run by lia.
  rewrite ClearAttachments_run by (rewrite length_app, length_fmap, length_seq; simpl; lia).
  do 3 f_equal.
  rewrite take_ge by (rewrite length_app, length_fmap, length_seq; simpl; lia).
  rewrite ClearAttachments_entries_colors.
  unfold Clear_entries, color_clears. rewrite Hn, Hc, Hd.
  change (negb (Z.land ClearFlags.All ClearFlags.Color =? 0)) with true.
  change (negb (Z.land ClearFlags.All ClearFlags.DepthStencil =? 0)) with true.
  cbv beta iota.
  replace (Z.to_nat (Z.min (Z.of_nat n) g_maxNumColorAttachments)) with n
    by (unfold g_maxNumColorAttachments; lia).
  destruct (hasDSVAttachment_ (session (self s))); reflexivity.
Qed.

Lemma Clear_All_as_ClearAttachments_witness :
  Clear ClearFlags.All recording =
  ClearAttachments zeroed (Z.of_nat (3 + 1))
    (((fun i : nat => LLGL.AttachmentClear_color black (Z.of_nat i)) <$> seq 0 3)
     ++ [LLGL.AttachmentClear_depth_stencil 0x3F800000 0]) recording.
Proof.
  apply (Clear_All_as_ClearAttachments zeroed recording black 0x3F800000 0 3).
  - reflexivity.
  - lia.
  - reflexivity.
  - reflexivity.
Defined.


(** X7. For every flag word and every number of colour attachments
    [Clear] returns normally: it fills at most 33 clear descriptors (the
    colour attachments up to 32, then the depth-stencil one), stays
    inside its array, and records one vkCmdClearAttachments over the
    whole framebuffer extent, or nothing when there is nothing to
    clear. *)
Theorem Clear_never_overruns (flags : Z) (s : State) :
  0 <= numColorAttachments_ (session (self s)) ->
  Clear flags s =
  (Ok tt, {| self := self s;
             calls := calls s ++ clear_call (self s) (Clear_entries flags (session (self s)));
             fences := fences s; nextHandle := nextHandle s |}) /\
  (length (Clear_entries flags (session (self s))) <= 33)%nat.
Proof.
  intros Hn. split; [apply Clear_run, Hn|].
  unfold Clear_entries, color_clears, g_maxNumColorAttachments.
  destruct (negb _), (negb _ && _);
    rewrite length_app, ?length_fmap, ?length_seq; simpl; lia.
Qed.

Lemma Clear_never_overruns_witness :
  Clear ClearFlags.All recording =
  (Ok tt, {| self := self recording;
             calls := calls recording ++
                      clear_call (self recording)
                        (Clear_entries ClearFlags.All (session (self recording)));
             fences := fences recording; nextHandle := nextHandle recording |}) /\
  (length (Clear_entries ClearFlags.All (session (self recording))) <= 33)%nat.
Proof.
  apply (Clear_never_overruns ClearFlags.All recording).
  vm_compute. discriminate.
Defined.


(** X9. [ClearAttachments] returns normally whenever the count does
    not exceed the array it is given.  It converts the first 33 commands
    in order: a command with the colour flag becomes a colour clear of
    its attachment index (its other flags are ignored), any other
    command a depth-stencil clear whose aspect mask mirrors its depth
    and stencil flags, or is dropped when the render target has no
    depth-stencil attachment; the descriptors are packed without gap
    and recorded in one vkCmdClearAttachments, none when all were
    dropped. *)
Theorem ClearAttachments_converts (ind : nat -> VkClearDepthStencilValue)
    (numAttachments : nat) (attachments : list LLGL.AttachmentClear) (s : State) :
  (numAttachments <= length attachments)%nat ->
  let entries :=
    ClearAttachments_entries (hasDSVAttachment_ (session (self s))) ind 0
      (take (numAttachments `min` 33) attachments) in
  ClearAttachments ind (Z.of_nat numAttachments) attachments s =
  (Ok tt, {| self := self s; calls := calls s ++ clear_call (self s) entries;
             fences := fences s; nextHandle := nextHandle s |}) /\
  (length entries <= 33)%nat.
Proof.
  intros Hlen entries. split; [apply ClearAttachments_run, Hlen|].
  subst entries.
  etransitivity; [apply length_ClearAttachments_entries|].
  rewrite length_take. lia.
Qed.

Lemma ClearAttachments_converts_witness :
  ClearAttachments zeroed (Z.of_nat 3) three_clears recording =
  (Ok tt,
   {| self := self recording;
      calls := calls recording ++
        clear_call (self recording)
          (ClearAttachments_entries (hasDSVAttachment_ (session (self recording))) zeroed 0
             (take (3 `min` 33) three_clears));
      fences := fences recording; nextHandle := nextHandle recording |}) /\
  (length
     (ClearAttachments_entries (hasDSVAttachment_ (session (self recording))) zeroed 0
        (take (3 `min` 33) three_clears)) <= 33)%nat.
Proof.
  apply (ClearAttachments_converts zeroed 3 three_clears recording).
  vm_compute. lia.
Defined.


Theorem SetViewport_as_SetViewports (viewport : Viewport) (s : State) :
  SetViewport viewport s = SetViewports 1 [viewport] s.
Proof.
  change 1 with (Z.of_nat (length [viewport])).
  rewrite (SetViewports_single_batch s [viewport]) by (simpl; lia).
  reflexivity.
Qed.

Lemma render_pass_after_app trace1 : forall open trace2,
  render_pass_after open (trace1 ++ trace2)
  = match render_pass_after open trace1 with
    | Some open' => render_pass_after open' trace2
    | None => None
    end.
Proof.
  induction trace1 as [|c trace1 IH]; intros open trace2; [reflexivity|].
  destruct c; cbn [app render_pass_after]; try apply IH.
  - destruct open; [reflexivity | apply IH].
  - destruct open as [cb|]; [|reflexivity]. destruct (cb =? _); [apply IH | reflexivity].
Qed.

Lemma SetRenderPass_brackets (renderPass framebuffer : Z) (extent : VkExtent2D) (s : State) :
  renderPass <> VK_NULL_HANDLE ->
  render_pass_after None (calls s) = Some (render_pass_of (self s)) ->
  exists s',
    SetRenderPass renderPass framebuffer extent s = (Ok tt, s') /\
    render_pass_after None (calls s') = Some (render_pass_of (self s')) /\
    renderPass_ (session (self s')) = renderPass /\
    commandBuffer_ (self s') = commandBuffer_ (self s).
Proof.
  intros Hrp Hinv. apply Z.eqb_neq in Hrp.
  unfold SetRenderPass, EndRenderPass, BeginRenderPass, render_pass_of in *.
  autounfold with vk_run. run. rewrite Hrp.
  destruct (renderPass_ (session (self s)) =? VK_NULL_HANDLE); run;
    unfold modify; eexists; (split; [reflexivity|]); simpl; rewrite Hrp;
    rewrite ?render_pass_after_app, ?Hinv; simpl; rewrite ?Z.eqb_refl; auto.
Qed.

Lemma SetRenderPassNull_brackets (s : State) :
  render_pass_after None (calls s) = Some (render_pass_of (self s)) ->
  exists s',
    SetRenderPassNull s = (Ok tt, s') /\
    render_pass_after None (calls s') = Some (render_pass_of (self s')) /\
    renderPass_ (session (self s')) = VK_NULL_HANDLE /\
    commandBuffer_ (self s') = commandBuffer_ (self s).
Proof.
  intros Hinv.
  unfold SetRenderPassNull, EndRenderPass, render_pass_of in *.
  autounfold with vk_run. run.
  destruct (renderPass_ (session (self s)) =? VK_NULL_HANDLE) eqn:E; run.
  - exists s. rewrite Hinv. apply Z.eqb_eq in E. rewrite E. repeat split; auto.
  - unfold modify. eexists. split; [reflexivity|]. simpl.
    rewrite render_pass_after_app, Hinv. simpl. rewrite Z.eqb_refl. auto.
Qed.

(** X13. Render pass instances are bracketed.  From a state whose
    trace and [renderPass_] agree, any sequence of [SetRenderPass] with
    a non-null render pass and [SetRenderPassNull] returns normally and
    leaves a trace in which every vkCmdBeginRenderPass comes outside an
    instance, every vkCmdEndRenderPass ends the instance open on the
    same command buffer, and an instance is open at the end exactly when
    [renderPass_] is set. *)
Theorem render_passes_are_bracketed (ops : list RenderPassOp) : forall s : State,
  Forall begins_pass ops ->
  render_pass_after None (calls s) = Some (render_pass_of (self s)) ->
  exists s',
    for_each ops run_RenderPassOp s = (Ok tt, s') /\
    render_pass_after None (calls s') = Some (render_pass_of (self s')).
Proof.
  induction ops as [|op ops IH]; intros s Hops Hinv.
  - exists s. split; [reflexivity | exact Hinv].
  - apply Forall_cons in Hops as [Hop Hops].
    rewrite for_each_cons, run_bind.
    destruct op as [renderPass framebuffer extent|]; cbn [run_RenderPassOp].
    + destruct (SetRenderPass_brackets renderPass framebuffer extent s Hop Hinv)
        as (s1 & -> & Hinv1 & _).
      apply IH; assumption.
    + destruct (SetRenderPassNull_brackets s Hinv) as (s1 & -> & Hinv1 & _).
      apply IH; assumption.
Qed.

Lemma render_passes_are_bracketed_witness :
  exists s',
    for_each [OpSetRenderPass 500 501 (800, 600); OpSetRenderPass 510 511 (64, 64);
              OpSetRenderPassNull; OpSetRenderPassNull; OpSetRenderPass 500 501 (800, 600)]
      run_RenderPassOp (presenting 2 0) = (Ok tt, s') /\
    render_pass_after None (calls s') = Some (render_pass_of (self s')).
Proof.
  apply (render_passes_are_bracketed
           [OpSetRenderPass 500 501 (800, 600); OpSetRenderPass 510 511 (64, 64);
            OpSetRenderPassNull; OpSetRenderPassNull; OpSetRenderPass 500 501 (800, 600)]
           (presenting 2 0)).
  - repeat constructor; discriminate.
  - reflexivity.
Defined.


(** X14. [SetRenderPass] with a null render pass, inside a render
    pass instance, records the vkCmdEndRenderPass and changes no member:
    [renderPass_] stays set (only [SetRenderPassNull] resets it), so a
    [SetRenderPassNull] that follows records a second
    vkCmdEndRenderPass. *)
Theorem SetRenderPass_null_handle (framebuffer : Z) (extent : VkExtent2D) (s : State) :
  renderPass_ (session (self s)) <> VK_NULL_HANDLE ->
  SetRenderPass VK_NULL_HANDLE framebuffer extent s =
    (Ok tt, {| self := self s;
               calls := calls s ++ [vkCmdEndRenderPass (commandBuffer_ (self s))];
               fences := fences s; nextHandle := nextHandle s |}) /\
  exists s',
    (SetRenderPass VK_NULL_HANDLE framebuffer extent ;; SetRenderPassNull) s = (Ok tt, s') /\
    calls s' = calls s ++ [vkCmdEndRenderPass (commandBuffer_ (self s));
                           vkCmdEndRenderPass (commandBuffer_ (self s))].
Proof.
  intros Hrp. apply Z.eqb_neq in Hrp.
  unfold SetRenderPass, SetRenderPassNull, EndRenderPass.
  autounfold with vk_run. run. rewrite Hrp. run. split; [reflexivity|].
  rewrite Hrp. run. unfold modify. eexists. split; [reflexivity|].
  simpl. rewrite <- app_assoc. reflexivity.
Qed.

Lemma SetRenderPass_null_handle_witness :
  SetRenderPass VK_NULL_HANDLE 0 (0, 0) recording =
    (Ok tt, {| self := self recording;
               calls := calls recording
                        ++ [vkCmdEndRenderPass (commandBuffer_ (self recording))];
               fences := fences recording; nextHandle := nextHandle recording |}) /\
  exists s',
    (SetRenderPass VK_NULL_HANDLE 0 (0, 0) ;; SetRenderPassNull) recording = (Ok tt, s') /\
    calls s' = calls recording ++ [vkCmdEndRenderPass (commandBuffer_ (self recording));
                                   vkCmdEndRenderPass (commandBuffer_ (self recording))].
Proof.
  apply (SetRenderPass_null_handle 0 (0, 0) recording).
  vm_compute. discriminate.
Defined.


(** X15. On a slot that is already recording, [SetRenderTarget] does
    not wait for the fence, reset it or begin the command buffer again:
    it ends the render pass instance that is open, if any, begins the
    one of the new render target, and takes over its extent, its number
    of colour attachments and whether it has a depth or stencil
    attachment; the scissor is marked for renewal. *)
Theorem SetRenderTarget_while_recording (driver : Driver) (renderTargetVK : VKRenderTarget)
    (s : State) :
  IsCommandBufferActive s = (Ok true, s) ->
  GetVkRenderPass renderTargetVK <> VK_NULL_HANDLE ->
  exists s',
    SetRenderTarget driver renderTargetVK s = (Ok tt, s') /\
    calls s' =
      calls s ++
      (if renderPass_ (session (self s)) =? VK_NULL_HANDLE then []
       else [vkCmdEndRenderPass (commandBuffer_ (self s))]) ++
      [vkCmdBeginRenderPass (commandBuffer_ (self s)) (GetVkRenderPass renderTargetVK)
         (GetVkFramebuffer renderTargetVK) (GetVkExtent renderTargetVK)] /\
    fences s' = fences s /\
    commandBufferActiveList_ (self s') = commandBufferActiveList_ (self s) /\
    renderPass_ (session (self s')) = GetVkRenderPass renderTargetVK /\
    framebufferExtent_ (session (self s')) = GetVkExtent renderTargetVK /\
    scissorRectInvalidated_ (session (self s')) = true /\
    numColorAttachments_ (session (self s')) = GetNumColorAttachments renderTargetVK /\
    hasDSVAttachment_ (session (self s'))
      = HasDepthAttachment renderTargetVK || HasStencilAttachment renderTargetVK.
Proof.
  intros Hactive Hrp. apply Z.eqb_neq in Hrp.
  unfold SetRenderTarget. rewrite run_bind, Hactive. cbn [negb when].
  unfold SetRenderPass, EndRenderPass, BeginRenderPass.
  autounfold with vk_run. run. rewrite Hrp.
  destruct (renderPass_ (session (self s)) =? VK_NULL_HANDLE); run;
    unfold modify; eexists; (split; [reflexivity|]); simpl;
    rewrite <- ?app_assoc; repeat split; reflexivity.
Qed.

Lemma SetRenderTarget_while_recording_witness :
  exists s',
    SetRenderTarget succeeding three_colors_and_depth recording = (Ok tt, s') /\
    calls s' =
      calls recording ++
      (if renderPass_ (session (self recording)) =? VK_NULL_HANDLE then []
       else [vkCmdEndRenderPass (commandBuffer_ (self recording))]) ++
      [vkCmdBeginRenderPass (commandBuffer_ (self recording))
         (GetVkRenderPass three_colors_and_depth)
         (GetVkFramebuffer three_colors_and_depth) (GetVkExtent three_colors_and_depth)] /\
    fences s' = fences recording /\
    commandBufferActiveList_ (self s') = commandBufferActiveList_ (self recording) /\
    renderPass_ (session (self s')) = GetVkRenderPass three_colors_and_depth /\
    framebufferExtent_ (session (self s')) = GetVkExtent three_colors_and_depth /\
    scissorRectInvalidated_ (session (self s')) = true /\
    numColorAttachments_ (session (self s'))
      = GetNumColorAttachments three_colors_and_depth /\
    hasDSVAttachment_ (session (self s'))
      = HasDepthAttachment three_colors_and_depth
        || HasStencilAttachment three_colors_and_depth.
Proof.
  apply (SetRenderTarget_while_recording succeeding three_colors_and_depth recording).
  - reflexivity.
  - discriminate.
Defined.


(** X16. The recording flag belongs to the slot.  On a recorder just
    constructed, beginning the command buffer of slot [i] leaves every
    other slot idle, the flag of [i] is found set again when the
    recorder returns to it, and [EndCommandBuffer] clears it. *)
Theorem recording_flag_is_per_slot (driver : Driver) (defaults : Session)
    (graphicsQueue : Z) (bufferCount : nat) (graphicsFamily : Z) (i j : nat) :
  (forall trace, vkResult driver trace = VK_SUCCESS) ->
  Z.of_nat bufferCount < 2 ^ 32 ->
  (i < bufferCount)%nat -> (j < bufferCount)%nat -> i <> j ->
  exists st,
    New driver defaults graphicsQueue bufferCount graphicsFamily = (Ok tt, st) /\
    fst ((SetPresentIndex (Z.of_nat i) ;; BeginCommandBuffer driver ;;
          SetPresentIndex (Z.of_nat j) ;; IsCommandBufferActive) st) = Ok false /\
    fst ((SetPresentIndex (Z.of_nat i) ;; BeginCommandBuffer driver ;;
          SetPresentIndex (Z.of_nat j) ;; SetPresentIndex (Z.of_nat i) ;;
          IsCommandBufferActive) st) = Ok true /\
    fst ((SetPresentIndex (Z.of_nat i) ;; BeginCommandBuffer driver ;;
          EndCommandBuffer driver ;; IsCommandBufferActive) st) = Ok false.
Proof.
  intros success Hsmall Hi Hj Hij.
  destruct (New_run driver success defaults graphicsQueue bufferCount
              graphicsFamily ltac:(lia) Hsmall) as (st & Hrun & Hself & _ & Hfences).
  exists st. split; [exact Hrun|].
  assert (Hfence : fences st !! (2 + Z.of_nat bufferCount + Z.of_nat i) = Some true).
  { apply Hfences, elem_of_handles_from. lia. }
  destruct st as [o trace fs next]. simpl in Hself, Hfence. subst o.
  unfold SetPresentIndex, BeginCommandBuffer, EndCommandBuffer, native_vkWaitForFences,
    native_vkResetFences, store_active, IsCommandBufferActive.
  autounfold with vk_run.
  split; [|split];
    repeat first
      [ rewrite Nat2Z.id
      | rewrite lookup_handles_from by lia
      | rewrite Hfence
      | rewrite success
      | match goal with
        | |- context [decide (?a < length ?l)%nat] =>
            destruct (decide (a < length l)%nat) as [_|Hge];
            [|exfalso; apply Hge; rewrite ?length_insert, length_replicate; lia]
        end
      | progress run
      | progress unfold modify, gets ].
  - rewrite list_lookup_insert_ne by exact Hij.
    rewrite lookup_replicate_2 by lia. reflexivity.
  - rewrite list_lookup_insert_eq by (rewrite length_replicate; lia). reflexivity.
  - rewrite list_lookup_insert_eq by (rewrite length_insert, length_replicate; lia).
    reflexivity.
Qed.

Lemma recording_flag_is_per_slot_witness :
  exists st,
    New succeeding defaults 1000 3 0 = (Ok tt, st) /\
    fst ((SetPresentIndex (Z.of_nat 2) ;; BeginCommandBuffer succeeding ;;
          SetPresentIndex (Z.of_nat 0) ;; IsCommandBufferActive) st) = Ok false /\
    fst ((SetPresentIndex (Z.of_nat 2) ;; BeginCommandBuffer succeeding ;;
          SetPresentIndex (Z.of_nat 0) ;; SetPresentIndex (Z.of_nat 2) ;;
          IsCommandBufferActive) st) = Ok true /\
    fst ((SetPresentIndex (Z.of_nat 2) ;; BeginCommandBuffer succeeding ;;
          EndCommandBuffer succeeding ;; IsCommandBufferActive) st) = Ok false.
Proof.
  apply (recording_flag_is_per_slot succeeding defaults 1000 3 0 2 0).
  - reflexivity.
  - reflexivity.
  - lia.
  - lia.
  - lia.
Defined.







(** X12. Up to 16 viewports [SetViewports] records one
    vkCmdSetViewport that starts at 0 and carries all of them, converted
    in order; for none it records nothing. *)
Theorem SetViewports_up_to_the_batch_limit (s : State) (viewports : list Viewport) :
  (length viewports <= 16)%nat ->
  SetViewports (Z.of_nat (length viewports)) viewports s =
  (Ok tt,
   {| self := self s;
      calls := calls s ++
               match viewports with
               | [] => []
               | _ => [vkCmdSetViewport (commandBuffer_ (self s)) 0
                         (Z.of_nat (length viewports)) (Convert <$> viewports)]
               end;
      fences := fences s; nextHandle := nextHandle s |}).
Proof.
  intros Hlen. destruct viewports as [|v viewports].
  - simpl. rewrite app_nil_r. destruct s; reflexivity.
  - apply SetViewports_single_batch. simpl in *. lia.
Qed.

Lemma SetViewports_up_to_the_batch_limit_witness :
  SetViewports (Z.of_nat (length (map viewport (seq 0 3)))) (map viewport (seq 0 3))
    (presenting 2 0) =
  (Ok tt,
   {| self := self (presenting 2 0);
      calls := calls (presenting 2 0) ++
               [vkCmdSetViewport (commandBuffer_ (self (presenting 2 0))) 0
                  (Z.of_nat (length (map viewport (seq 0 3))))
                  (Convert <$> map viewport (seq 0 3))];
      fences := fences (presenting 2 0); nextHandle := nextHandle (presenting 2 0) |}).
Proof.
  apply (SetViewports_up_to_the_batch_limit (presenting 2 0) (map viewport (seq 0 3))).
  simpl. lia.
Defined.


End VKCommandBufferSpec.

(** ** VKCommandBuffer: scissors, pipelines, destruction *)

Module VKCommandsSpec.
Import ExecFacts VK VKCommands.

#[local] Arguments to_uint32 : simpl never.
#[local] Arguments replicate : simpl never.

Lemma lift_run {A} (m : VK.Run A) (s : State) :
  lift m s = (fst (m (recorder s)),
              {| recorder := snd (m (recorder s)); commands := commands s |}).
Proof. unfold lift. destruct (m (recorder s)). reflexivity. Qed.

Lemma member_run {A} (f : VKCommandBuffer -> A) (s : State) :
  member f s = (Ok (f (self (recorder s))), s).
Proof. destruct s as [r c]. reflexivity. Qed.

Lemma emit_run (c : Command) (s : State) :
  emit c s = (Ok tt, {| recorder := recorder s; commands := commands s ++ [c] |}).
Proof. reflexivity. Qed.

Lemma update_session_run (f : Session -> Session) (s : State) :
  update_session f s =
  (Ok tt, {| recorder := {| self := set_session (f (session (self (recorder s))))
                                      (self (recorder s));
                            calls := calls (recorder s);
                            fences := fences (recorder s);
                            nextHandle := nextHandle (recorder s) |};
             commands := commands s |}).
Proof. reflexivity. Qed.

Ltac step :=
  repeat first [ rewrite run_bind | rewrite run_ret | rewrite member_run
               | rewrite emit_run | rewrite update_session_run
               | progress cbv beta iota ].

Section Scissors.
Context {Scissor : Type} (Convert : Scissor -> VkRect2D).

(** X17. Once a graphics pipeline without scissor test is bound,
    [SetScissor] and [SetScissors] record nothing and change nothing,
    whatever they are given. *)
Theorem scissors_ignored_when_disabled (graphicsPipelineVK : VKGraphicsPipeline)
    (scissor : Scissor) (numScissors : Z) (scissors : list Scissor) (s : State) :
  IsScissorEnabled graphicsPipelineVK = false ->
  (SetGraphicsPipeline graphicsPipelineVK ;; SetScissor Convert scissor) s
    = SetGraphicsPipeline graphicsPipelineVK s /\
  (SetGraphicsPipeline graphicsPipelineVK ;; SetScissors Convert numScissors scissors) s
    = SetGraphicsPipeline graphicsPipelineVK s.
Proof.
  intros Hoff.
  assert (H : exists s', SetGraphicsPipeline graphicsPipelineVK s = (Ok tt, s') /\
                         scissorEnabled_ (session (self (recorder s'))) = false).
  { unfold SetGraphicsPipeline. step. simpl. rewrite Hoff. simpl.
    destruct (scissorRectInvalidated_ _ && _); simpl; step; eexists; split;
      reflexivity. }
  destruct H as (s' & E & Hdis).
  split; rewrite run_bind, E; unfold SetScissor, SetScissors; step;
    rewrite Hdis; reflexivity.
Qed.

Lemma SetScissors_convert_run (scissors : list Scissor) (first count : Z)
    (buf0 : list (option VkRect2D)) (s : VK.State) :
  0 <= first -> 0 <= count ->
  first + count <= Z.of_nat (length scissors) ->
  first + count < 2 ^ 32 ->
  (Z.to_nat count <= length buf0)%nat ->
  forall (fuel k : nat),
    (k <= Z.to_nat count)%nat ->
    (Z.to_nat count - k <= fuel)%nat ->
    SetScissors_convert Convert fuel scissors first count (first + Z.of_nat k)
      (((Some ∘ Convert) <$> take k (drop (Z.to_nat first) scissors)) ++ drop k buf0) s
    = (Ok (first + count,
           ((Some ∘ Convert) <$> take (Z.to_nat count) (drop (Z.to_nat first) scissors))
           ++ drop (Z.to_nat count) buf0), s).
Proof.
  intros Hfirst Hcount Hlen Hsmall Hbuf.
  induction fuel as [|fuel IH]; intros k Hk Hfuel.
  - assert (k = Z.to_nat count) as -> by lia.
    simpl. unfold to_uint32. rewrite Z.mod_small by lia.
    rewrite Z2Nat.id by lia. rewrite Z.ltb_irrefl. reflexivity.
  - cbn [SetScissors_convert]. unfold to_uint32 at 1. rewrite Z.mod_small by lia.
    destruct (decide (k = Z.to_nat count)) as [->|Hne].
    + rewrite Z2Nat.id by lia. rewrite Z.ltb_irrefl. reflexivity.
    + assert (Hlt : (first + Z.of_nat k <? first + count) = true) by (apply Z.ltb_lt; lia).
      rewrite Hlt. unfold at_.
      destruct (scissors !! Z.to_nat (first + Z.of_nat k)) as [src|] eqn:Esrc.
      2: { apply lookup_ge_None in Esrc. lia. }
      run. unfold array_store.
      replace (to_uint32 (first + Z.of_nat k - first)) with (Z.of_nat k)
        by (unfold to_uint32; rewrite Z.mod_small by lia; lia).
      rewrite Nat2Z.id.
      destruct (decide _) as [_|Hge].
      2: { exfalso. apply Hge. rewrite length_app, length_fmap, length_take, length_drop,
             length_drop. lia. }
      run.
      specialize (IH (S k)).
      replace (to_uint32 (first + Z.of_nat k + 1)) with (first + Z.of_nat (S k))
        by (unfold to_uint32; rewrite Z.mod_small by lia; lia).
      rewrite <- IH by lia. f_equal.
      assert (Hk' : length ((Some ∘ Convert) <$> take k (drop (Z.to_nat first) scissors)) = k)
        by (rewrite length_fmap, length_take, length_drop; lia).
      assert (Hsrc : drop (Z.to_nat first) scissors !! k = Some src).
      { rewrite lookup_drop, <- Esrc. f_equal. lia. }
      destruct (buf0 !! k) as [old|] eqn:Eold.
      2: { apply lookup_ge_None in Eold. lia. }
      rewrite insert_app_r_alt by lia. rewrite Hk', Nat.sub_diag.
      rewrite (drop_S _ _ _ Eold), (take_S_r _ _ _ Hsrc), fmap_app, <- app_assoc.
      reflexivity.
Qed.

(** X19. With the scissor test enabled, [SetScissors] of 1 to 16
    scissors records one vkCmdSetScissor that starts at 0 and carries
    all of them, converted in order; nothing else changes. *)
Theorem SetScissors_single_batch (scissors : list Scissor) (s : State) :
  scissorEnabled_ (session (self (recorder s))) = true ->
  (1 <= length scissors <= 16)%nat ->
  SetScissors Convert (Z.of_nat (length scissors)) scissors s =
  (Ok tt,
   {| recorder := recorder s;
      commands := commands s ++
        [vkCmdSetScissor (commandBuffer_ (self (recorder s))) 0
           (Z.of_nat (length scissors)) (Convert <$> scissors)] |}).
Proof.
  intros Hon Hlen. unfold SetScissors. step. rewrite Hon. cbn [when].
  rewrite Nat2Z.id.
  destruct (length scissors) as [|n] eqn:En; [lia|].
  cbn [SetScissors_loop]. rewrite (proj2 (Z.ltb_lt 0 _)) by lia.
  unfold g_maxNumViewportsPerBatch. rewrite Z.min_l by lia.
  pose proof (SetScissors_convert_run scissors 0 (Z.of_nat (S n))
                (replicate 16 None) (recorder s)) as Hinner.
  specialize (Hinner ltac:(lia) ltac:(lia) ltac:(lia) ltac:(lia)).
  specialize (Hinner ltac:(rewrite length_replicate; lia)).
  specialize (Hinner (Z.to_nat (Z.of_nat (S n))) 0%nat ltac:(lia) ltac:(lia)).
  rewrite Nat2Z.id in Hinner. change (Z.to_nat 0) with 0%nat in Hinner.
  rewrite drop_0, take_0, take_ge in Hinner by lia.
  cbn [fmap list_fmap app] in Hinner. rewrite drop_0, Z.add_0_r in Hinner.
  change (Z.to_nat 16) with 16%nat.
  rewrite !Nat2Z.id, run_bind, lift_run, Hinner. cbn [fst snd]. step.
  rewrite lift_run. cbn [recorder].
  pose proof (VKCommandBufferSpec.array_prefix_initialised (Convert <$> scissors)
                (recorder s) [] (drop (S n) (replicate 16 None))) as Hprefix.
  cbn [app length] in Hprefix. rewrite length_fmap, En, <- list_fmap_compose in Hprefix.
  rewrite Hprefix. cbn [fst snd]. step.
  rewrite Z.sub_diag. change (to_uint32 0) with 0.
  assert (Hstop : forall fuel buf st, SetScissors_loop Convert fuel scissors
                    (0 + Z.of_nat (S n)) 0 buf st = (Ok tt, st)).
  { intros fuel buf st. destruct fuel; cbn [SetScissors_loop];
      rewrite (proj2 (Z.ltb_ge _ 0)) by lia; reflexivity. }
  rewrite Hstop. destruct s; reflexivity.
Qed.

End Scissors.

Lemma SetScissors_single_batch_witness :
  SetScissors id (Z.of_nat (length [square 8; square 16])) [square 8; square 16]
    (snd (SetGraphicsPipeline clipped idle_recorder)) =
  (Ok tt,
   {| recorder := recorder (snd (SetGraphicsPipeline clipped idle_recorder));
      commands := commands (snd (SetGraphicsPipeline clipped idle_recorder)) ++
        [vkCmdSetScissor
           (commandBuffer_ (self (recorder (snd (SetGraphicsPipeline clipped idle_recorder)))))
           0 (Z.of_nat (length [square 8; square 16])) (id <$> [square 8; square 16])] |}).
Proof.
  apply (SetScissors_single_batch id [square 8; square 16]
           (snd (SetGraphicsPipeline clipped idle_recorder))).
  - reflexivity.
  - simpl. lia.
Defined.


Lemma scissors_ignored_when_disabled_witness :
  (SetGraphicsPipeline unclipped ;; SetScissor id (square 8)) idle_recorder
    = SetGraphicsPipeline unclipped idle_recorder /\
  (SetGraphicsPipeline unclipped ;; SetScissors id 20 (replicate 20 (square 8))) idle_recorder
    = SetGraphicsPipeline unclipped idle_recorder.
Proof.
  apply (scissors_ignored_when_disabled id unclipped (square 8) 20
           (replicate 20 (square 8)) idle_recorder).
  reflexivity.
Defined.


Lemma pipelines_set_scissor_once (ops : list PipelineOp) : forall s : State,
  exists s' new,
    for_each ops run_PipelineOp s = (Ok tt, s') /\
    commands s' = commands s ++ new /\
    List.filter is_vkCmdSetScissor new =
      (if scissorRectInvalidated_ (session (self (recorder s)))
          && existsb wants_full_scissor ops
       then [vkCmdSetScissor (commandBuffer_ (self (recorder s))) 0 1
               [{| offset := (0, 0);
                   extent := framebufferExtent_ (session (self (recorder s))) |}]]
       else []) /\
    scissorRectInvalidated_ (session (self (recorder s')))
      = scissorRectInvalidated_ (session (self (recorder s)))
        && negb (existsb wants_full_scissor ops) /\
    commandBuffer_ (self (recorder s')) = commandBuffer_ (self (recorder s)) /\
    framebufferExtent_ (session (self (recorder s')))
      = framebufferExtent_ (session (self (recorder s))) /\
    calls (recorder s') = calls (recorder s).
Proof.
  induction ops as [|op ops IH]; intros s.
  - exists s, []. simpl. rewrite app_nil_r, !andb_false_r, andb_true_r. repeat split.
  - rewrite for_each_cons, run_bind. destruct op as [p|p]; cbn [run_PipelineOp].
    + unfold SetGraphicsPipeline. step. cbn [scissorEnabled_ scissorRectInvalidated_
        session set_session self recorder framebufferExtent_ commandBuffer_].
      cbn [existsb wants_full_scissor].
      destruct (negb (IsScissorEnabled p)) eqn:Eon,
               (scissorRectInvalidated_ (session (self (recorder s)))) eqn:Einv,
               (HasDynamicScissor p) eqn:Edyn; cbn [andb orb when negb]; step;
        match goal with |- context [for_each ops _ ?st] =>
          destruct (IH st) as (s' & new & -> & Hc & Hf & Hi & Hcb & He & Hcalls) end;
        cbn [recorder self session set_session scissorRectInvalidated_ commandBuffer_
             framebufferExtent_ commands calls andb] in Hc, Hf, Hi, Hcb, He, Hcalls;
        eexists s', (_ :: _);
        (split; [reflexivity|]); rewrite Hc, <- ?app_assoc;
        (split; [reflexivity|]); cbn [List.filter is_vkCmdSetScissor app];
        rewrite ?Hf, ?Hi, ?Einv; cbn [andb negb]; repeat split; auto.
    + unfold SetComputePipeline. step.
      match goal with |- context [for_each ops _ ?st] =>
        destruct (IH st) as (s' & new & -> & Hc & Hf & Hi & Hcb & He & Hcalls) end.
      cbn [recorder commands] in *.
      exists s', (vkCmdBindPipeline (commandBuffer_ (self (recorder s)))
                    VK_PIPELINE_BIND_POINT_COMPUTE p :: new).
      split; [reflexivity|]. rewrite Hc, <- app_assoc.
      split; [reflexivity|]. cbn [List.filter is_vkCmdSetScissor existsb
        wants_full_scissor orb].
      repeat split; auto.
Qed.

Lemma SetRenderPass_session (renderPass framebuffer : Z) (ext : VkExtent2D)
    (s : VK.State) :
  renderPass <> VK_NULL_HANDLE ->
  exists s',
    SetRenderPass renderPass framebuffer ext s = (Ok tt, s') /\
    scissorRectInvalidated_ (session (self s')) = true /\
    framebufferExtent_ (session (self s')) = ext /\
    commandBuffer_ (self s') = commandBuffer_ (self s).
Proof.
  intros Hrp. apply Z.eqb_neq in Hrp.
  unfold SetRenderPass, EndRenderPass, BeginRenderPass, VK.update_session, VK.update,
    VK.member, VK.emit.
  run. rewrite Hrp.
  destruct (renderPass_ (session (self s)) =? VK_NULL_HANDLE); run; unfold modify;
    eexists; repeat split.
Qed.

(** X18. After [SetRenderPass] has begun a render pass, a sequence of
    pipeline bindings sets the scissor to the whole framebuffer extent at
    most once: exactly once when some graphics pipeline of the sequence
    has no scissor test and a dynamic scissor, with offset (0, 0) and the
    extent of the render pass, and not at all otherwise; binding the same
    pipelines again does not repeat it. *)
Theorem scissor_set_once_per_render_pass (renderPass framebuffer : Z) (ext : VkExtent2D)
    (ops : list PipelineOp) (s : State) :
  renderPass <> VK_NULL_HANDLE ->
  exists s' new,
    (lift (SetRenderPass renderPass framebuffer ext) ;; for_each ops run_PipelineOp) s
      = (Ok tt, s') /\
    commands s' = commands s ++ new /\
    List.filter is_vkCmdSetScissor new =
      if existsb wants_full_scissor ops
      then [vkCmdSetScissor (commandBuffer_ (self (recorder s))) 0 1
              [{| offset := (0, 0); extent := ext |}]]
      else [].
Proof.
  intros Hrp.
  destruct (SetRenderPass_session renderPass framebuffer ext (recorder s) Hrp)
    as (r1 & E & Hinv & Hext & Hcb).
  rewrite run_bind, lift_run, E. cbn [fst snd].
  destruct (pipelines_set_scissor_once ops {| recorder := r1; commands := commands s |})
    as (s' & new & Erun & Hc & Hf & _).
  cbn [recorder commands] in *.
  exists s', new. rewrite Hinv, Hext, Hcb in Hf. auto.
Qed.

Lemma scissor_set_once_per_render_pass_witness :
  exists s' new,
    (lift (SetRenderPass 500 501 (800, 600)) ;;
     for_each [BindGraphics clipped; BindGraphics unclipped; BindCompute 702;
               BindGraphics unclipped] run_PipelineOp) idle_recorder
      = (Ok tt, s') /\
    commands s' = commands idle_recorder ++ new /\
    List.filter is_vkCmdSetScissor new =
      if existsb wants_full_scissor
           [BindGraphics clipped; BindGraphics unclipped; BindCompute 702;
            BindGraphics unclipped]
      then [vkCmdSetScissor (commandBuffer_ (self (recorder idle_recorder))) 0 1
              [{| offset := (0, 0); extent := (800, 600) |}]]
      else [].
Proof.
  apply (scissor_set_once_per_render_pass 500 501 (800, 600)
           [BindGraphics clipped; BindGraphics unclipped; BindCompute 702;
            BindGraphics unclipped] idle_recorder).
  discriminate.
Defined.


(** X21. The destructor frees, in one vkFreeCommandBuffers, exactly
    the command buffers the constructor allocated in its
    vkAllocateCommandBuffers: same pool, same count, same handles. *)
Theorem destructor_frees_what_was_allocated (driver : Driver) (defaults : Session)
    (graphicsQueue : Z) (bufferCount : nat) (graphicsFamily : Z) :
  (forall trace, vkResult driver trace = VK_SUCCESS) ->
  (1 <= bufferCount)%nat ->
  Z.of_nat bufferCount < 2 ^ 32 ->
  exists st pool buffers,
    New driver defaults graphicsQueue bufferCount graphicsFamily = (Ok tt, st) /\
    vkAllocateCommandBuffers pool (Z.of_nat bufferCount) buffers ∈ calls st /\
    length buffers = bufferCount /\
    destruct_ {| recorder := st; commands := [] |} =
    (Ok tt, {| recorder := st;
               commands := [vkFreeCommandBuffers pool (Z.of_nat bufferCount) buffers] |}).
Proof.
  intros success Hpos Hsmall.
  destruct (VKCommandBufferSpec.New_run driver success defaults graphicsQueue bufferCount
              graphicsFamily Hpos Hsmall) as (st & Hrun & Hself & Hcalls & _).
  exists st, 1, (handles_from 2 bufferCount).
  split; [exact Hrun|]. split; [|split].
  - rewrite Hcalls. apply list_elem_of_further, list_elem_of_here.
  - apply VKCommandBufferSpec.length_handles_from.
  - unfold destruct_. step. cbn [recorder commands app id]. rewrite Hself.
    cbn [commandPool_ commandBufferList_].
    rewrite VKCommandBufferSpec.length_handles_from.
    unfold to_uint32. rewrite Z.mod_small by lia. reflexivity.
Qed.

Lemma destructor_frees_what_was_allocated_witness :
  exists st pool buffers,
    New succeeding defaults 1000 2 0 = (Ok tt, st) /\
    vkAllocateCommandBuffers pool (Z.of_nat 2) buffers ∈ calls st /\
    length buffers = 2%nat /\
    destruct_ {| recorder := st; commands := [] |} =
    (Ok tt, {| recorder := st;
               commands := [vkFreeCommandBuffers pool (Z.of_nat 2) buffers] |}).
Proof.
  apply (destructor_frees_what_was_allocated succeeding defaults 1000 2 0).
  - reflexivity.
  - lia.
  - reflexivity.
Defined.


End VKCommandsSpec.
